(** * Mutual-Fund-Analysis: the simulation and metrics engine of
      [utils/financials.ts], embedded in Rocq.

    The TypeScript code works on ECMAScript values.  They are modelled as
    follows.

    - A [number] that carries money, units, rates or prices is a binary64
      float: Rocq's primitive [float], whose operations are the IEEE-754
      ones the JavaScript engine uses.
    - A [number] that is always an integer or NaN (a time value in
      milliseconds, a year, a month, a day of the month) is an [option Z],
      [None] standing for NaN.
    - A [Date] object is its time value.  The local time zone of the host is
      taken to be UTC, so that local midnight of a calendar day is a multiple
      of [msPerDay].
    - The host functions that turn text into numbers ([Number], [parseFloat])
      and [Math.pow] are fields of the class [Host]: the engine is verified
      for every host, and [RefHost] is an executable one used to run
      examples.
    - Reading the clock ([new Date()]) is an explicit argument [clock], the
      time value the host would return. *)

From Stdlib Require Import ZArith List String Ascii Bool Lia Floats Sorted.
From Stdlib Require Uint63.
Import ListNotations.

Set Warnings "-inexact-float".

Local Open Scope Z_scope.
Local Open Scope bool_scope.

(* ================================================================== *)
(** * The host language *)
(* ================================================================== *)

Module JS.

(** ** Numbers *)

(** The float nearest to an integer below 2^63 in absolute value. *)
Definition Z2float (z : Z) : float :=
  if z <? 0 then (- of_uint63 (Uint63.of_Z (- z)))%float
  else of_uint63 (Uint63.of_Z z).

(** [ToIntegerOrInfinity], with NaN and the two infinities mapped to [None]:
    the callers below treat the three alike. *)
Definition truncZ (x : float) : option Z :=
  match Prim2SF x with
  | S754_zero _ => Some 0
  | S754_finite s m e =>
      let a := if 0 <=? e then Z.pos m * 2 ^ e else Z.pos m / 2 ^ (- e) in
      Some (if s then - a else a)
  | S754_infinity _ | S754_nan => None
  end.

(** JavaScript truthiness of a number: false for [0], [-0] and NaN. *)
Definition truthy (x : float) : bool :=
  negb ((x =? 0)%float || is_nan x).

(** [Math.round]: the nearest integer, ties towards +infinity; the result
    keeps the sign of a negative argument that rounds to zero. *)
Definition Math_round (x : float) : float :=
  match Prim2SF x with
  | S754_finite s m e =>
      if 0 <=? e then x
      else
        let k := - e in
        let n := ((if s then - (2 * Z.pos m) else 2 * Z.pos m) + 2 ^ k)
                   / 2 ^ (k + 1) in
        if n =? 0 then (if s then (-0)%float else 0%float) else Z2float n
  | _ => x
  end.

(** [Math.max] of two numbers. *)
Definition Math_max (a b : float) : float :=
  if is_nan a || is_nan b then nan
  else if (a <? b)%float then b
  else if (b <? a)%float then a
  else if (a =? 0)%float then (a + b)%float
  else a.

(** [isNaN(x) || !isFinite(x)]. *)
Definition not_finite (x : float) : bool :=
  is_nan x || negb (is_finite x).

(** Integer-valued numbers: [None] is NaN.  Every comparison with NaN is
    false. *)
Definition jsint := option Z.

Definition int_leb (a b : jsint) : bool :=
  match a, b with Some x, Some y => x <=? y | _, _ => false end.

Definition int_geb (a b : jsint) : bool := int_leb b a.

Definition int_ltb (a b : jsint) : bool :=
  match a, b with Some x, Some y => x <? y | _, _ => false end.

Definition int_gtb (a b : jsint) : bool := int_ltb b a.

(** [===] on two integer-valued numbers. *)
Definition int_eqb (a b : jsint) : bool :=
  match a, b with Some x, Some y => x =? y | _, _ => false end.

(** [Math.min] of two integer-valued numbers. *)
Definition int_min (a b : jsint) : jsint :=
  match a, b with Some x, Some y => Some (Z.min x y) | _, _ => None end.

(** [Math.min(...xs)] of a non-empty list. *)
Definition int_min_list (xs : list jsint) : jsint :=
  match xs with
  | [] => None
  | x :: rest => fold_left int_min rest x
  end.

(** The difference of two time values as a float.  Time values are integers
    below 2^53 in absolute value, hence floats, and the IEEE difference of
    two floats is their exact difference rounded. *)
Definition int_sub (a b : jsint) : float :=
  match a, b with Some x, Some y => Z2float (x - y) | _, _ => nan end.

(** ** Calendar *)

Definition msPerDay : Z := 86400000.

(** Day number (days since 1970-01-01) of a proleptic Gregorian date,
    [m] in 1..12. *)
Definition days_from_civil (y m d : Z) : Z :=
  let y' := if m <=? 2 then y - 1 else y in
  let era := y' / 400 in
  let yoe := y' - era * 400 in
  let mp := (m + 9) mod 12 in
  let doy := (153 * mp + 2) / 5 + d - 1 in
  let doe := yoe * 365 + yoe / 4 - yoe / 100 + doy in
  era * 146097 + doe - 719468.

(** Year, month (1..12) and day of the month of a day number. *)
Definition civil_from_days (z : Z) : Z * Z * Z :=
  let z := z + 719468 in
  let era := z / 146097 in
  let doe := z - era * 146097 in
  let yoe := (doe - doe / 1460 + doe / 36524 - doe / 146096) / 365 in
  let doy := doe - (365 * yoe + yoe / 4 - yoe / 100) in
  let mp := (5 * doy + 2) / 153 in
  let d := doy - (153 * mp + 2) / 5 + 1 in
  let m := if mp <? 10 then mp + 3 else mp - 9 in
  let y := yoe + era * 400 in
  (if m <=? 2 then y + 1 else y, m, d).

Definition Day (t : Z) : Z := t / msPerDay.
Definition TimeWithinDay (t : Z) : Z := t mod msPerDay.
Definition YearFromTime (t : Z) : Z := fst (fst (civil_from_days (Day t))).
(** Months count from 0, as in ECMAScript. *)
Definition MonthFromTime (t : Z) : Z := snd (fst (civil_from_days (Day t))) - 1.
Definition DateFromTime (t : Z) : Z := snd (civil_from_days (Day t)).

(** [MakeDay]: the month may lie outside 0..11 and the day outside the
    month; both carry over. *)
Definition MakeDay (year month date : Z) : Z :=
  days_from_civil (year + month / 12) (month mod 12 + 1) 1 + date - 1.

(** ** Date objects *)

Record Date : Set := mkDate { getTime : jsint }.

Definition InvalidDate : Date := mkDate None.

Definition TimeClip (t : Z) : Date :=
  if 8640000000000000 <? Z.abs t then InvalidDate else mkDate (Some t).

(** [new Date(value)] for a number, and [new Date(date)] copying a date. *)
Definition Date_of_time (t : jsint) : Date :=
  match t with Some t => TimeClip t | None => InvalidDate end.

(** [new Date(y, m, d)]: a two-digit year counts from 1900. *)
Definition new_Date (y m d : jsint) : Date :=
  match y, m, d with
  | Some y, Some m, Some d =>
      let yr := if (0 <=? y) && (y <=? 99) then 1900 + y else y in
      TimeClip (MakeDay yr m d * msPerDay)
  | _, _, _ => InvalidDate
  end.

Definition getFullYear (d : Date) : jsint := option_map YearFromTime (getTime d).
Definition getMonth (d : Date) : jsint := option_map MonthFromTime (getTime d).
Definition getDate (d : Date) : jsint := option_map DateFromTime (getTime d).

(** [d.setDate(dt)]. *)
Definition setDate (d : Date) (dt : Z) : Date :=
  match getTime d with
  | Some t =>
      TimeClip (MakeDay (YearFromTime t) (MonthFromTime t) dt * msPerDay
                + TimeWithinDay t)
  | None => InvalidDate
  end.

(** [d.setMonth(m)]. *)
Definition setMonth (d : Date) (m : jsint) : Date :=
  match getTime d, m with
  | Some t, Some m =>
      TimeClip (MakeDay (YearFromTime t) m (DateFromTime t) * msPerDay
                + TimeWithinDay t)
  | _, _ => InvalidDate
  end.

(** [d.setHours(0,0,0,0)]. *)
Definition setHours0 (d : Date) : Date :=
  match getTime d with
  | Some t => TimeClip (Day t * msPerDay)
  | None => InvalidDate
  end.

(** Comparison of two dates with [<=], [>=], [>]: of their time values. *)
Definition date_leb (a b : Date) : bool := int_leb (getTime a) (getTime b).
Definition date_geb (a b : Date) : bool := int_geb (getTime a) (getTime b).
Definition date_gtb (a b : Date) : bool := int_gtb (getTime a) (getTime b).

(** ** Text *)

(** [s.split(sep)] for a one-character separator. *)
Fixpoint split (sep : ascii) (s : string) : list string :=
  match s with
  | EmptyString => [EmptyString]
  | String c rest =>
      if Ascii.eqb c sep then EmptyString :: split sep rest
      else match split sep rest with
           | [] => [String c EmptyString]
           | w :: ws => String c w :: ws
           end
  end.

Definition month_names : list string :=
  ["Jan"; "Feb"; "Mar"; "Apr"; "May"; "Jun";
   "Jul"; "Aug"; "Sep"; "Oct"; "Nov"; "Dec"]%string.

Definition digit_char (n : Z) : string :=
  String (ascii_of_nat (48 + Z.to_nat (n mod 10))) EmptyString.

(** [d.toLocaleDateString('en-US', {month: 'short', year: '2-digit'})]. *)
Definition month_label (d : Date) : string :=
  match getTime d with
  | Some t =>
      let y := YearFromTime t in
      (nth (Z.to_nat (MonthFromTime t)) month_names "" ++ " "
        ++ digit_char (y / 10) ++ digit_char y)%string
  | None => "Invalid Date"%string
  end.

(** ** What the host supplies *)

Class Host : Type := {
  (** [Number(s)] of a string *)
  ToNumber : string -> float;
  (** [parseFloat(s)] *)
  parseFloat : string -> float;
  (** [Math.pow(x, y)] *)
  Math_pow : float -> float -> float
}.

(** ** A reference host

    Exact on the inputs of the examples: short strings of decimal digits,
    short plain decimals, and small natural exponents. *)

Definition is_digit (c : ascii) : bool :=
  let n := nat_of_ascii c in (48 <=? n)%nat && (n <=? 57)%nat.

Definition digit_val (c : ascii) : Z := Z.of_nat (nat_of_ascii c) - 48.

(** Reads the digits at the head of [s]: their value continuing [acc], how
    many there are, and the rest. *)
Fixpoint read_digits (s : string) (acc : Z) (n : nat) : Z * nat * string :=
  match s with
  | String c rest =>
      if is_digit c then read_digits rest (10 * acc + digit_val c) (S n)
      else (acc, n, s)
  | EmptyString => (acc, n, s)
  end.

Definition ref_ToNumber (s : string) : float :=
  let '(v, n, rest) := read_digits s 0 0 in
  match rest with
  | EmptyString => if (n <=? 15)%nat then Z2float v else nan
  | _ => nan
  end.

Definition ref_parseFloat (s : string) : float :=
  let '(neg, body) :=
    match s with
    | String "-"%char rest => (true, rest)
    | _ => (false, s)
    end in
  let '(v, n, rest) := read_digits body 0 0 in
  let '(m, k) :=
    match rest with
    | String "."%char frac =>
        let '(v', n', _) := read_digits frac v n in (v', (n' - n)%nat)
    | _ => (v, 0%nat)
    end in
  let digits := (n + k)%nat in
  if (digits =? 0)%nat || (15 <? digits)%nat then nan
  else
    let x := (Z2float m / Z2float (10 ^ Z.of_nat k))%float in
    if neg then (- x)%float else x.

Fixpoint pow_nat (b : float) (n : nat) : float :=
  match n with
  | O => 1%float
  | S O => b
  | S n' => (pow_nat b n' * b)%float
  end.

Definition ref_pow (b e : float) : float :=
  match truncZ e with
  | Some n =>
      if (Z2float n =? e)%float && (0 <=? n) && (n <=? 64)
      then pow_nat b (Z.to_nat n) else nan
  | None => nan
  end.

Definition RefHost : Host :=
  {| ToNumber := ref_ToNumber;
     parseFloat := ref_parseFloat;
     Math_pow := ref_pow |}.

End JS.

Import JS.

(* ================================================================== *)
(** * Data model ([types.ts]) *)
(* ================================================================== *)

(** One sample of a valuation series: the date as [dd-mm-yyyy] text and the
    per-unit value as text, as the data provider sends them. *)
Module NAVData.
Record t : Set := mk { date : string; nav : string }.
End NAVData.

Inductive InvestmentType : Set := SIP | LUMPSUM.

(** The fields of an investment record that the engine reads. *)
Module Investment.
Record t : Set := mk {
  name : string;
  isDirect : bool;
  navHistory : list NAVData.t;
  counterpartNavHistory : option (list NAVData.t);
  type : InvestmentType;
  amount : float;
  startDate : string;
  endDate : option string
}.
End Investment.

Module ChartDataPoint.
Record t : Set := mk {
  month : string;
  directValue : float;
  regularValue : float;
  actualValue : float;
  counterpartValue : float;
  investedAmount : float;
  benchmarkValue : option float
}.
End ChartDataPoint.

Module PortfolioMetrics.
Record t : Set := mk {
  totalInvested : float;
  currentValue : float;
  regularValue : float;
  actualValue : float;
  counterpartValue : float;
  netImpact : float;
  yearlyImpact : float;
  xirr : float;
  absoluteReturn : float;
  maxDrawdown : float;
  romad : float;
  alpha : option float;
  beta : option float
}.
End PortfolioMetrics.

(** Negative amounts are outflows, positive ones inflows. *)
Module CashFlow.
Record t : Set := mk { date : Date; amount : float }.
End CashFlow.

(** What [simulateInvestment] returns. *)
Module Simulation.
Record t : Set := mk {
  units : float;
  totalInvested : float;
  cashFlows : list CashFlow.t;
  currentValue : float
}.
End Simulation.

(** One row of [calculateFundRatios]. *)
Module FundRatio.
Record t : Set := mk {
  name : string;
  invested : float;
  currentValue : float;
  xirr : float;
  volatility : float;
  beta : float;
  alpha : float
}.
End FundRatio.

Module PortfolioRatio.
Record t : Set := mk {
  invested : float;
  currentValue : float;
  xirr : float;
  volatility : float;
  beta : float;
  alpha : float
}.
End PortfolioRatio.

(** What [calculateFundRatios] returns. *)
Module FundRatios.
Record t : Set := mk {
  funds : list FundRatio.t;
  portfolio : PortfolioRatio.t
}.
End FundRatios.

(** The row of the working table of [generateBacktestData]: the investment
    and the accumulators the loop updates in place. *)
Module Holding.
Record t : Set := mk {
  inv : Investment.t;
  parsedStartDate : Date;
  parsedEndDate : option Date;
  unitsDirect : float;
  unitsRegular : float;
  totalInvested : float;
  hasLumpsumInvested : bool
}.
End Holding.

(** The five running totals of the second [forEach] of
    [generateBacktestData]. *)
Module Totals.
Record t : Set := mk {
  invested : float;
  direct : float;
  regular : float;
  actual : float;
  counterpart : float
}.
End Totals.

Inductive Mode : Set := PURCHASE | VALUATION.

(** [arr.length > 0] for an array that may be undefined. *)
Definition has_samples (h : option (list NAVData.t)) : bool :=
  match h with Some (_ :: _) => true | _ => false end.

(** [n + 1] on an integer-valued number. *)
Definition int_succ (n : jsint) : jsint := option_map (Z.add 1) n.

(** [reduce((a, b) => a + b, 0)]. *)
Definition sum (xs : list float) : float :=
  fold_left (fun a b => (a + b)%float) xs 0%float.

(** The length of an array, as a number. *)
Definition len {A : Type} (xs : list A) : float := Z2float (Z.of_nat (List.length xs)).

(* ================================================================== *)
(** * The engine ([utils/financials.ts]) *)
(* ================================================================== *)

Section Financials.

Context {host : Host}.

Local Open Scope float_scope.

(** ** Dates of the two text formats *)

(** ["dd-mm-yyyy"], the format of the data provider. *)
Definition parseAPIDate (dateStr : string) : Date :=
  let parts := map ToNumber (split "-" dateStr) in
  let d := nth 0 parts nan in
  let m := nth 1 parts nan in
  let y := nth 2 parts nan in
  new_Date (truncZ y) (truncZ (m - 1)) (truncZ d).

(** ["yyyy-mm-dd"], the format of the input forms. *)
Definition parseISODate (dateStr : string) : Date :=
  let parts := map ToNumber (split "-" dateStr) in
  let y := nth 0 parts nan in
  let m := nth 1 parts nan in
  let d := nth 2 parts nan in
  new_Date (truncZ y) (truncZ (m - 1)) (truncZ d).

Definition sample_time (h : NAVData.t) : jsint :=
  getTime (parseAPIDate (NAVData.date h)).

Definition sample_value (h : NAVData.t) : float :=
  parseFloat (NAVData.nav h).

(** ** Looking a value up in a series *)

(** [PURCHASE] walks the array from its last index down and takes the first
    sample on or after the target; when there is none and the target is
    after the sample at index 0, it takes that sample.  [VALUATION] walks
    the array from index 0 up and takes the first sample on or before the
    target.  [None] is [null]. *)
Definition getNAV (history : list NAVData.t) (targetDate : Date) (mode : Mode)
  : option float :=
  match history with
  | [] => None
  | h0 :: _ =>
      let targetTime := getTime targetDate in
      match mode with
      | PURCHASE =>
          match find (fun h => int_geb (sample_time h) targetTime) (rev history) with
          | Some h => Some (sample_value h)
          | None =>
              if int_gtb targetTime (sample_time h0)
              then Some (sample_value h0)
              else None
          end
      | VALUATION =>
          match find (fun h => int_leb (sample_time h) targetTime) history with
          | Some h => Some (sample_value h)
          | None => None
          end
      end
  end.

(** [if (nav)] on the result of a lookup: a value that is neither [null],
    nor zero, nor NaN. *)
Definition usable (r : option float) : option float :=
  match r with
  | Some nav => if truthy nav then Some nav else None
  | None => None
  end.

(** ** Simulating one investment *)

(** The running totals of [simulateInvestment]. *)
Definition Tally : Set := float * float * list CashFlow.t.

(** A contribution of [amt] on [paymentDate], bought at the purchase value
    found for that date, if any. *)
Definition buy (navHistory : list NAVData.t) (amt : float) (paymentDate : Date)
    (acc : Tally) : Tally :=
  let '(units, totalInvested, cashFlows) := acc in
  match usable (getNAV navHistory paymentDate PURCHASE) with
  | Some nav =>
      (units + amt / nav, totalInvested + amt,
       cashFlows ++ [CashFlow.mk paymentDate (- amt)])
  | None => acc
  end.

(** The date on which a monthly contribution falls in the month of
    [cursorDate], and whether it counts: on or after the start, not after
    today, not after the end date. *)
Definition sip_payment (startDate : Date) (endDate : option Date) (now : Date)
    (year month : jsint) : option Date :=
  let startDay := getDate startDate in
  let maxDayInMonth := getDate (new_Date year (int_succ month) (Some 0%Z)) in
  let actualDay := int_min startDay maxDayInMonth in
  let paymentDate := new_Date year month actualDay in
  let isStarted := int_geb (getTime paymentDate) (getTime startDate) in
  let isNotFuture := date_leb paymentDate now in
  let isBeforeEnd :=
    match endDate with Some e => date_leb paymentDate e | None => true end in
  if isStarted && isNotFuture && isBeforeEnd then Some paymentDate else None.

(** The [while (cursorDate <= now)] loop of the SIP branch; one unit of
    [fuel] per month. *)
Fixpoint sip_loop (fuel : nat) (navHistory : list NAVData.t) (amt : float)
    (startDate : Date) (endDate : option Date) (now cursorDate : Date)
    (acc : Tally) : Tally :=
  match fuel with
  | O => acc
  | S fuel' =>
      if date_leb cursorDate now then
        let year := getFullYear cursorDate in
        let month := getMonth cursorDate in
        let acc' :=
          match sip_payment startDate endDate now year month with
          | Some paymentDate => buy navHistory amt paymentDate acc
          | None => acc
          end in
        sip_loop fuel' navHistory amt startDate endDate now
          (setMonth cursorDate (int_succ (getMonth cursorDate))) acc'
      else acc
  end.

(** Every turn of a monthly loop moves the cursor by 28 days or more, so
    this many turns reach [now]. *)
Definition months_fuel (cursorDate now : Date) : nat :=
  match getTime cursorDate, getTime now with
  | Some c, Some n => S (Z.to_nat ((n - c) / (28 * msPerDay)))
  | _, _ => 1%nat
  end.

(** [inv.endDate ? parseISODate(inv.endDate) : null]: an empty text counts
    as no end date. *)
Definition parse_end (e : option string) : option Date :=
  match e with
  | Some EmptyString | None => None
  | Some s => Some (parseISODate s)
  end.

(** Today at midnight: [new Date()] followed by [setHours(0,0,0,0)]. *)
Definition today (clock : Z) : Date := setHours0 (mkDate (Some clock)).

Definition simulateInvestment (clock : Z) (inv : Investment.t)
    (navHistory : option (list NAVData.t)) : Simulation.t :=
  match navHistory with
  | None | Some [] => Simulation.mk 0 0 [] 0
  | Some ((h0 :: _) as history) =>
      let startDate := parseISODate (Investment.startDate inv) in
      let endDate := parse_end (Investment.endDate inv) in
      let now := today clock in
      let '(units, totalInvested, cashFlows) :=
        match Investment.type inv with
        | LUMPSUM => buy history (Investment.amount inv) startDate (0, 0, [])
        | SIP =>
            let cursorDate := setDate startDate 1 in
            sip_loop (months_fuel cursorDate now) history (Investment.amount inv)
              startDate endDate now cursorDate (0, 0, [])
        end in
      let currentNav := sample_value h0 in
      Simulation.mk units totalInvested cashFlows (units * currentNav)
  end.

(** ** Month-by-month replay of a portfolio *)

(** The filter of [generateBacktestData]: a series of its own or of the
    counterpart with at least one sample. *)
Definition is_active (i : Investment.t) : bool :=
  has_samples (Some (Investment.navHistory i))
  || has_samples (Investment.counterpartNavHistory i).

Definition open_holding (i : Investment.t) : Holding.t :=
  Holding.mk i (parseISODate (Investment.startDate i))
    (parse_end (Investment.endDate i)) 0 0 0 false.

(** The contribution date of a holding in the month [year]/[month], or
    [None] when nothing is due.  A lump sum is due once, in the month of its
    start date. *)
Definition payment_due (now : Date) (year month : jsint) (h : Holding.t)
  : option Date :=
  match Investment.type (Holding.inv h) with
  | SIP =>
      sip_payment (Holding.parsedStartDate h) (Holding.parsedEndDate h) now
        year month
  | LUMPSUM =>
      if negb (Holding.hasLumpsumInvested h) then
        let sameMonth :=
          int_eqb (getMonth (Holding.parsedStartDate h)) month
          && int_eqb (getFullYear (Holding.parsedStartDate h)) year in
        if sameMonth then Some (Holding.parsedStartDate h) else None
      else None
  end.

(** [units += amount / nav] when the purchase value is usable. *)
Definition add_units (units amt : float) (history : list NAVData.t)
    (paymentDate : Date) : float :=
  match usable (getNAV history paymentDate PURCHASE) with
  | Some nav => units + amt / nav
  | None => units
  end.

(** The body of the first [forEach]: the holding and the benchmark units
    after the contribution of this month, if one is due. *)
Definition contribute (benchmarkHistory : option (list NAVData.t)) (now : Date)
    (year month : jsint) (h : Holding.t) (benchmarkUnits : float)
  : Holding.t * float :=
  match payment_due now year month h with
  | None => (h, benchmarkUnits)
  | Some paymentDate =>
      let i := Holding.inv h in
      let amt := Investment.amount i in
      let lumpsum :=
        match Investment.type i with
        | LUMPSUM => true
        | SIP => Holding.hasLumpsumInvested h
        end in
      let own := Investment.navHistory i in
      let other := Investment.counterpartNavHistory i in
      let unitsDirect :=
        if Investment.isDirect i && has_samples (Some own)
        then add_units (Holding.unitsDirect h) amt own paymentDate
        else if negb (Investment.isDirect i) && has_samples other
        then add_units (Holding.unitsDirect h) amt
               (match other with Some o => o | None => [] end) paymentDate
        else Holding.unitsDirect h in
      let unitsRegular :=
        if negb (Investment.isDirect i) && has_samples (Some own)
        then add_units (Holding.unitsRegular h) amt own paymentDate
        else if Investment.isDirect i && has_samples other
        then add_units (Holding.unitsRegular h) amt
               (match other with Some o => o | None => [] end) paymentDate
        else Holding.unitsRegular h in
      let benchmarkUnits' :=
        match benchmarkHistory with
        | Some ((_ :: _) as b) => add_units benchmarkUnits amt b paymentDate
        | _ => benchmarkUnits
        end in
      (Holding.mk i (Holding.parsedStartDate h) (Holding.parsedEndDate h)
         unitsDirect unitsRegular (Holding.totalInvested h + amt) lumpsum,
       benchmarkUnits')
  end.

(** The first [forEach] over the working table. *)
Fixpoint contribute_all (benchmarkHistory : option (list NAVData.t)) (now : Date)
    (year month : jsint) (portfolio : list Holding.t) (benchmarkUnits : float)
  : list Holding.t * float :=
  match portfolio with
  | [] => ([], benchmarkUnits)
  | h :: rest =>
      let '(h', bu) := contribute benchmarkHistory now year month h benchmarkUnits in
      let '(rest', bu') := contribute_all benchmarkHistory now year month rest bu in
      (h' :: rest', bu')
  end.

(** The value of [units] at the month end: zero unless the units are
    positive, the series exists and the valuation lookup gives a usable
    value. *)
Definition value_at (units : float) (history : option (list NAVData.t))
    (monthEndDate : Date) : float :=
  if 0 <? units then
    match history with
    | Some hist =>
        match usable (getNAV hist monthEndDate VALUATION) with
        | Some nav => units * nav
        | None => 0
        end
    | None => 0
    end
  else 0.

(** The series of the direct plan and of the regular plan of a holding. *)
Definition historyD (i : Investment.t) : option (list NAVData.t) :=
  if Investment.isDirect i then Some (Investment.navHistory i)
  else Investment.counterpartNavHistory i.

Definition historyR (i : Investment.t) : option (list NAVData.t) :=
  if negb (Investment.isDirect i) then Some (Investment.navHistory i)
  else Investment.counterpartNavHistory i.

Definition valD (monthEndDate : Date) (h : Holding.t) : float :=
  value_at (Holding.unitsDirect h) (historyD (Holding.inv h)) monthEndDate.

Definition valR (monthEndDate : Date) (h : Holding.t) : float :=
  value_at (Holding.unitsRegular h) (historyR (Holding.inv h)) monthEndDate.

(** The body of the second [forEach]. *)
Definition add_holding (monthEndDate : Date) (acc : Totals.t) (h : Holding.t)
  : Totals.t :=
  let d := valD monthEndDate h in
  let r := valR monthEndDate h in
  Totals.mk
    (Totals.invested acc + Holding.totalInvested h)
    (Totals.direct acc + d)
    (Totals.regular acc + r)
    (if Investment.isDirect (Holding.inv h)
     then Totals.actual acc + d else Totals.actual acc + r)
    (if Investment.isDirect (Holding.inv h)
     then Totals.counterpart acc + r else Totals.counterpart acc + d).

Definition month_totals (monthEndDate : Date) (portfolio : list Holding.t)
  : Totals.t :=
  fold_left (add_holding monthEndDate) portfolio (Totals.mk 0 0 0 0 0).

(** The last day of the month of the cursor, or today when that day is
    still to come. *)
Definition month_end (now : Date) (year month : jsint) : Date :=
  let monthEndDate := new_Date year (int_succ month) (Some 0%Z) in
  if date_gtb monthEndDate now then Date_of_time (getTime now) else monthEndDate.

(** The benchmark value of the month. *)
Definition benchmark_total (benchmarkHistory : option (list NAVData.t))
    (benchmarkUnits : float) (monthEndDate : Date) : float :=
  if has_samples benchmarkHistory && (0 <? benchmarkUnits) then
    match benchmarkHistory with
    | Some b =>
        match usable (getNAV b monthEndDate VALUATION) with
        | Some bNav => benchmarkUnits * bNav
        | None => 0
        end
    | None => 0
    end
  else 0.

(** The data point of a month, pushed when the invested total is
    positive. *)
Definition snapshot (benchmarkHistory : option (list NAVData.t))
    (monthEndDate : Date) (t : Totals.t) (totalBenchmarkVal : float)
  : ChartDataPoint.t :=
  ChartDataPoint.mk (month_label monthEndDate)
    (Math_round (Totals.direct t))
    (Math_round (Totals.regular t))
    (Math_round (Totals.actual t))
    (Math_round (Totals.counterpart t))
    (Math_round (Totals.invested t))
    (if has_samples benchmarkHistory
     then Some (Math_round totalBenchmarkVal) else None).

(** The cursor a month later, on the first of the month. *)
Definition next_month (cursorDate : Date) : Date :=
  setDate (setMonth cursorDate (int_succ (getMonth cursorDate))) 1.

(** The [while (cursorDate <= now)] loop of [generateBacktestData]. *)
Fixpoint backtest_loop (fuel : nat) (benchmarkHistory : option (list NAVData.t))
    (now cursorDate : Date) (portfolio : list Holding.t) (benchmarkUnits : float)
    (dataPoints : list ChartDataPoint.t) : list ChartDataPoint.t :=
  match fuel with
  | O => dataPoints
  | S fuel' =>
      if date_leb cursorDate now then
        let year := getFullYear cursorDate in
        let month := getMonth cursorDate in
        let monthEndDate := month_end now year month in
        let '(portfolio', benchmarkUnits') :=
          contribute_all benchmarkHistory now year month portfolio benchmarkUnits in
        let t := month_totals monthEndDate portfolio' in
        let totalBenchmarkVal :=
          benchmark_total benchmarkHistory benchmarkUnits' monthEndDate in
        let dataPoints' :=
          if 0 <? Totals.invested t
          then dataPoints ++ [snapshot benchmarkHistory monthEndDate t totalBenchmarkVal]
          else dataPoints in
        backtest_loop fuel' benchmarkHistory now (next_month cursorDate)
          portfolio' benchmarkUnits' dataPoints'
      else dataPoints
  end.

Definition generateBacktestData (clock : Z) (investments : list Investment.t)
    (benchmarkHistory : option (list NAVData.t)) : list ChartDataPoint.t :=
  match filter is_active investments with
  | [] => []
  | activeInvestments =>
      let startDates :=
        map (fun i => getTime (parseISODate (Investment.startDate i)))
          activeInvestments in
      let minDate :=
        setHours0 (setDate (Date_of_time (int_min_list startDates)) 1) in
      let now := today clock in
      let portfolio := map open_holding activeInvestments in
      backtest_loop (months_fuel minDate now) benchmarkHistory now minDate
        portfolio 0 []
  end.

(** ** Money-weighted return *)

(** What one flow adds to the net present value and to its derivative at
    [rate]; [t0] is the time of the first flow. *)
Definition flow_terms (t0 : jsint) (rate : float) (acc : float * float)
    (flow : CashFlow.t) : float * float :=
  let '(fValue, fDerivative) := acc in
  let days := int_sub (getTime (CashFlow.date flow)) t0 / 86400000 in
  let years := days / 365 in
  let r := Math_max rate (-0.99) in
  let pvFactor := Math_pow (1 + r) years in
  (fValue + CashFlow.amount flow / pvFactor,
   fDerivative - (years * CashFlow.amount flow) / (pvFactor * (1 + r))).

(** The inner [for] loop: the value and the derivative over all flows. *)
Definition npv (flows : list CashFlow.t) (rate : float) : float * float :=
  match flows with
  | [] => (0, 0)
  | f0 :: _ => fold_left (flow_terms (getTime (CashFlow.date f0)) rate) flows (0, 0)
  end.

(** [Math.abs(fValue) < 1]. *)
Definition converged (flows : list CashFlow.t) (rate : float) : bool :=
  abs (fst (npv flows rate)) <? 1.

(** [rate - fValue / fDerivative]. *)
Definition newton_step (flows : list CashFlow.t) (rate : float) : float :=
  rate - fst (npv flows rate) / snd (npv flows rate).

(** The outer [for] loop with [n] iterations left. *)
Fixpoint xirr_loop (n : nat) (flows : list CashFlow.t) (rate : float) : float :=
  match n with
  | O => rate * 100
  | S n' =>
      if converged flows rate then rate * 100
      else
        let newRate := newton_step flows rate in
        if not_finite newRate then 0 else xirr_loop n' flows newRate
  end.

Definition calculateXIRR (transactions : list CashFlow.t) (currentValue : float)
    (valuationDate : Date) : float :=
  let flows := transactions ++ [CashFlow.mk valuationDate currentValue] in
  if (List.length flows <? 2)%nat then 0
  else xirr_loop 50 flows 0.1.

(** ** Drawdown *)

Definition drawdown_step (acc : float * float) (v : float) : float * float :=
  let '(maxPeak, maxDrawdown) := acc in
  let maxPeak' := if maxPeak <? v then v else maxPeak in
  let drawdown := (maxPeak' - v) / maxPeak' in
  (maxPeak', if maxDrawdown <? drawdown then drawdown else maxDrawdown).

Definition calculateMaxDrawdown (values : list float) : float :=
  match values with
  | [] => 0
  | v0 :: _ => snd (fold_left drawdown_step values (v0, 0)) * 100
  end.

(** ** Volatility *)

(** [sort((a, b) => a.date.getTime() - b.date.getTime())] on samples whose
    dates are all valid: the stable ascending sort. *)
Fixpoint insert_by_time (x : Date * float) (l : list (Date * float))
  : list (Date * float) :=
  match l with
  | [] => [x]
  | y :: rest =>
      if int_ltb (getTime (fst x)) (getTime (fst y)) then x :: l
      else y :: insert_by_time x rest
  end.

Definition sort_by_time (l : list (Date * float)) : list (Date * float) :=
  fold_left (fun acc x => insert_by_time x acc) l [].

(** [(x[i] - x[i-1]) / x[i-1]] for [i] from 1. *)
Fixpoint period_returns (prev : float) (rest : list float) : list float :=
  match rest with
  | [] => []
  | x :: rest' => (x - prev) / prev :: period_returns x rest'
  end.

Definition calculateVolatility (navHistory : list NAVData.t) (startDate : Date)
  : float :=
  let history :=
    sort_by_time
      (filter (fun h => date_geb (fst h) startDate)
         (map (fun h => (parseAPIDate (NAVData.date h), sample_value h)) navHistory)) in
  if (List.length history <? 30)%nat then 0
  else
    let returns :=
      match map snd history with
      | [] => []
      | x :: rest => period_returns x rest
      end in
    let mean := sum returns / len returns in
    let variance :=
      fold_left (fun a b => a + Math_pow (b - mean) 2) returns 0 / len returns in
    sqrt variance * sqrt 252 * 100.

(** ** Beta *)

(** The [Map] from date text to value: [set] puts a binding in front, [get]
    takes the first binding of the key, which is the last one set. *)
Definition assetMap_of (assetHistory : list NAVData.t) : list (string * float) :=
  fold_left (fun m h => (NAVData.date h, sample_value h) :: m) assetHistory [].

Definition Map_has (m : list (string * float)) (k : string) : bool :=
  existsb (fun kv => String.eqb (fst kv) k) m.

(** [m.get(k)!]; the arithmetic that follows turns [undefined] into NaN. *)
Definition Map_get (m : list (string * float)) (k : string) : float :=
  match find (fun kv => String.eqb (fst kv) k) m with
  | Some kv => snd kv
  | None => nan
  end.

(** The dates of the benchmark, on or after [startDate], that the asset has
    too, oldest first when the benchmark is stored newest first. *)
Definition commonDates (assetHistory benchmarkHistory : list NAVData.t)
    (startDate : Date) : list string :=
  let assetMap := assetMap_of assetHistory in
  rev (map NAVData.date
         (filter (fun h => date_geb (parseAPIDate (NAVData.date h)) startDate
                           && Map_has assetMap (NAVData.date h))
            benchmarkHistory)).

(** [parseFloat(benchmarkHistory.find(h => h.date === d)!.nav)]. *)
Definition bench_value (benchmarkHistory : list NAVData.t) (d : string) : float :=
  match find (fun h => String.eqb (NAVData.date h) d) benchmarkHistory with
  | Some h => sample_value h
  | None => nan
  end.

(** The returns of the asset and of the benchmark between consecutive
    common dates. *)
Fixpoint aligned_returns (assetMap : list (string * float))
    (benchmarkHistory : list NAVData.t) (prevDate : string) (rest : list string)
  : list (float * float) :=
  match rest with
  | [] => []
  | currDate :: rest' =>
      let assetCurr := Map_get assetMap currDate in
      let assetPrev := Map_get assetMap prevDate in
      let benchCurr := bench_value benchmarkHistory currDate in
      let benchPrev := bench_value benchmarkHistory prevDate in
      ((assetCurr - assetPrev) / assetPrev, (benchCurr - benchPrev) / benchPrev)
        :: aligned_returns assetMap benchmarkHistory currDate rest'
  end.

(** The pairs of returns that [calculateBeta] works on. *)
Definition beta_returns (assetHistory benchmarkHistory : list NAVData.t)
    (startDate : Date) : list (float * float) :=
  match commonDates assetHistory benchmarkHistory startDate with
  | [] => []
  | d0 :: rest => aligned_returns (assetMap_of assetHistory) benchmarkHistory d0 rest
  end.

(** The last loop: the sums called [covariance] and [varianceBench]. *)
Definition co_variance (returns : list (float * float)) : float * float :=
  let meanAsset := sum (map fst returns) / len returns in
  let meanBench := sum (map snd returns) / len returns in
  fold_left
    (fun acc ab =>
       (fst acc + (fst ab - meanAsset) * (snd ab - meanBench),
        snd acc + Math_pow (snd ab - meanBench) 2))
    returns (0, 0).

Definition calculateBeta (assetHistory benchmarkHistory : list NAVData.t)
    (startDate : Date) : float :=
  if (List.length (commonDates assetHistory benchmarkHistory startDate) <? 30)%nat
  then 1
  else
    let '(covariance, varianceBench) :=
      co_variance (beta_returns assetHistory benchmarkHistory startDate) in
    if varianceBench =? 0 then 1 else covariance / varianceBench.

(** ** Portfolio statistics *)

(** The running totals of the [forEach] of [calculatePortfolioStats]:
    invested, actual value, counterpart value and all cash flows. *)
Definition add_investment (clock : Z)
    (acc : float * float * float * list CashFlow.t) (inv : Investment.t)
  : float * float * float * list CashFlow.t :=
  let '(totalInvested, actualValue, counterpartValue, allCashFlows) := acc in
  let stats := simulateInvestment clock inv (Some (Investment.navHistory inv)) in
  let counterpartValue' :=
    if has_samples (Investment.counterpartNavHistory inv) then
      counterpartValue
      + Simulation.currentValue
          (simulateInvestment clock inv (Investment.counterpartNavHistory inv))
    else counterpartValue + Simulation.currentValue stats in
  (totalInvested + Simulation.totalInvested stats,
   actualValue + Simulation.currentValue stats,
   counterpartValue',
   allCashFlows ++ Simulation.cashFlows stats).

(** The month-over-month returns of the portfolio and of the benchmark, each
    net of the contribution of the month. *)
Fixpoint monthly_returns (prev : ChartDataPoint.t) (rest : list ChartDataPoint.t)
  : list (float * float) :=
  match rest with
  | [] => []
  | curr :: rest' =>
      let cashflow :=
        ChartDataPoint.investedAmount curr - ChartDataPoint.investedAmount prev in
      let later := monthly_returns curr rest' in
      if 0 <? ChartDataPoint.actualValue prev then
        match ChartDataPoint.benchmarkValue prev, ChartDataPoint.benchmarkValue curr with
        | Some prevB, Some currB =>
            let pDenom := ChartDataPoint.actualValue prev + cashflow in
            let pRet :=
              if 0 <? pDenom
              then (ChartDataPoint.actualValue curr - ChartDataPoint.actualValue prev
                    - cashflow) / pDenom
              else 0 in
            let bDenom := prevB + cashflow in
            let bRet :=
              if 0 <? bDenom then (currB - prevB - cashflow) / bDenom else 0 in
            (pRet, bRet) :: later
        | _, _ => later
        end
      else later
  end.

(** The variables [alpha] and [beta] of [calculatePortfolioStats] when it
    returns: both start at 0 and are computed only with a non-empty
    benchmark, more than six data points and at least one return. *)
Definition portfolio_alpha_beta (chartData : list ChartDataPoint.t) (xirr : float)
    (benchmarkHistory : option (list NAVData.t)) : float * float :=
  if has_samples benchmarkHistory && (6 <? List.length chartData)%nat then
    let returns :=
      match chartData with
      | [] => []
      | p :: rest => monthly_returns p rest
      end in
    if (0 <? List.length returns)%nat then
      let meanBench := sum (map snd returns) / len returns in
      let '(cov, varBench) := co_variance returns in
      let beta := if 0 <? varBench then cov / varBench else 1 in
      let rf := 0.06 in
      let rm := Math_pow (1 + meanBench) 12 - 1 in
      let rp := xirr / 100 in
      ((rp - (rf + beta * (rm - rf))) * 100, beta)
    else (0, 0)
  else (0, 0).

(** The clock is read once per call: it does not tick while the function
    runs. *)
Definition calculatePortfolioStats (clock : Z) (investments : list Investment.t)
    (chartData : list ChartDataPoint.t) (benchmarkHistory : option (list NAVData.t))
  : PortfolioMetrics.t :=
  let '(totalInvested, actualValue, counterpartValue, allCashFlows) :=
    fold_left (add_investment clock) investments (0, 0, 0, []) in
  let netImpact := actualValue - counterpartValue in
  let yearlyImpact :=
    if (0 <? List.length chartData)%nat then
      let years := len chartData / 12 in
      netImpact / (if years <? 0.1 then 0.1 else years)
    else 0 in
  let xirr := calculateXIRR allCashFlows actualValue (mkDate (Some clock)) in
  let absoluteReturn :=
    if 0 <? totalInvested
    then (actualValue - totalInvested) / totalInvested * 100 else 0 in
  let maxDrawdown := calculateMaxDrawdown (map ChartDataPoint.actualValue chartData) in
  let romad :=
    if 0 <? maxDrawdown then xirr / maxDrawdown
    else if 0 <? xirr then 100 else 0 in
  let '(alpha, beta) := portfolio_alpha_beta chartData xirr benchmarkHistory in
  PortfolioMetrics.mk totalInvested actualValue 0 actualValue counterpartValue
    netImpact yearlyImpact xirr absoluteReturn maxDrawdown romad
    (match benchmarkHistory with Some _ => Some alpha | None => None end)
    (match benchmarkHistory with Some _ => Some beta | None => None end).

(** ** Ratios per fund *)

(** The variables [beta] and [alpha] of one fund: both start at 0 and are
    computed only with a non-empty benchmark. *)
Definition fund_beta_alpha (clock : Z) (history benchmarkHistory : list NAVData.t)
    (startDate : Date) (xirr : float) : float * float :=
  match benchmarkHistory with
  | [] => (0, 0)
  | b0 :: _ =>
      let beta := calculateBeta history benchmarkHistory startDate in
      match usable (getNAV benchmarkHistory startDate PURCHASE) with
      | Some bStartNav =>
          let bEndNav := sample_value b0 in
          let years := int_sub (Some clock) (getTime startDate) / 31536000000 in
          let rm := Math_pow (bEndNav / bStartNav) (1 / Math_max years 0.1) - 1 in
          let rf := 0.06 in
          (beta, (xirr / 100 - (rf + beta * (rm - rf))) * 100)
      | None => (beta, 0)
      end
  end.

(** The body of the [map]: the row of one investment and its cash flows, or
    [None] for an investment without samples. *)
Definition fund_row (clock : Z) (benchmarkHistory : list NAVData.t)
    (inv : Investment.t) : option (FundRatio.t * list CashFlow.t) :=
  match Investment.navHistory inv with
  | [] => None
  | history =>
      let stats := simulateInvestment clock inv (Some history) in
      let startDate := parseISODate (Investment.startDate inv) in
      let xirr :=
        calculateXIRR (Simulation.cashFlows stats) (Simulation.currentValue stats)
          (mkDate (Some clock)) in
      let volatility := calculateVolatility history startDate in
      let '(beta, alpha) := fund_beta_alpha clock history benchmarkHistory startDate xirr in
      Some (FundRatio.mk (Investment.name inv) (Simulation.totalInvested stats)
              (Simulation.currentValue stats) xirr volatility beta alpha,
            Simulation.cashFlows stats)
  end.

(** [rows.filter(f => f !== null)]. *)
Fixpoint somes {A : Type} (l : list (option A)) : list A :=
  match l with
  | [] => []
  | Some x :: rest => x :: somes rest
  | None :: rest => somes rest
  end.

(** [funds.reduce((acc, f) => acc + f.x * (f.currentValue / totalValue), 0)]
    when the total value is positive. *)
Definition weighted (x : FundRatio.t -> float) (funds : list FundRatio.t)
    (totalValue : float) : float :=
  if 0 <? totalValue then
    fold_left (fun acc f => acc + x f * (FundRatio.currentValue f / totalValue))
      funds 0
  else 0.

Definition calculateFundRatios (clock : Z) (investments : list Investment.t)
    (benchmarkHistory : list NAVData.t) : FundRatios.t :=
  let rows := somes (map (fund_row clock benchmarkHistory) investments) in
  let funds := map fst rows in
  let allCashFlows := List.concat (map snd rows) in
  let totalInvested := sum (map FundRatio.invested funds) in
  let totalValue := sum (map FundRatio.currentValue funds) in
  let portfolioXirr := calculateXIRR allCashFlows totalValue (mkDate (Some clock)) in
  FundRatios.mk funds
    (PortfolioRatio.mk totalInvested totalValue portfolioXirr
       (weighted FundRatio.volatility funds totalValue)
       (weighted FundRatio.beta funds totalValue)
       (weighted FundRatio.alpha funds totalValue)).

End Financials.

(* ================================================================== *)
(** * Properties of the lookup *)
(* ================================================================== *)

Section Lookup.

Context {host : Host}.

(** The storage convention of the application: newest sample first, dates
    valid and strictly decreasing along the array. *)
Fixpoint newest_first (l : list NAVData.t) : bool :=
  match l with
  | a :: ((b :: _) as rest) =>
      int_gtb (sample_time a) (sample_time b) && newest_first rest
  | _ => true
  end.

(** [s] is dated [t]. *)
Definition dated (s : NAVData.t) (t : Z) : Prop := sample_time s = Some t.

(** [earlier] and [later] are two samples of the series, consecutive by
    date: no sample is dated strictly between them. *)
Definition consecutive_by_date (history : list NAVData.t)
    (earlier later : NAVData.t) (te tl : Z) : Prop :=
  In earlier history /\ In later history /\
  dated earlier te /\ dated later tl /\ te < tl /\
  forall s ts, In s history -> dated s ts -> ~ (te < ts < tl).

(** [newest] is a sample of the series that no other sample postdates. *)
Definition is_newest (history : list NAVData.t) (newest : NAVData.t) : Prop :=
  In newest history /\
  exists tn, dated newest tn /\
    forall s, In s history -> exists ts, dated s ts /\ ts <= tn.

Lemma find_skip {A : Type} (p : A -> bool) (l1 l2 : list A) :
  (forall y, In y l1 -> p y = false) -> find p (l1 ++ l2) = find p l2.
Proof.
  induction l1 as [|a l1 IH]; intros Hall; simpl; [reflexivity|].
  rewrite (Hall a (or_introl eq_refl)).
  apply IH. intros y Hy. apply Hall. now right.
Qed.

Lemma find_nothing {A : Type} (p : A -> bool) (l : list A) :
  (forall y, In y l -> p y = false) -> find p l = None.
Proof.
  intros Hall. rewrite <- (app_nil_r l). now rewrite find_skip.
Qed.

Lemma int_gtb_dated (a b : NAVData.t) :
  int_gtb (sample_time a) (sample_time b) = true ->
  exists ta tb, dated a ta /\ dated b tb /\ tb < ta.
Proof.
  unfold int_gtb, int_ltb, dated.
  destruct (sample_time a) as [ta|], (sample_time b) as [tb|]; try discriminate.
  intros Hlt. exists ta, tb. repeat split. now apply Z.ltb_lt.
Qed.

(** In a series stored newest first every sample is older than the ones
    before it. *)
Lemma newest_first_head (a : NAVData.t) (l : list NAVData.t) :
  newest_first (a :: l) = true ->
  forall s, In s l -> exists ta ts, dated a ta /\ dated s ts /\ ts < ta.
Proof.
  revert a. induction l as [|b l IH]; intros a Hs s Hin; [destruct Hin|].
  simpl in Hs. apply andb_prop in Hs. destruct Hs as [Hab Hrest].
  destruct (int_gtb_dated _ _ Hab) as (ta & tb & Ha & Hb & Hlt).
  destruct Hin as [<-|Hin].
  - now exists ta, tb.
  - destruct (IH b Hrest s Hin) as (tb' & ts & Hb' & Hs' & Hlt').
    unfold dated in *. rewrite Hb in Hb'. injection Hb' as <-.
    exists ta, ts. repeat split; try assumption. lia.
Qed.

Lemma newest_first_tail (a : NAVData.t) (l : list NAVData.t) :
  newest_first (a :: l) = true -> newest_first l = true.
Proof.
  destruct l as [|b l]; [reflexivity|].
  simpl. intros H. apply andb_prop in H. apply H.
Qed.

Lemma newest_first_split (l1 : list NAVData.t) (x : NAVData.t)
    (l2 : list NAVData.t) (tx : Z) :
  newest_first (l1 ++ x :: l2) = true -> dated x tx ->
  (forall y, In y l1 -> exists ty, dated y ty /\ tx < ty) /\
  (forall y, In y l2 -> exists ty, dated y ty /\ ty < tx).
Proof.
  unfold dated. induction l1 as [|a l1 IH]; intros Hs Hx.
  - split; [intros y []|]. intros y Hy.
    destruct (newest_first_head _ _ Hs y Hy) as (tx' & ty & Hx' & Hy' & Hlt).
    unfold dated in *. rewrite Hx in Hx'. injection Hx' as <-. now exists ty.
  - destruct (IH (newest_first_tail _ _ Hs) Hx) as [Hb Ha]. split; [|exact Ha].
    intros y [<-|Hy]; [|now apply Hb].
    destruct (newest_first_head _ _ Hs x) as (ta & tx' & Ha' & Hx' & Hlt).
    { apply in_or_app. right. now left. }
    unfold dated in *. rewrite Hx in Hx'. injection Hx' as <-. now exists ta.
Qed.

(** The valuation lookup of a series stored newest first: the sample dated
    on or before the target that every newer sample overshoots. *)
Lemma getNAV_valuation_at (history : list NAVData.t) (target : Date)
    (e : NAVData.t) (te tt : Z) :
  newest_first history = true -> In e history -> dated e te ->
  getTime target = Some tt -> te <= tt ->
  (forall s ts, In s history -> dated s ts -> te < ts -> tt < ts) ->
  getNAV history target VALUATION = Some (sample_value e).
Proof.
  intros Hs Hin He Ht Hle Hnewer.
  destruct (in_split _ _ Hin) as (l1 & l2 & ->).
  destruct (newest_first_split _ _ _ _ Hs He) as [Hb _].
  assert (Hfind : find (fun h => int_leb (sample_time h) (getTime target))
                    (l1 ++ e :: l2) = Some e).
  { rewrite find_skip.
    - simpl. rewrite He, Ht. simpl.
      now rewrite (proj2 (Z.leb_le te tt) Hle).
    - intros y Hy. destruct (Hb y Hy) as (ty & Hty & Hlt).
      rewrite Hty, Ht. simpl. apply Z.leb_gt.
      apply (Hnewer y ty); try assumption. apply in_or_app. now left. }
  unfold getNAV. destruct (l1 ++ e :: l2) eqn:E.
  - destruct l1; discriminate.
  - now rewrite Hfind.
Qed.

(** The purchase lookup of a series stored newest first: the sample dated
    on or after the target that every older sample falls short of. *)
Lemma getNAV_purchase_at (history : list NAVData.t) (target : Date)
    (l : NAVData.t) (tl tt : Z) :
  newest_first history = true -> In l history -> dated l tl ->
  getTime target = Some tt -> tt <= tl ->
  (forall s ts, In s history -> dated s ts -> ts < tl -> ts < tt) ->
  getNAV history target PURCHASE = Some (sample_value l).
Proof.
  intros Hs Hin Hl Ht Hle Holder.
  destruct (in_split _ _ Hin) as (l1 & l2 & ->).
  destruct (newest_first_split _ _ _ _ Hs Hl) as [_ Ha].
  assert (Hfind : find (fun h => int_geb (sample_time h) (getTime target))
                    (rev (l1 ++ l :: l2)) = Some l).
  { rewrite rev_app_distr. simpl. rewrite <- app_assoc. rewrite find_skip.
    - simpl. unfold int_geb. rewrite Hl, Ht. simpl.
      now rewrite (proj2 (Z.leb_le tt tl) Hle).
    - intros y Hy. apply in_rev in Hy. destruct (Ha y Hy) as (ty & Hty & Hlt).
      unfold int_geb. rewrite Hty, Ht. simpl. apply Z.leb_gt.
      apply (Holder y ty); try assumption.
      apply in_or_app. right. now right. }
  unfold getNAV. destruct (l1 ++ l :: l2) eqn:E.
  - destruct l1; discriminate.
  - now rewrite Hfind.
Qed.

End Lookup.

(** Sample data: three monthly samples, stored newest first and oldest
    first, read by the reference host. *)
Module Series.
Definition jan : NAVData.t := NAVData.mk "01-01-2024" "10".
Definition feb : NAVData.t := NAVData.mk "01-02-2024" "20".
Definition mar : NAVData.t := NAVData.mk "01-03-2024" "30".
Definition newest_first_stored : list NAVData.t := [mar; feb; jan].
Definition oldest_first_stored : list NAVData.t := [jan; feb; mar].
(** The same series, newest first, with a newest sample whose value is not
    a number. *)
Definition unpriced : list NAVData.t := [NAVData.mk "01-03-2024" "N.A."; feb; jan].
(** Midnight of a calendar day, month in 1..12. *)
Definition day (y m d : Z) : Date := new_Date (Some y) (Some (m - 1)) (Some d).
(** A clock reading at 10:30 on a calendar day. *)
Definition at_1030 (y m d : Z) : Z :=
  (MakeDay y (m - 1) d) * msPerDay + 37800000.
End Series.

Section LookupClaims.

Context {host : Host}.

(** C1 (as amended): in a series stored newest first, for a target date
    strictly between two samples that are consecutive by date, the purchase
    lookup returns the value of the later sample and the valuation lookup
    the value of the earlier one. *)
Theorem getNAV_between_consecutive (history : list NAVData.t) (target : Date)
    (earlier later : NAVData.t) (te tl tt : Z) :
  newest_first history = true ->
  consecutive_by_date history earlier later te tl ->
  getTime target = Some tt -> te < tt < tl ->
  getNAV history target PURCHASE = Some (sample_value later) /\
  getNAV history target VALUATION = Some (sample_value earlier).
Proof.
  intros Hs (Hine & Hinl & He & Hl & Hlt & Hgap) Ht Hbetween. split.
  - apply (getNAV_purchase_at history target later tl tt); try assumption; try lia.
    intros s ts Hin Hts Hlt'.
    destruct (Z_lt_le_dec te ts) as [Hgt|Hle]; [|lia].
    exfalso. apply (Hgap s ts Hin Hts). lia.
  - apply (getNAV_valuation_at history target earlier te tt); try assumption; try lia.
    intros s ts Hin Hts Hlt'.
    destruct (Z_lt_le_dec ts tl) as [Hlt2|Hge]; [|lia].
    exfalso. apply (Hgap s ts Hin Hts). lia.
Qed.

(** C5 (as amended): when the target date is after every sample, the
    purchase lookup returns the value of the sample stored first, which is
    the newest sample when the series is stored newest first; when the
    target date is before every sample, the valuation lookup finds nothing,
    in whatever order the series is stored. *)
Theorem getNAV_beyond_the_series (first : NAVData.t) (rest : list NAVData.t)
    (target : Date) (tt : Z) :
  getTime target = Some tt ->
  ((forall s, In s (first :: rest) -> exists ts, dated s ts /\ ts < tt) ->
   getNAV (first :: rest) target PURCHASE = Some (sample_value first)) /\
  (newest_first (first :: rest) = true ->
   (exists t0, dated first t0) -> is_newest (first :: rest) first) /\
  ((forall s, In s (first :: rest) -> exists ts, dated s ts /\ tt < ts) ->
   getNAV (first :: rest) target VALUATION = None).
Proof.
  intros Ht. split; [|split].
  - intros Hall. unfold getNAV.
    assert (Hnone : find (fun h => int_geb (sample_time h) (getTime target))
                      (rev (first :: rest)) = None).
    { apply find_nothing. intros s Hs. apply in_rev in Hs.
      destruct (Hall s Hs) as (ts & Hts & Hlt).
      unfold int_geb. rewrite Hts, Ht. simpl. now apply Z.leb_gt. }
    rewrite Hnone.
    destruct (Hall first (or_introl eq_refl)) as (t0 & H0 & Hlt).
    unfold int_gtb. rewrite H0, Ht. simpl.
    now rewrite (proj2 (Z.ltb_lt t0 tt) Hlt).
  - intros Hs [t0 H0]. split; [now left|]. exists t0. split; [assumption|].
    intros s [<-|Hin].
    + exists t0. split; [assumption|lia].
    + destruct (newest_first_head _ _ Hs s Hin) as (t0' & ts & H0' & Hts & Hlt).
      unfold dated in *. rewrite H0 in H0'. injection H0' as <-.
      exists ts. split; [assumption|lia].
  - intros Hall. unfold getNAV.
    assert (Hnone : find (fun h => int_leb (sample_time h) (getTime target))
                      (first :: rest) = None).
    { apply find_nothing. intros s Hs.
      destruct (Hall s Hs) as (ts & Hts & Hlt).
      rewrite Hts, Ht. simpl. now apply Z.leb_gt. }
    now rewrite Hnone.
Qed.

End LookupClaims.

(** The dates of the sample data, read by the reference host. *)
Lemma series_dates :
  dated (host := RefHost) Series.jan 1704067200000 /\
  dated (host := RefHost) Series.feb 1706745600000 /\
  dated (host := RefHost) Series.mar 1709251200000.
Proof. repeat split; vm_compute; reflexivity. Qed.

Ltac series_cases H :=
  repeat (destruct H as [<-|H]; [|]); try contradiction.

Lemma jan_feb_consecutive (history : list NAVData.t) :
  (forall s, In s history -> In s Series.newest_first_stored) ->
  In Series.jan history -> In Series.feb history ->
  consecutive_by_date (host := RefHost) history Series.jan Series.feb
    1704067200000 1706745600000.
Proof.
  intros Hsub Hj Hf. destruct series_dates as (Hjan & Hfeb & Hmar).
  repeat split; try assumption; try lia.
  intros s ts Hin Hts. apply Hsub in Hin. unfold dated in *.
  destruct Hin as [<-|[<-|[<-|[]]]].
  - rewrite Hmar in Hts. injection Hts as <-. lia.
  - rewrite Hfeb in Hts. injection Hts as <-. lia.
  - rewrite Hjan in Hts. injection Hts as <-. lia.
Qed.

(** C1, an instance: the series stored newest first, looked up on
    15 January 2024. *)
Lemma getNAV_between_consecutive_witness :
  newest_first (host := RefHost) Series.newest_first_stored = true /\
  getNAV (host := RefHost) Series.newest_first_stored (Series.day 2024 1 15)
    PURCHASE = Some 20%float /\
  getNAV (host := RefHost) Series.newest_first_stored (Series.day 2024 1 15)
    VALUATION = Some 10%float.
Proof.
  split; [reflexivity|].
  apply (getNAV_between_consecutive (host := RefHost)
           Series.newest_first_stored (Series.day 2024 1 15)
           Series.jan Series.feb 1704067200000 1706745600000 1705276800000).
  - reflexivity.
  - apply jan_feb_consecutive; simpl; auto.
  - reflexivity.
  - lia.
Defined.

(** C1 as stated fails: in the same series stored oldest first, the target
    15 January 2024 lies between the consecutive samples of 1 January and
    1 February, and the purchase lookup returns 30, the value of the sample
    of 1 March, not the 20 of the later sample; on 15 February the
    valuation lookup returns 10, the value of the sample of 1 January, not
    the 20 of the earlier sample. *)
Lemma getNAV_between_oldest_first :
  consecutive_by_date (host := RefHost) Series.oldest_first_stored
    Series.jan Series.feb 1704067200000 1706745600000 /\
  getTime (Series.day 2024 1 15) = Some 1705276800000 /\
  sample_value (host := RefHost) Series.feb = 20%float /\
  getNAV (host := RefHost) Series.oldest_first_stored (Series.day 2024 1 15)
    PURCHASE = Some 30%float /\
  getNAV (host := RefHost) Series.oldest_first_stored (Series.day 2024 2 15)
    VALUATION = Some 10%float.
Proof.
  split; [|repeat split; vm_compute; reflexivity].
  apply jan_feb_consecutive; simpl; auto.
  intros s [<-|[<-|[<-|[]]]]; auto.
Qed.

(** C5, an instance: the series stored newest first, looked up on
    15 April 2024, after every sample, and on 15 December 2023, before
    every sample. *)
Lemma getNAV_beyond_the_series_witness :
  getNAV (host := RefHost) Series.newest_first_stored (Series.day 2024 4 15)
    PURCHASE = Some 30%float /\
  is_newest (host := RefHost) Series.newest_first_stored Series.mar /\
  getNAV (host := RefHost) Series.newest_first_stored (Series.day 2023 12 15)
    VALUATION = None.
Proof.
  destruct series_dates as (Hjan & Hfeb & Hmar).
  pose proof (getNAV_beyond_the_series (host := RefHost) Series.mar
                [Series.feb; Series.jan]) as T.
  split; [|split].
  - apply (proj1 (T (Series.day 2024 4 15) 1713139200000 eq_refl)).
    intros s [<-|[<-|[<-|[]]]]; eexists; (split; [eassumption|lia]).
  - apply (proj1 (proj2 (T (Series.day 2024 4 15) 1713139200000 eq_refl)));
      [reflexivity|now exists 1709251200000].
  - apply (proj2 (proj2 (T (Series.day 2023 12 15) 1702598400000 eq_refl))).
    intros s [<-|[<-|[<-|[]]]]; eexists; (split; [eassumption|lia]).
Defined.

(** C5 as stated fails: in the series stored oldest first, on 15 April
    2024, after every sample, the purchase lookup returns 10, the value of
    the sample of 1 January stored first, while the newest sample is that
    of 1 March, worth 30. *)
Lemma getNAV_beyond_oldest_first :
  (forall s, In s Series.oldest_first_stored ->
     exists ts, dated (host := RefHost) s ts /\ ts < 1713139200000) /\
  getTime (Series.day 2024 4 15) = Some 1713139200000 /\
  is_newest (host := RefHost) Series.oldest_first_stored Series.mar /\
  sample_value (host := RefHost) Series.mar = 30%float /\
  getNAV (host := RefHost) Series.oldest_first_stored (Series.day 2024 4 15)
    PURCHASE = Some 10%float.
Proof.
  destruct series_dates as (Hjan & Hfeb & Hmar).
  split; [|split; [|split; [|split]]].
  - intros s [<-|[<-|[<-|[]]]]; eexists; (split; [eassumption|lia]).
  - vm_compute; reflexivity.
  - split; [simpl; auto|]. exists 1709251200000. split; [assumption|].
    intros s [<-|[<-|[<-|[]]]]; eexists; (split; [eassumption|lia]).
  - vm_compute; reflexivity.
  - vm_compute; reflexivity.
Qed.

(* ================================================================== *)
(** * Properties of the simulator *)
(* ================================================================== *)

(** The shapes of a finite float. *)
Lemma finite_shape (x : float) :
  is_finite x = true ->
  (exists s, Prim2SF x = S754_zero s) \/
  (exists s m e, Prim2SF x = S754_finite s m e).
Proof.
  unfold is_finite, Prim2SF. intros H.
  apply negb_true_iff in H. apply orb_false_iff in H. destruct H as [Hn Hi].
  rewrite Hn.
  destruct (is_zero x); [left; eauto|]. rewrite Hi.
  destruct (Z.frexp x) as [r e].
  destruct (shr_fexp prec emax _ _ _) as [sh e'].
  destruct (shr_m sh); [left|right|left]; eauto.
Qed.

(** Zero units of a finite price are worth zero. *)
Lemma mul_zero_finite (x : float) :
  is_finite x = true -> (0 * x =? 0)%float = true.
Proof.
  intros H. rewrite eqb_spec, mul_spec.
  change (Prim2SF 0) with (S754_zero false).
  destruct (finite_shape x H) as [[s ->]|(s & m & e & ->)]; reflexivity.
Qed.

(** The investments of the examples: 5000 on or from 15 January 2024 in
    the sample series. *)
Module Plans.
Definition lumpsum (history : list NAVData.t) : Investment.t :=
  Investment.mk "Fund" true history None LUMPSUM 5000 "2024-01-15" None.
Definition sip (history : list NAVData.t) : Investment.t :=
  Investment.mk "Fund" true history None SIP 5000 "2024-01-15" None.
(** A lump sum whose start date is not a date. *)
Definition undated (history : list NAVData.t) : Investment.t :=
  Investment.mk "Fund" true history None LUMPSUM 5000 "soon" None.
End Plans.

Section SimulatorClaims.

Context {host : Host}.

Local Open Scope float_scope.

(** The result of [simulateInvestment] for a series without samples. *)
Definition nothing_held : Simulation.t := Simulation.mk 0 0 [] 0.

Lemma newest_first_is_newest (first : NAVData.t) (rest : list NAVData.t) (t0 : Z) :
  newest_first (first :: rest) = true -> dated first t0 ->
  is_newest (first :: rest) first.
Proof.
  intros Hs H0. split; [now left|]. exists t0. split; [assumption|].
  intros s [<-|Hin].
  - exists t0. split; [assumption|lia].
  - destruct (newest_first_head _ _ Hs s Hin) as (t0' & ts & H0' & Hts & Hlt).
    unfold dated in *. rewrite H0 in H0'. injection H0' as <-.
    exists ts. split; [assumption|lia].
Qed.

(** C8 (as amended): a lump sum gives at most one cash flow, bought at the
    purchase value looked up at the start date.  Without samples the result
    is all zero.  When the lookup gives no usable value, units and
    contribution are zero, there is no cash flow, and the current value is
    zero provided the value of the sample stored first is finite.
    Otherwise the current value is the units held times the value of the
    sample stored first, which is the newest sample when the series is
    stored newest first. *)
Theorem simulateInvestment_lumpsum (clock : Z) (inv : Investment.t)
    (navHistory : option (list NAVData.t)) :
  Investment.type inv = LUMPSUM ->
  let r := simulateInvestment clock inv navHistory in
  let startDate := parseISODate (Investment.startDate inv) in
  let amt := Investment.amount inv in
  (List.length (Simulation.cashFlows r) <= 1)%nat /\
  (navHistory = None \/ navHistory = Some [] -> r = nothing_held) /\
  (forall first rest, navHistory = Some (first :: rest) ->
     match usable (getNAV (first :: rest) startDate PURCHASE) with
     | None =>
         Simulation.units r = 0 /\ Simulation.totalInvested r = 0 /\
         Simulation.cashFlows r = [] /\
         (is_finite (sample_value first) = true ->
          (Simulation.currentValue r =? 0) = true)
     | Some nav =>
         Simulation.units r = 0 + amt / nav /\
         Simulation.totalInvested r = 0 + amt /\
         Simulation.cashFlows r = [CashFlow.mk startDate (- amt)] /\
         Simulation.currentValue r = Simulation.units r * sample_value first
     end /\
     (newest_first (first :: rest) = true -> (exists t0, dated first t0) ->
      is_newest (first :: rest) first)).
Proof.
  intros Hty r startDate amt. subst r startDate amt.
  unfold simulateInvestment. rewrite Hty.
  destruct navHistory as [[|h0 rest]|].
  - split; [simpl; lia|]. split; [reflexivity|]. intros ? ? [=].
  - unfold buy.
    destruct (usable (getNAV (h0 :: rest) (parseISODate (Investment.startDate inv))
                        PURCHASE)) as [nav|] eqn:E.
    + split; [simpl; lia|]. split; [intros [[=]|[=]]|].
      intros first rest' [= <- <-]. rewrite E. simpl. split; [auto|].
      intros Hs [t0 H0]. now apply (newest_first_is_newest _ _ t0).
    + split; [simpl; lia|]. split; [intros [[=]|[=]]|].
      intros first rest' [= <- <-]. rewrite E. simpl. split.
      * repeat split. apply mul_zero_finite.
      * intros Hs [t0 H0]. now apply (newest_first_is_newest _ _ t0).
  - split; [simpl; lia|]. split; [reflexivity|]. intros ? ? [=].
Qed.

Lemma today_of_day (c1 c2 : Z) : Day c1 = Day c2 -> today c1 = today c2.
Proof. unfold today, setHours0. simpl. now intros ->. Qed.

(** C3 (as amended): the simulator and the monthly replay read the clock,
    and depend on it only through the calendar day; the simulation of a
    lump sum does not depend on the clock at all. *)
Theorem clock_dependence (c1 c2 : Z) (inv : Investment.t)
    (navHistory : option (list NAVData.t)) (investments : list Investment.t)
    (benchmarkHistory : option (list NAVData.t)) :
  (Day c1 = Day c2 ->
   simulateInvestment c1 inv navHistory = simulateInvestment c2 inv navHistory /\
   generateBacktestData c1 investments benchmarkHistory
   = generateBacktestData c2 investments benchmarkHistory) /\
  (Investment.type inv = LUMPSUM ->
   simulateInvestment c1 inv navHistory = simulateInvestment c2 inv navHistory).
Proof.
  split.
  - intros Hday. unfold simulateInvestment, generateBacktestData.
    now rewrite (today_of_day c1 c2 Hday).
  - intros Hty. unfold simulateInvestment. now rewrite Hty.
Qed.

End SimulatorClaims.

(** C8, two instances on 20 March 2024: a lump sum of 5000 dated
    15 January 2024, bought at 20 and worth 250 units of the newest sample;
    and a lump sum whose start date is not a date, which buys nothing. *)
Lemma simulateInvestment_lumpsum_witness :
  let bought :=
    simulateInvestment (host := RefHost) (Series.at_1030 2024 3 20)
      (Plans.lumpsum Series.newest_first_stored)
      (Some Series.newest_first_stored) in
  let missed :=
    simulateInvestment (host := RefHost) (Series.at_1030 2024 3 20)
      (Plans.undated Series.newest_first_stored)
      (Some Series.newest_first_stored) in
  (Simulation.units bought = (0 + 5000 / 20)%float /\
   Simulation.currentValue bought
   = (Simulation.units bought * sample_value (host := RefHost) Series.mar)%float /\
   is_newest (host := RefHost) Series.newest_first_stored Series.mar) /\
  (Simulation.units missed = 0%float /\ Simulation.cashFlows missed = [] /\
   (Simulation.currentValue missed =? 0)%float = true).
Proof.
  cbv zeta. split.
  - pose proof (simulateInvestment_lumpsum (host := RefHost)
                  (Series.at_1030 2024 3 20)
                  (Plans.lumpsum Series.newest_first_stored)
                  (Some Series.newest_first_stored) eq_refl) as T.
    cbv zeta in T. destruct T as (_ & _ & T).
    specialize (T Series.mar [Series.feb; Series.jan] eq_refl).
    assert (E : usable (getNAV (host := RefHost) Series.newest_first_stored
                          (parseISODate (host := RefHost) "2024-01-15") PURCHASE)
                = Some 20%float) by (vm_compute; reflexivity).
    change (Investment.startDate (Plans.lumpsum Series.newest_first_stored))
      with "2024-01-15"%string in T.
    change (Series.mar :: [Series.feb; Series.jan])
      with Series.newest_first_stored in T.
    rewrite E in T. destruct T as ((Hu & _ & _ & Hv) & Hn).
    split; [exact Hu|]. split; [exact Hv|].
    apply Hn; [reflexivity|exists 1709251200000; vm_compute; reflexivity].
  - pose proof (simulateInvestment_lumpsum (host := RefHost)
                  (Series.at_1030 2024 3 20)
                  (Plans.undated Series.newest_first_stored)
                  (Some Series.newest_first_stored) eq_refl) as T.
    cbv zeta in T. destruct T as (_ & _ & T).
    specialize (T Series.mar [Series.feb; Series.jan] eq_refl).
    assert (E : usable (getNAV (host := RefHost) Series.newest_first_stored
                          (parseISODate (host := RefHost) "soon") PURCHASE)
                = None) by (vm_compute; reflexivity).
    change (Investment.startDate (Plans.undated Series.newest_first_stored))
      with "soon"%string in T.
    change (Series.mar :: [Series.feb; Series.jan])
      with Series.newest_first_stored in T.
    rewrite E in T. destruct T as ((Hu & _ & Hc & Hv) & _).
    split; [exact Hu|]. split; [exact Hc|].
    apply Hv. vm_compute; reflexivity.
Defined.

(** C8 as stated fails: on 20 March 2024, a lump sum of 5000 dated
    15 January 2024 in the series stored oldest first holds 5000/30 units;
    the newest sample is that of 1 March, worth 30, so the units times the
    value of the newest sample are 5000, but the current value returned is
    the units times 10, the value of the sample stored first.  And a lump
    sum whose lookup fails, in a series whose first sample has a value
    that is not a number, holds no units but has the current value NaN,
    not 0. *)
Lemma simulateInvestment_lumpsum_oldest_first :
  let r :=
    simulateInvestment (host := RefHost) (Series.at_1030 2024 3 20)
      (Plans.lumpsum Series.oldest_first_stored)
      (Some Series.oldest_first_stored) in
  let missed :=
    simulateInvestment (host := RefHost) (Series.at_1030 2024 3 20)
      (Plans.undated Series.unpriced) (Some Series.unpriced) in
  is_newest (host := RefHost) Series.oldest_first_stored Series.mar /\
  (Simulation.units r * sample_value (host := RefHost) Series.mar)%float
  = 5000%float /\
  Simulation.currentValue r = 1666.6666666666665%float /\
  getNAV (host := RefHost) Series.unpriced
    (parseISODate (host := RefHost) "soon") PURCHASE = None /\
  Simulation.units missed = 0%float /\
  is_nan (Simulation.currentValue missed) = true /\
  (Simulation.currentValue missed =? 0)%float = false.
Proof.
  cbv zeta. destruct series_dates as (Hjan & Hfeb & Hmar).
  split; [|repeat split; vm_compute; reflexivity].
  split; [simpl; auto|]. exists 1709251200000. split; [assumption|].
  intros s [<-|[<-|[<-|[]]]]; eexists; (split; [eassumption|lia]).
Qed.

(** C3, two instances: a monthly plan simulated at 10:30 and at 23:00 of
    20 March 2024, and a lump sum simulated on 20 January and on 20 March
    2024. *)
Lemma clock_dependence_witness :
  simulateInvestment (host := RefHost) (Series.at_1030 2024 3 20)
    (Plans.sip Series.newest_first_stored) (Some Series.newest_first_stored)
  = simulateInvestment (host := RefHost) (Series.at_1030 2024 3 20 + 45000000)
      (Plans.sip Series.newest_first_stored) (Some Series.newest_first_stored)
  /\
  simulateInvestment (host := RefHost) (Series.at_1030 2024 1 20)
    (Plans.lumpsum Series.newest_first_stored) (Some Series.newest_first_stored)
  = simulateInvestment (host := RefHost) (Series.at_1030 2024 3 20)
      (Plans.lumpsum Series.newest_first_stored) (Some Series.newest_first_stored).
Proof.
  split.
  - apply (proj1 (clock_dependence (host := RefHost) (Series.at_1030 2024 3 20)
                    (Series.at_1030 2024 3 20 + 45000000)
                    (Plans.sip Series.newest_first_stored)
                    (Some Series.newest_first_stored) [] None)).
    vm_compute; reflexivity.
  - apply (proj2 (clock_dependence (host := RefHost) (Series.at_1030 2024 1 20)
                    (Series.at_1030 2024 3 20)
                    (Plans.lumpsum Series.newest_first_stored)
                    (Some Series.newest_first_stored) [] None)).
    reflexivity.
Defined.

(** C3 as stated fails: the same monthly plan of 5000 from 15 January 2024
    in the same series has contributed 5000 when simulated on 20 January
    2024 and 15000 when simulated on 20 March 2024. *)
Lemma simulateInvestment_reads_the_clock :
  Simulation.totalInvested
    (simulateInvestment (host := RefHost) (Series.at_1030 2024 1 20)
       (Plans.sip Series.newest_first_stored) (Some Series.newest_first_stored))
  = 5000%float /\
  Simulation.totalInvested
    (simulateInvestment (host := RefHost) (Series.at_1030 2024 3 20)
       (Plans.sip Series.newest_first_stored) (Some Series.newest_first_stored))
  = 15000%float.
Proof. split; vm_compute; reflexivity. Qed.

(* ================================================================== *)
(** * Properties of the money-weighted return *)
(* ================================================================== *)

Section ReturnClaims.

Context {host : Host}.

Local Open Scope float_scope.





(** C4: for an outflow of 100000 and an inflow of 110000 exactly 365 days
    later, [calculateXIRR] returns 10, on every host whose [Math.pow] gives
    [pow(x, 0) = 1] and [pow(x, 1) = x]. *)
Theorem calculateXIRR_ten_percent (t0 : Z) :
  (forall x, Math_pow x 0 = 1) -> (forall x, Math_pow x 1 = x) ->
  let r :=
    calculateXIRR [CashFlow.mk (mkDate (Some t0)) (-100000)] 110000
      (mkDate (Some (t0 + 365 * msPerDay)%Z)) in
  r = 10 /\ (abs (r - 10) <=? 0.5) = true.
Proof.
  intros Hp0 Hp1 r.
  assert (Hr : r = 10).
  { subst r. unfold calculateXIRR. cbn [app List.length Nat.ltb Nat.leb].
    cbn [xirr_loop]. unfold converged, npv.
    cbn [fold_left CashFlow.date CashFlow.amount getTime flow_terms int_sub].
    replace (t0 - t0)%Z with 0%Z by lia.
    replace (t0 + 365 * msPerDay - t0)%Z with 31536000000%Z
      by (unfold msPerDay; lia).
    change (Z2float 0 / 86400000 / 365) with 0.
    change (Z2float 31536000000 / 86400000 / 365) with 1.
    change (1 + Math_max 0.1 (-0.99)) with 1.1.
    rewrite Hp0, Hp1. vm_compute. reflexivity. }
  rewrite Hr. split; [reflexivity|vm_compute; reflexivity].
Qed.

End ReturnClaims.

Lemma ref_pow_0 (x : float) : ref_pow x 0 = 1%float.
Proof. reflexivity. Qed.

Lemma ref_pow_1 (x : float) : ref_pow x 1 = x.
Proof. reflexivity. Qed.

(** C4, an instance: the outflow on 1 January 2023, the inflow on 1 January
    2024. *)
Lemma calculateXIRR_ten_percent_witness :
  calculateXIRR (host := RefHost)
    [CashFlow.mk (Series.day 2023 1 1) (-100000)] 110000 (Series.day 2024 1 1)
  = 10%float.
Proof.
  exact (proj1 (calculateXIRR_ten_percent (host := RefHost) 1672531200000
                  ref_pow_0 ref_pow_1)).
Defined.


(* ================================================================== *)
(** * Properties of beta *)
(* ================================================================== *)

(** Sample data: the 31 days of January 2024, newest first, with the value
    of each day given as text. *)
Module Daily.
Definition two_digits (n : nat) : string :=
  (digit_char (Z.of_nat n / 10) ++ digit_char (Z.of_nat n))%string.
Definition january (value : nat -> string) : list NAVData.t :=
  rev (map (fun d => NAVData.mk (two_digits d ++ "-01-2024") (value d))
         (seq 1 31)).
(** An asset worth 101, 102, ... and a benchmark that stays at 50. *)
Definition rising : list NAVData.t :=
  january (fun d => ("1" ++ two_digits d)%string).
Definition flat : list NAVData.t := january (fun _ => "50"%string).
End Daily.

Section BetaClaims.

Context {host : Host}.

Local Open Scope float_scope.

(** The number of points matched exactly by date: the benchmark samples
    dated on or after the since-date whose date text is also the date text
    of a sample of the asset. *)
Definition aligned_points (assetHistory benchmarkHistory : list NAVData.t)
    (sinceDate : Date) : nat :=
  List.length
    (filter
       (fun b =>
          date_geb (parseAPIDate (NAVData.date b)) sinceDate
          && existsb (fun a => String.eqb (NAVData.date a) (NAVData.date b))
               assetHistory)
       benchmarkHistory).

(** The sum of squared deviations of the aligned benchmark returns, which
    the code calls [varianceBench]. *)
Definition varianceBench (assetHistory benchmarkHistory : list NAVData.t)
    (sinceDate : Date) : float :=
  snd (co_variance (beta_returns assetHistory benchmarkHistory sinceDate)).

Lemma assetMap_of_rev (l : list NAVData.t) (acc : list (string * float)) :
  fold_left (fun m h => (NAVData.date h, sample_value h) :: m) l acc
  = rev (map (fun h => (NAVData.date h, sample_value h)) l) ++ acc.
Proof.
  revert acc. induction l as [|h l IH]; intros acc; simpl; [reflexivity|].
  rewrite IH. now rewrite <- app_assoc.
Qed.

(** The map has a date exactly when a sample of the asset carries it. *)
Lemma Map_has_assetMap (l : list NAVData.t) (k : string) :
  Map_has (assetMap_of l) k
  = existsb (fun a => String.eqb (NAVData.date a) k) l.
Proof.
  unfold Map_has, assetMap_of. rewrite assetMap_of_rev, app_nil_r.
  apply eq_true_iff_eq. rewrite !existsb_exists. split.
  - intros ([k' v] & Hin & Heq). apply in_rev in Hin.
    apply in_map_iff in Hin. destruct Hin as (a & [= <- <-] & Ha).
    now exists a.
  - intros (a & Ha & Heq). exists (NAVData.date a, sample_value a).
    split; [|exact Heq]. apply in_rev. rewrite rev_involutive.
    apply in_map_iff. now exists a.
Qed.

Lemma commonDates_length (assetHistory benchmarkHistory : list NAVData.t)
    (sinceDate : Date) :
  List.length (commonDates assetHistory benchmarkHistory sinceDate)
  = aligned_points assetHistory benchmarkHistory sinceDate.
Proof.
  unfold commonDates, aligned_points. rewrite length_rev, length_map.
  f_equal. apply filter_ext. intros b. now rewrite Map_has_assetMap.
Qed.

End BetaClaims.

(* ================================================================== *)
(** * Properties of the statistics *)
(* ================================================================== *)

Section StatisticsClaims.

Context {host : Host}.

Local Open Scope float_scope.

Lemma fund_row_without_benchmark (clock : Z) (inv : Investment.t)
    (f : FundRatio.t) (flows : list CashFlow.t) :
  fund_row clock [] inv = Some (f, flows) ->
  FundRatio.beta f = 0 /\ FundRatio.alpha f = 0.
Proof.
  unfold fund_row. destruct (Investment.navHistory inv) as [|h rest];
    [discriminate|].
  cbn [fund_beta_alpha]. intros [= <- _]. split; reflexivity.
Qed.

Lemma somes_in {A : Type} (l : list (option A)) (x : A) :
  In x (somes l) -> In (Some x) l.
Proof.
  induction l as [|[y|] l IH]; simpl; [tauto| |].
  - intros [->|H]; [now left|right; now apply IH].
  - intros H. right. now apply IH.
Qed.

(** C2 (as amended): with the benchmark absent, [calculatePortfolioStats]
    returns no alpha and no beta; [calculateFundRatios] has no absent
    value, and with an empty benchmark the beta and the alpha of every fund
    are the number 0. *)
Theorem alpha_beta_without_benchmark (clock : Z)
    (investments : list Investment.t) (chartData : list ChartDataPoint.t) :
  PortfolioMetrics.alpha
    (calculatePortfolioStats clock investments chartData None) = None /\
  PortfolioMetrics.beta
    (calculatePortfolioStats clock investments chartData None) = None /\
  Forall (fun f => FundRatio.beta f = 0 /\ FundRatio.alpha f = 0)
    (FundRatios.funds (calculateFundRatios clock investments [])).
Proof.
  split; [|split].
  - unfold calculatePortfolioStats.
    destruct (fold_left _ investments _) as [[[ti av] cv] fl].
    now destruct (portfolio_alpha_beta _ _ None).
  - unfold calculatePortfolioStats.
    destruct (fold_left _ investments _) as [[[ti av] cv] fl].
    now destruct (portfolio_alpha_beta _ _ None).
  - unfold calculateFundRatios. cbn [FundRatios.funds].
    apply Forall_forall. intros f Hf.
    apply in_map_iff in Hf. destruct Hf as ([f' flows] & <- & Hin).
    apply somes_in in Hin. apply in_map_iff in Hin.
    destruct Hin as (inv & Hrow & _).
    exact (fund_row_without_benchmark clock inv f' flows Hrow).
Qed.

End StatisticsClaims.

(** C2 as stated fails: on 20 March 2024, for one lump sum and no
    benchmark, the row of the fund in [calculateFundRatios] carries the
    numbers 0 as beta and alpha, and [calculatePortfolioStats] given an
    empty benchmark collection returns the numbers 0 as alpha and beta. *)
Lemma alpha_beta_are_zero_numbers :
  map (fun f => (FundRatio.beta f, FundRatio.alpha f))
    (FundRatios.funds
       (calculateFundRatios (host := RefHost) (Series.at_1030 2024 3 20)
          [Plans.lumpsum Series.newest_first_stored] []))
  = [(0%float, 0%float)] /\
  PortfolioMetrics.alpha
    (calculatePortfolioStats (host := RefHost) (Series.at_1030 2024 3 20)
       [Plans.lumpsum Series.newest_first_stored] [] (Some []))
  = Some 0%float /\
  PortfolioMetrics.beta
    (calculatePortfolioStats (host := RefHost) (Series.at_1030 2024 3 20)
       [Plans.lumpsum Series.newest_first_stored] [] (Some []))
  = Some 0%float.
Proof. repeat split; vm_compute; reflexivity. Qed.

(* ================================================================== *)
(** * Properties of the monthly replay *)
(* ================================================================== *)

(** Sample data: a fund whose direct plan goes from 1 to 1.75 and whose
    regular plan goes from 1 to 1.25 during January 2024, held once in
    each plan by a lump sum of 1001 on 1 January. *)
Module Pair.
Definition direct_plan : list NAVData.t :=
  [NAVData.mk "31-01-2024" "1.75"; NAVData.mk "01-01-2024" "1"].
Definition regular_plan : list NAVData.t :=
  [NAVData.mk "31-01-2024" "1.25"; NAVData.mk "01-01-2024" "1"].
Definition held_direct : Investment.t :=
  Investment.mk "Fund - Direct" true direct_plan (Some regular_plan)
    LUMPSUM 1001 "2024-01-01" None.
Definition held_regular : Investment.t :=
  Investment.mk "Fund - Regular" false regular_plan (Some direct_plan)
    LUMPSUM 1001 "2024-01-01" None.
(** The data point used where a list has none. *)
Definition no_point : ChartDataPoint.t := ChartDataPoint.mk "" 0 0 0 0 0 None.
End Pair.

(** Sample data: three lump sums in the sample series, 0.3 in January,
    1000 in February and a negative amount of 400 in March 2024. *)
Module Odd.
Definition lumpsum (amt : float) (start : string) : Investment.t :=
  Investment.mk "Fund" true Series.newest_first_stored None LUMPSUM amt start None.
Definition investments : list Investment.t :=
  [lumpsum 0.3 "2024-01-15"; lumpsum 1000 "2024-02-15";
   lumpsum (-400) "2024-03-15"].
End Odd.

Section ReplayClaims.

Context {host : Host}.

Local Open Scope float_scope.

(** The value of the plan that the investor holds: the units bought in the
    series of the investment itself, valued in that series. *)
Definition held_value (monthEndDate : Date) (h : Holding.t) : float :=
  value_at
    (if Investment.isDirect (Holding.inv h)
     then Holding.unitsDirect h else Holding.unitsRegular h)
    (Some (Investment.navHistory (Holding.inv h))) monthEndDate.

(** The value of the sibling plan: the units that the same contributions
    would have bought in the counterpart series, valued in that series. *)
Definition sibling_value (monthEndDate : Date) (h : Holding.t) : float :=
  value_at
    (if Investment.isDirect (Holding.inv h)
     then Holding.unitsRegular h else Holding.unitsDirect h)
    (Investment.counterpartNavHistory (Holding.inv h)) monthEndDate.

(** A data point of the month ending on [monthEndDate] for the working
    table [portfolio], whose invested total is positive. *)
Definition emitted_for (benchmarkHistory : option (list NAVData.t))
    (investments : list Investment.t) (p : ChartDataPoint.t)
    (monthEndDate : Date) (portfolio : list Holding.t) : Prop :=
  map Holding.inv portfolio = investments /\
  (0 <? Totals.invested (month_totals monthEndDate portfolio)) = true /\
  exists totalBenchmarkVal,
    p = snapshot benchmarkHistory monthEndDate
          (month_totals monthEndDate portfolio) totalBenchmarkVal.

Lemma contribute_inv (benchmarkHistory : option (list NAVData.t)) (now : Date)
    (year month : jsint) (h : Holding.t) (bu : float) :
  Holding.inv (fst (contribute benchmarkHistory now year month h bu))
  = Holding.inv h.
Proof.
  unfold contribute. now destruct (payment_due now year month h).
Qed.

Lemma contribute_all_inv (benchmarkHistory : option (list NAVData.t))
    (now : Date) (year month : jsint) (portfolio : list Holding.t) (bu : float) :
  map Holding.inv (fst (contribute_all benchmarkHistory now year month portfolio bu))
  = map Holding.inv portfolio.
Proof.
  revert bu. induction portfolio as [|h rest IH]; intros bu; [reflexivity|].
  cbn [contribute_all].
  pose proof (contribute_inv benchmarkHistory now year month h bu) as Hh.
  destruct (contribute benchmarkHistory now year month h bu) as [h' bu'].
  specialize (IH bu').
  destruct (contribute_all benchmarkHistory now year month rest bu') as [rest' bu''].
  cbn [fst map] in *. now rewrite Hh, IH.
Qed.

(** Every data point that the loop adds is the snapshot of some month for
    a working table of the same investments. *)
Lemma backtest_loop_emits (fuel : nat) (benchmarkHistory : option (list NAVData.t))
    (now cursorDate : Date) (portfolio : list Holding.t) (bu : float)
    (dataPoints : list ChartDataPoint.t) (p : ChartDataPoint.t) :
  In p (backtest_loop fuel benchmarkHistory now cursorDate portfolio bu dataPoints) ->
  In p dataPoints \/
  exists monthEndDate portfolio',
    emitted_for benchmarkHistory (map Holding.inv portfolio) p monthEndDate portfolio'.
Proof.
  revert cursorDate portfolio bu dataPoints.
  induction fuel as [|fuel IH]; intros cursorDate portfolio bu dataPoints;
    cbn [backtest_loop]; [now left|].
  destruct (date_leb cursorDate now); [|now left].
  pose proof (contribute_all_inv benchmarkHistory now (getFullYear cursorDate)
                (getMonth cursorDate) portfolio bu) as Hinv.
  destruct (contribute_all benchmarkHistory now (getFullYear cursorDate)
              (getMonth cursorDate) portfolio bu) as [portfolio' bu'].
  cbn [fst] in Hinv. intros Hin. apply IH in Hin. rewrite Hinv in Hin.
  destruct Hin as [Hin|Hin]; [|now right].
  destruct (0 <? Totals.invested _) eqn:Hpos in Hin; [|now left].
  apply in_app_or in Hin. destruct Hin as [Hin|[<-|[]]]; [now left|].
  right. eexists _, portfolio'. split; [exact Hinv|]. split; [exact Hpos|].
  now eexists.
Qed.

Lemma generateBacktestData_emits (clock : Z) (investments : list Investment.t)
    (benchmarkHistory : option (list NAVData.t)) (p : ChartDataPoint.t) :
  In p (generateBacktestData clock investments benchmarkHistory) ->
  exists monthEndDate portfolio,
    emitted_for benchmarkHistory (filter is_active investments) p
      monthEndDate portfolio.
Proof.
  unfold generateBacktestData.
  destruct (filter is_active investments) as [|i rest] eqn:E; [intros []|].
  intros Hin. apply backtest_loop_emits in Hin.
  destruct Hin as [[]|Hin].
  rewrite map_map in Hin. cbn [open_holding Holding.inv] in Hin.
  now rewrite map_id in Hin.
Qed.

(** The five totals of a month are the sums, from 0 and in the order of the
    table, of what each holding adds. *)
Lemma fold_add_holding (monthEndDate : Date) (portfolio : list Holding.t)
    (acc : Totals.t) :
  let t := fold_left (add_holding monthEndDate) portfolio acc in
  Totals.invested t
  = fold_left add (map Holding.totalInvested portfolio) (Totals.invested acc) /\
  Totals.direct t
  = fold_left add (map (valD monthEndDate) portfolio) (Totals.direct acc) /\
  Totals.regular t
  = fold_left add (map (valR monthEndDate) portfolio) (Totals.regular acc) /\
  Totals.actual t
  = fold_left add
      (map (fun h => if Investment.isDirect (Holding.inv h)
                     then valD monthEndDate h else valR monthEndDate h) portfolio)
      (Totals.actual acc) /\
  Totals.counterpart t
  = fold_left add
      (map (fun h => if Investment.isDirect (Holding.inv h)
                     then valR monthEndDate h else valD monthEndDate h) portfolio)
      (Totals.counterpart acc).
Proof.
  revert acc. induction portfolio as [|h rest IH]; intros acc;
    [cbn; repeat split|].
  cbn [fold_left map]. cbv zeta in IH.
  destruct (IH (add_holding monthEndDate acc h)) as (H1 & H2 & H3 & H4 & H5).
  rewrite H1, H2, H3, H4, H5. unfold add_holding. cbn.
  destruct (Investment.isDirect (Holding.inv h)); repeat split.
Qed.

(** Each holding adds to the actual total what it adds to the total of the
    plan it is held in, and to the counterpart total what it adds to the
    total of the other plan. *)
Lemma held_and_sibling (monthEndDate : Date) (h : Holding.t) :
  (if Investment.isDirect (Holding.inv h)
   then valD monthEndDate h else valR monthEndDate h)
  = held_value monthEndDate h /\
  (if Investment.isDirect (Holding.inv h)
   then valR monthEndDate h else valD monthEndDate h)
  = sibling_value monthEndDate h.
Proof.
  unfold held_value, sibling_value, valD, valR, historyD, historyR.
  now destruct (Investment.isDirect (Holding.inv h)).
Qed.

End ReplayClaims.

Section ScenarioClaims.

Context {host : Host}.

Local Open Scope float_scope.

Lemma all_of_plan (flag : bool) (investments : list Investment.t)
    (portfolio : list Holding.t) :
  map Holding.inv portfolio = investments ->
  forallb (fun i => Bool.eqb (Investment.isDirect i) flag) investments = true ->
  forall h, In h portfolio -> Investment.isDirect (Holding.inv h) = flag.
Proof.
  intros <- Hall h Hin. rewrite forallb_forall in Hall.
  apply eqb_prop. apply Hall. now apply in_map.
Qed.

(** C7 (as amended): every data point of [generateBacktestData] belongs to
    a month end and a working table of the active investments such that
    its four values are the roundings of four sums over the table, taken
    from 0 in the order of the table: [directValue] of the direct-plan
    values, [regularValue] of the regular-plan values, [actualValue] of
    the values of the plans held and [counterpartValue] of the values of
    the sibling plans.  An investment held in the direct plan adds its
    direct-plan value to the actual sum and its regular-plan value to the
    counterpart sum, and an investment held in the regular plan the other
    way round.  When all active investments are held in the direct plan,
    [actualValue = directValue] and [counterpartValue = regularValue];
    when all are held in the regular plan, [actualValue = regularValue]
    and [counterpartValue = directValue]. *)
Theorem scenario_pairing (clock : Z) (investments : list Investment.t)
    (benchmarkHistory : option (list NAVData.t)) (p : ChartDataPoint.t) :
  In p (generateBacktestData clock investments benchmarkHistory) ->
  exists monthEndDate portfolio,
    map Holding.inv portfolio = filter is_active investments /\
    ChartDataPoint.directValue p
    = Math_round (sum (map (valD monthEndDate) portfolio)) /\
    ChartDataPoint.regularValue p
    = Math_round (sum (map (valR monthEndDate) portfolio)) /\
    ChartDataPoint.actualValue p
    = Math_round (sum (map (held_value monthEndDate) portfolio)) /\
    ChartDataPoint.counterpartValue p
    = Math_round (sum (map (sibling_value monthEndDate) portfolio)) /\
    Forall
      (fun h =>
         if Investment.isDirect (Holding.inv h)
         then held_value monthEndDate h = valD monthEndDate h /\
              sibling_value monthEndDate h = valR monthEndDate h
         else held_value monthEndDate h = valR monthEndDate h /\
              sibling_value monthEndDate h = valD monthEndDate h)
      portfolio /\
    (forallb (fun i => Bool.eqb (Investment.isDirect i) true)
       (filter is_active investments) = true ->
     ChartDataPoint.actualValue p = ChartDataPoint.directValue p /\
     ChartDataPoint.counterpartValue p = ChartDataPoint.regularValue p) /\
    (forallb (fun i => Bool.eqb (Investment.isDirect i) false)
       (filter is_active investments) = true ->
     ChartDataPoint.actualValue p = ChartDataPoint.regularValue p /\
     ChartDataPoint.counterpartValue p = ChartDataPoint.directValue p).
Proof.
  intros Hin. apply generateBacktestData_emits in Hin.
  destruct Hin as (monthEndDate & portfolio & Hinv & _ & tb & ->).
  exists monthEndDate, portfolio. split; [exact Hinv|].
  unfold month_totals.
  pose proof (fold_add_holding monthEndDate portfolio (Totals.mk 0 0 0 0 0)) as T.
  cbv zeta in T. cbn [Totals.invested Totals.direct Totals.regular Totals.actual
                        Totals.counterpart] in T.
  destruct T as (_ & Hd & Hr & Ha & Hc).
  cbn [snapshot ChartDataPoint.directValue ChartDataPoint.regularValue
         ChartDataPoint.actualValue ChartDataPoint.counterpartValue].
  rewrite Hd, Hr, Ha, Hc.
  assert (Hheld : map (fun h => if Investment.isDirect (Holding.inv h)
                                then valD monthEndDate h else valR monthEndDate h)
                    portfolio
                  = map (held_value monthEndDate) portfolio).
  { apply map_ext. intros h. apply held_and_sibling. }
  assert (Hsib : map (fun h => if Investment.isDirect (Holding.inv h)
                               then valR monthEndDate h else valD monthEndDate h)
                   portfolio
                 = map (sibling_value monthEndDate) portfolio).
  { apply map_ext. intros h. apply held_and_sibling. }
  repeat split.
  - now rewrite Hheld.
  - now rewrite Hsib.
  - apply Forall_forall. intros h _.
    destruct (held_and_sibling monthEndDate h) as [H1 H2].
    destruct (Investment.isDirect (Holding.inv h)); now rewrite H1, H2.
  - f_equal. f_equal. apply map_ext_in. intros h Hh.
    now rewrite (all_of_plan true _ _ Hinv H h Hh).
  - f_equal. f_equal. apply map_ext_in. intros h Hh.
    now rewrite (all_of_plan true _ _ Hinv H h Hh).
  - f_equal. f_equal. apply map_ext_in. intros h Hh.
    now rewrite (all_of_plan false _ _ Hinv H h Hh).
  - f_equal. f_equal. apply map_ext_in. intros h Hh.
    now rewrite (all_of_plan false _ _ Hinv H h Hh).
Qed.

End ScenarioClaims.

(** C7, an instance: the data point of January 2024 for the lump sum held
    in the direct plan alone. *)
Lemma scenario_pairing_witness :
  let p :=
    nth 0 (generateBacktestData (host := RefHost) (Series.at_1030 2024 1 31)
             [Pair.held_direct] None) Pair.no_point in
  ChartDataPoint.actualValue p = ChartDataPoint.directValue p /\
  ChartDataPoint.counterpartValue p = ChartDataPoint.regularValue p.
Proof.
  cbv zeta.
  destruct (scenario_pairing (host := RefHost) (Series.at_1030 2024 1 31)
              [Pair.held_direct] None
              (nth 0 (generateBacktestData (host := RefHost)
                        (Series.at_1030 2024 1 31) [Pair.held_direct] None)
                 Pair.no_point))
    as (monthEndDate & portfolio & _ & _ & _ & _ & _ & _ & Hdirect & _).
  - vm_compute. left. reflexivity.
  - apply Hdirect. vm_compute. reflexivity.
Defined.

(** C7 as stated fails: on 31 January 2024, for the same lump sum of 1001
    held once in the direct plan and once in the regular plan, the direct
    total 3503.5 rounds to 3504, the regular total 2502.5 to 2503 and the
    actual and counterpart totals are 3003 each, so that
    [actualValue + counterpartValue] is 6006 and
    [directValue + regularValue] is 6007. *)
Lemma rounded_totals_do_not_add_up :
  map (fun p =>
         (ChartDataPoint.directValue p, ChartDataPoint.regularValue p,
          ChartDataPoint.actualValue p, ChartDataPoint.counterpartValue p))
    (generateBacktestData (host := RefHost) (Series.at_1030 2024 1 31)
       [Pair.held_direct; Pair.held_regular] None)
  = [(3504, 2503, 3003, 3003)%float] /\
  (3003 + 3003 = 6006)%float /\ (3504 + 2503 = 6007)%float.
Proof. repeat split; vm_compute; reflexivity. Qed.

(* ================================================================== *)
(** * Binary64 arithmetic on numbers that are not negative

    The engine adds amounts and rounds totals.  This part derives, from
    the specification of the primitive floats, that on floats that are
    neither negative nor NaN the addition and [Math.round] are monotone.
    A float is read as its value in units of 2^-1074, a natural number;
    the sum of two floats is then the rounding of the sum of their values
    to 53 significant bits. *)
(* ================================================================== *)

Module Binary64.

(** Round a natural number to 53 significant bits, to nearest, ties to even. *)
Definition rnd (N : Z) : Z :=
  let k := Z.log2 N + 1 - 53 in
  if k <=? 0 then N
  else
    let q := N / 2 ^ k in
    let r := N mod 2 ^ k in
    let h := 2 ^ (k - 1) in
    (if (r <? h) || ((r =? h) && Z.even q) then q else q + 1) * 2 ^ k.

Lemma rnd_bounds (N : Z) :
  0 < Z.log2 N + 1 - 53 ->
  let k := Z.log2 N + 1 - 53 in
  2 ^ 52 * 2 ^ k <= N / 2 ^ k * 2 ^ k /\
  N / 2 ^ k * 2 ^ k <= rnd N <= (N / 2 ^ k + 1) * 2 ^ k /\
  (N / 2 ^ k + 1) * 2 ^ k <= 2 ^ 53 * 2 ^ k.
Proof.
  intros Hk k. assert (HN : 0 < N).
  { destruct (Z_lt_le_dec 0 N) as [|Hle]; [assumption|].
    rewrite (Z.log2_nonpos N Hle) in Hk. lia. }
  destruct (Z.log2_spec N HN) as [Hlo Hhi].
  assert (Hp : 0 < 2 ^ k) by (apply Z.pow_pos_nonneg; lia).
  assert (E1 : 2 ^ Z.log2 N = 2 ^ 52 * 2 ^ k).
  { rewrite <- Z.pow_add_r by lia. f_equal. lia. }
  assert (E2 : 2 ^ Z.succ (Z.log2 N) = 2 ^ 53 * 2 ^ k).
  { rewrite <- Z.pow_add_r by lia. f_equal. lia. }
  rewrite E1 in Hlo. rewrite E2 in Hhi.
  assert (Hq1 : 2 ^ 52 <= N / 2 ^ k).
  { apply Z.div_le_lower_bound; lia. }
  assert (Hq2 : N / 2 ^ k < 2 ^ 53).
  { apply Z.div_lt_upper_bound; lia. }
  assert (Hr : rnd N = N / 2 ^ k * 2 ^ k \/ rnd N = (N / 2 ^ k + 1) * 2 ^ k).
  { unfold rnd. fold k. destruct (k <=? 0) eqn:E; [apply Z.leb_le in E; lia|].
    cbv zeta. destruct (_ || _); auto. }
  repeat split; try nia.
Qed.

Lemma rnd_mono (N N' : Z) : 0 <= N -> N <= N' -> rnd N <= rnd N'.
Proof.
  intros H0 Hle.
  pose proof (Z.log2_le_mono N N' Hle) as Hlog.
  destruct (Z_le_gt_dec (Z.log2 N' + 1 - 53) 0) as [Hk'|Hk'].
  - unfold rnd.
    rewrite (proj2 (Z.leb_le _ _) Hk').
    assert (Hk : Z.log2 N + 1 - 53 <= 0) by lia.
    now rewrite (proj2 (Z.leb_le _ _) Hk).
  - destruct (rnd_bounds N' ltac:(lia)) as (B1' & [B2' B3'] & B4').
    destruct (Z_le_gt_dec (Z.log2 N + 1 - 53) 0) as [Hk|Hk].
    + assert (HN : rnd N = N) by (unfold rnd; now rewrite (proj2 (Z.leb_le _ _) Hk)).
      rewrite HN.
      assert (N < 2 ^ 53).
      { destruct (Z.eq_dec N 0) as [->|Hne]; [reflexivity|].
        destruct (Z.log2_spec N ltac:(lia)) as [_ Hhi].
        eapply Z.lt_le_trans; [exact Hhi|]. apply Z.pow_le_mono_r; lia. }
      assert (2 ^ 1 <= 2 ^ (Z.log2 N' + 1 - 53)) by (apply Z.pow_le_mono_r; lia).
      change (2 ^ 1) with 2 in *. nia.
    + destruct (rnd_bounds N ltac:(lia)) as (B1 & [B2 B3] & B4).
      destruct (Z.eq_dec (Z.log2 N) (Z.log2 N')) as [E|Hne].
      * (* same binade *)
        unfold rnd. rewrite <- E.
        set (k := Z.log2 N + 1 - 53) in *.
        destruct (k <=? 0) eqn:Ek; [apply Z.leb_le in Ek; lia|]. cbv zeta.
        assert (Hp : 0 < 2 ^ k) by (apply Z.pow_pos_nonneg; lia).
        assert (Hq : N / 2 ^ k <= N' / 2 ^ k) by (apply Z.div_le_mono; lia).
        pose proof (Z.div_mod N (2 ^ k) ltac:(lia)) as D.
        pose proof (Z.div_mod N' (2 ^ k) ltac:(lia)) as D'.
        pose proof (Z.mod_pos_bound N (2 ^ k) Hp) as M.
        pose proof (Z.mod_pos_bound N' (2 ^ k) Hp) as M'.
        destruct (Z.eq_dec (N / 2 ^ k) (N' / 2 ^ k)) as [Eq|Hlt].
        -- rewrite <- Eq in *.
           assert (Hr : N mod 2 ^ k <= N' mod 2 ^ k) by nia.
           destruct (N mod 2 ^ k <? 2 ^ (k - 1)) eqn:C1; cbn [orb].
           ++ destruct (_ || _); nia.
           ++ apply Z.ltb_ge in C1.
              destruct (N' mod 2 ^ k <? 2 ^ (k - 1)) eqn:C1'; cbn [orb];
                [apply Z.ltb_lt in C1'; lia|]. apply Z.ltb_ge in C1'.
              destruct (N mod 2 ^ k =? 2 ^ (k - 1)) eqn:C2; cbn [andb].
              ** destruct (Z.even (N / 2 ^ k)); [destruct (_ && _); nia|].
                 rewrite andb_false_r. nia.
              ** apply Z.eqb_neq in C2.
                 assert (C2' : (N' mod 2 ^ k =? 2 ^ (k - 1)) = false)
                   by (apply Z.eqb_neq; lia).
                 rewrite C2'. cbn [andb]. nia.
        -- destruct ((_ <? _) || _); destruct ((_ <? _) || _); nia.
      * assert (Hlt : Z.log2 N < Z.log2 N') by lia.
        assert (2 ^ (Z.log2 N + 1 - 53) * 2 <= 2 ^ (Z.log2 N' + 1 - 53)).
        { replace (2 ^ (Z.log2 N + 1 - 53) * 2) with (2 ^ (Z.log2 N + 1 - 53 + 1))
            by (rewrite Z.pow_add_r by lia; reflexivity).
          apply Z.pow_le_mono_r; lia. }
        assert (0 < 2 ^ (Z.log2 N + 1 - 53)) by (apply Z.pow_pos_nonneg; lia).
        nia.
Qed.

Lemma rnd_exact (m j : Z) : 0 < m < 2 ^ 53 -> 0 <= j -> rnd (m * 2 ^ j) = m * 2 ^ j.
Proof.
  intros Hm Hj. unfold rnd.
  set (N := m * 2 ^ j). set (k := Z.log2 N + 1 - 53).
  destruct (k <=? 0) eqn:Ek; [reflexivity|]. apply Z.leb_gt in Ek. cbv zeta.
  assert (HlogN : Z.log2 N = j + Z.log2 m) by (apply Z.log2_mul_pow2; lia).
  assert (Hlogm : Z.log2 m < 53) by (apply Z.log2_lt_pow2; lia).
  assert (Hkj : k <= j) by lia.
  assert (Hp : 0 < 2 ^ k) by (apply Z.pow_pos_nonneg; lia).
  assert (E : N = m * 2 ^ (j - k) * 2 ^ k).
  { unfold N. rewrite <- Z.mul_assoc, <- Z.pow_add_r by lia. do 2 f_equal. lia. }
  assert (Hmod : N mod 2 ^ k = 0) by (rewrite E; apply Z.mod_mul; lia).
  assert (Hdiv : N / 2 ^ k = m * 2 ^ (j - k)) by (rewrite E; apply Z.div_mul; lia).
  rewrite Hmod.
  assert (Hh : 0 < 2 ^ (k - 1)) by (apply Z.pow_pos_nonneg; lia).
  rewrite (proj2 (Z.ltb_lt 0 _) Hh). cbn [orb]. rewrite Hdiv. lia.
Qed.

(** digits *)
Lemma digits2_log2 (m : positive) : Zpos (digits2_pos m) = Z.log2 (Zpos m) + 1.
Proof.
  assert (H : forall p, digits2_pos p = Pos.size p)
    by (induction p; simpl; congruence).
  rewrite H. destruct m; simpl; lia.
Qed.

Lemma iter_pos_nat {A : Type} (f : A -> A) (p : positive) (x : A) :
  iter_pos f p x = Nat.iter (Pos.to_nat p) f x.
Proof.
  revert x. induction p as [p IH|p IH|]; intros x; cbn [iter_pos].
  - rewrite !IH. rewrite Pos2Nat.inj_xI.
    replace (S (2 * Pos.to_nat p)) with (Pos.to_nat p + (Pos.to_nat p + 1))%nat by lia.
    rewrite !Nat.iter_add. reflexivity.
  - rewrite !IH. rewrite Pos2Nat.inj_xO.
    replace (2 * Pos.to_nat p)%nat with (Pos.to_nat p + Pos.to_nat p)%nat by lia.
    now rewrite Nat.iter_add.
  - reflexivity.
Qed.

Lemma shr_1_spec (m : Z) (r s : bool) :
  0 <= m ->
  shr_1 (Build_shr_record m r s) = Build_shr_record (m / 2) (Z.odd m) (r || s).
Proof.
  intros Hm. rewrite <- Z.div2_div.
  destruct m as [|[p|p|]|p]; try reflexivity; lia.
Qed.

(** The record after [n >= 1] right shifts of [m]. *)
Definition shifted (m : Z) (n : Z) : shr_record :=
  Build_shr_record (m / 2 ^ n) (Z.odd (m / 2 ^ (n - 1)))
    (negb (m mod 2 ^ (n - 1) =? 0)).

Lemma shifted_succ (m n : Z) :
  0 <= m -> 1 <= n -> shr_1 (shifted m n) = shifted m (n + 1).
Proof.
  intros Hm Hn. unfold shifted.
  assert (Hp : 0 < 2 ^ n) by (apply Z.pow_pos_nonneg; lia).
  assert (Hp1 : 0 < 2 ^ (n - 1)) by (apply Z.pow_pos_nonneg; lia).
  rewrite shr_1_spec by (apply Z.div_pos; lia).
  replace (n + 1 - 1) with n by lia.
  f_equal.
  - rewrite Z.pow_add_r by lia. change (2 ^ 1) with 2.
    now rewrite Z.div_div by lia.
  - (* sticky *)
    assert (E : 2 ^ n = 2 ^ (n - 1) * 2).
    { replace n with (n - 1 + 1) at 1 by lia. now rewrite Z.pow_add_r by lia. }
    pose proof (Z.div_mod m (2 ^ (n - 1)) ltac:(lia)) as D.
    pose proof (Z.mod_pos_bound m (2 ^ (n - 1)) Hp1) as B.
    set (a := m / 2 ^ (n - 1)) in *. set (b := m mod 2 ^ (n - 1)) in *.
    pose proof (Z.div_mod a 2 ltac:(lia)) as Da.
    pose proof (Z.mod_pos_bound a 2 ltac:(lia)) as Ba.
    assert (Hmod : m mod 2 ^ n = 2 ^ (n - 1) * (a mod 2) + b).
    { symmetry. apply (Z.mod_unique_pos m (2 ^ n) (a / 2)); nia. }
    rewrite Hmod. pose proof (Zmod_odd a) as Ho.
    destruct (Z.odd a); rewrite Ho; cbn [orb].
    + symmetry. apply negb_true_iff. apply Z.eqb_neq. nia.
    + f_equal. f_equal. lia.
Qed.

Lemma shr_iter (m : Z) (p : positive) :
  0 <= m ->
  iter_pos shr_1 p (Build_shr_record m false false) = shifted m (Zpos p).
Proof.
  intros Hm. rewrite iter_pos_nat.
  rewrite <- (positive_nat_Z p).
  assert (H : (1 <= Pos.to_nat p)%nat) by lia. revert H.
  generalize (Pos.to_nat p) as n. intros n Hn.
  induction n as [|n IH]; [lia|].
  destruct n as [|n].
  - cbn [Nat.iter nat_rect]. rewrite shr_1_spec by assumption.
    unfold shifted. cbn. rewrite Z.div_1_r. now rewrite Z.mod_1_r.
  - change (Nat.iter (S (S n)) shr_1 ?x) with (shr_1 (Nat.iter (S n) shr_1 x)).
    rewrite IH by lia. rewrite shifted_succ by lia. f_equal. lia.
Qed.

Definition INF : Z := 2 ^ 2098.

(** The value of a float that is not negative and not NaN, in units of
    2^-1074; the infinity counts as 2^1024. *)
Definition nnv (f : spec_float) : option Z :=
  match f with
  | S754_zero _ => Some 0
  | S754_finite false m e => Some (Zpos m * 2 ^ (e + 1074))
  | S754_infinity false => Some INF
  | _ => None
  end.

Lemma INF_53 : INF = 2 ^ 53 * 2 ^ 2045.
Proof. unfold INF. rewrite <- Z.pow_add_r by lia. now f_equal. Qed.

Lemma INF_52 : INF = 2 ^ 52 * 2 ^ 2046.
Proof. unfold INF. rewrite <- Z.pow_add_r by lia. now f_equal. Qed.

(** A mantissa of at most 53 bits with an exponent of a finite float stays
    below the infinity; one of 53 bits with a larger exponent does not. *)
Lemma below_INF (a k : Z) : 0 <= a < 2 ^ 53 -> 0 <= k <= 2045 -> a * 2 ^ k < INF.
Proof.
  intros Ha Hk. rewrite INF_53.
  assert (Hp : 0 < 2 ^ k) by (apply Z.pow_pos_nonneg; lia).
  assert (Hq : 2 ^ k <= 2 ^ 2045) by (apply Z.pow_le_mono_r; lia).
  revert Hp Hq. generalize (2 ^ k) (2 ^ 2045). intros p q Hp Hq.
  change (2 ^ 53) with 9007199254740992 in *. nia.
Qed.

Lemma above_INF (a k : Z) : 2 ^ 52 <= a -> 2046 <= k -> INF <= a * 2 ^ k.
Proof.
  intros Ha Hk. rewrite INF_52.
  assert (Hp : 0 < 2 ^ 2046) by (apply Z.pow_pos_nonneg; lia).
  assert (Hq : 2 ^ 2046 <= 2 ^ k) by (apply Z.pow_le_mono_r; lia).
  revert Hp Hq. generalize (2 ^ k) (2 ^ 2046). intros p q Hp Hq.
  change (2 ^ 52) with 4503599627370496 in *. nia.
Qed.

Lemma fexp_eq (x : Z) : fexp prec emax x = Z.max (x - 53) (-1074).
Proof. reflexivity. Qed.

Lemma Zdigits2_log2 (m : positive) : Zdigits2 (Zpos m) = Z.log2 (Zpos m) + 1.
Proof. apply digits2_log2. Qed.

Lemma shr_fexp_none (m e : Z) (l : location) :
  fexp prec emax (Zdigits2 m + e) = e ->
  shr_fexp prec emax m e l = (shr_record_of_loc m l, e).
Proof.
  intros H. unfold shr_fexp. rewrite H. now rewrite Z.sub_diag.
Qed.

Lemma shr_fexp_shift (m : positive) (e : Z) (p : positive) :
  fexp prec emax (Zdigits2 (Zpos m) + e) - e = Zpos p ->
  shr_fexp prec emax (Zpos m) e loc_Exact = (shifted (Zpos m) (Zpos p), e + Zpos p).
Proof.
  intros H. unfold shr_fexp. rewrite H. cbn [shr shr_record_of_loc].
  now rewrite shr_iter by lia.
Qed.

(** Rounding a mantissa that is already canonical changes nothing. *)
Lemma binary_round_aux_canonical (m : positive) (e : Z) :
  fexp prec emax (Zdigits2 (Zpos m) + e) = e ->
  binary_round_aux prec emax false (Zpos m) e loc_Exact
  = if e <=? 971 then S754_finite false m e else S754_infinity false.
Proof.
  intros H. unfold binary_round_aux.
  rewrite (shr_fexp_none _ _ _ H). cbn [shr_record_of_loc shr_m loc_of_shr_record round_nearest_even].
  rewrite (shr_fexp_none _ _ _ H). cbn [shr_record_of_loc shr_m].
  reflexivity.
Qed.

Lemma pow2_log2 (m : positive) :
  2 ^ Z.log2 (Zpos m) <= Zpos m < 2 ^ (Z.log2 (Zpos m) + 1).
Proof. apply (Z.log2_spec (Zpos m)). lia. Qed.

Lemma iter_xO (m p : positive) : Zpos (Pos.iter xO m p) = Zpos m * 2 ^ Zpos p.
Proof.
  induction p as [|p IH] using Pos.peano_ind.
  - cbn [Pos.iter]. change (2 ^ 1) with 2. lia.
  - rewrite Pos.iter_succ, Pos2Z.inj_succ, Z.pow_succ_r by lia.
    rewrite Pos2Z.inj_xO, IH. lia.
Qed.

Lemma shl_align_spec (m : positive) (e e' : Z) :
  e' <= e ->
  let '(m1, e1) := shl_align m e e' in
  Zpos m1 = Zpos m * 2 ^ (e - e') /\ e1 = e'.
Proof.
  intros Hle. unfold shl_align.
  destruct (e' - e) as [|p|p] eqn:E; try lia.
  - replace (e - e') with 0 by lia. split; lia.
  - rewrite iter_xO. replace (e - e') with (Zpos p) by lia. split; reflexivity.
Qed.

(** What [binary_round] makes of a positive mantissa and an exponent not
    below the least one: the value rounded to 53 bits, or the infinity. *)
Lemma binary_round_value (m : positive) (e : Z) :
  -1074 <= e ->
  nnv (binary_round prec emax false m e)
  = Some (Z.min (rnd (Zpos m * 2 ^ (e + 1074))) INF).
Proof.
  intros He. unfold binary_round. rewrite digits2_log2.
  pose proof (pow2_log2 m) as Hm.
  remember (Z.log2 (Zpos m) + 1) as d eqn:Ed.
  assert (Hd : 1 <= d) by (pose proof (Z.log2_nonneg (Zpos m)); lia).
  set (N := Zpos m * 2 ^ (e + 1074)).
  assert (HlogN : Z.log2 N = e + 1074 + Z.log2 (Zpos m))
    by (apply Z.log2_mul_pow2; lia).
  destruct (Z_le_gt_dec d 53) as [Hsmall|Hbig].
  - (* the mantissa fits: shift left, nothing is lost *)
    assert (HF : fexp prec emax (d + e) <= e) by (rewrite fexp_eq; lia).
    pose proof (shl_align_spec m e _ HF) as Hsh.
    destruct (shl_align m e (fexp prec emax (d + e))) as [m1 e1].
    destruct Hsh as [Hm1 ->].
    remember (fexp prec emax (d + e)) as F eqn:HF'.
    rewrite fexp_eq in HF'.
    assert (Hlog1 : Z.log2 (Zpos m1) = e - F + Z.log2 (Zpos m)).
    { rewrite Hm1. apply Z.log2_mul_pow2; lia. }
    assert (Hcan : fexp prec emax (Zdigits2 (Zpos m1) + F) = F).
    { rewrite Zdigits2_log2, Hlog1, fexp_eq. lia. }
    rewrite binary_round_aux_canonical by exact Hcan.
    assert (HN : N = Zpos m1 * 2 ^ (F + 1074)).
    { unfold N. rewrite Hm1, <- Z.mul_assoc, <- Z.pow_add_r by lia.
      do 2 f_equal. lia. }
    assert (Hm1lt : Zpos m1 < 2 ^ 53).
    { apply Z.log2_lt_pow2; lia. }
    assert (Hr : rnd N = N) by (rewrite HN; apply rnd_exact; lia).
    rewrite Hr.
    destruct (F <=? 971) eqn:EF; cbn [nnv]; f_equal.
    + apply Z.leb_le in EF. rewrite <- HN.
      assert (N < INF); [|lia].
      rewrite HN. apply below_INF; lia.
    + apply Z.leb_gt in EF.
      assert (INF <= N); [|lia].
      assert (H52 : 2 ^ 52 <= Zpos m1).
      { replace 52 with (Z.log2 (Zpos m1)) by lia. apply pow2_log2. }
      rewrite HN. apply above_INF; lia.
  - (* the mantissa is too long: shift right and round *)
    assert (HF : fexp prec emax (d + e) = d + e - 53) by (rewrite fexp_eq; lia).
    unfold shl_align. rewrite HF.
    destruct (d + e - 53 - e) as [|n|n] eqn:En; try lia.
    unfold binary_round_aux.
    rewrite (shr_fexp_shift m e n)
      by (rewrite Zdigits2_log2, <- Ed, HF; exact En).
    remember (e + Zpos n) as F eqn:EF.
    assert (HFv : F = d + e - 53) by lia.
    (* quotient and remainder *)
    remember (Z.log2 N + 1 - 53) as k eqn:Ek.
    assert (Hk : k = F + 1074) by lia.
    assert (Hpn : 0 < 2 ^ Zpos n) by (apply Z.pow_pos_nonneg; lia).
    assert (Hpe : 0 < 2 ^ (e + 1074)) by (apply Z.pow_pos_nonneg; lia).
    assert (Epk : 2 ^ k = 2 ^ Zpos n * 2 ^ (e + 1074)).
    { rewrite <- Z.pow_add_r by lia. f_equal. lia. }
    pose proof (Z.div_mod (Zpos m) (2 ^ Zpos n) ltac:(lia)) as D.
    pose proof (Z.mod_pos_bound (Zpos m) (2 ^ Zpos n) Hpn) as B.
    set (q := Zpos m / 2 ^ Zpos n) in *.
    set (r := Zpos m mod 2 ^ Zpos n) in *.
    assert (Hq : N / 2 ^ k = q).
    { symmetry. apply (Z.div_unique_pos N (2 ^ k) q (r * 2 ^ (e + 1074))); unfold N; nia. }
    assert (Hrm : N mod 2 ^ k = r * 2 ^ (e + 1074)).
    { symmetry. apply (Z.mod_unique_pos N (2 ^ k) q); unfold N; nia. }
    assert (Hqb : 2 ^ 52 <= q < 2 ^ 53).
    { assert (E1 : 2 ^ Z.log2 (Zpos m) = 2 ^ 52 * 2 ^ Zpos n).
      { rewrite <- Z.pow_add_r by lia. f_equal. lia. }
      assert (E2 : 2 ^ d = 2 ^ 53 * 2 ^ Zpos n).
      { rewrite <- Z.pow_add_r by lia. f_equal. lia. }
      rewrite E1, E2 in Hm.
      split; [apply Z.div_le_lower_bound; lia|apply Z.div_lt_upper_bound; lia]. }
    (* the rounded mantissa *)
    assert (Hh : 0 < 2 ^ (Zpos n - 1)) by (apply Z.pow_pos_nonneg; lia).
    assert (Ehalf : 2 ^ Zpos n = 2 ^ (Zpos n - 1) * 2).
    { replace (Zpos n) with (Zpos n - 1 + 1) at 1 by lia.
      now rewrite Z.pow_add_r by lia. }
    assert (Ekh : 2 ^ (k - 1) = 2 ^ (Zpos n - 1) * 2 ^ (e + 1074)).
    { rewrite <- Z.pow_add_r by lia. f_equal. lia. }
    remember (round_nearest_even (shr_m (shifted (Zpos m) (Zpos n)))
                (loc_of_shr_record (shifted (Zpos m) (Zpos n)))) as m3 eqn:E3.
    assert (Hm3 : m3 = if (r <? 2 ^ (Zpos n - 1))
                          || ((r =? 2 ^ (Zpos n - 1)) && Z.even q)
                       then q else q + 1).
    { rewrite E3. unfold shifted. cbn [shr_m].
      pose proof (Z.div_mod (Zpos m) (2 ^ (Zpos n - 1)) ltac:(lia)) as D1.
      pose proof (Z.mod_pos_bound (Zpos m) (2 ^ (Zpos n - 1)) Hh) as B1.
      remember (Zpos m / 2 ^ (Zpos n - 1)) as a eqn:Ea.
      remember (Zpos m mod 2 ^ (Zpos n - 1)) as b eqn:Eb.
      pose proof (Z.div_mod a 2 ltac:(lia)) as Da.
      pose proof (Z.mod_pos_bound a 2 ltac:(lia)) as Ba.
      assert (Hr : r = 2 ^ (Zpos n - 1) * (a mod 2) + b).
      { subst r. symmetry. apply (Z.mod_unique_pos (Zpos m) (2 ^ Zpos n) (a / 2)); nia. }
      pose proof (Zmod_odd a) as Ho.
      destruct (Z.odd a); rewrite Ho in Hr.
      - destruct (Z.eq_dec b 0) as [->|Hb].
        + cbn [Z.eqb negb loc_of_shr_record round_nearest_even].
          replace (r <? 2 ^ (Zpos n - 1)) with false by (symmetry; apply Z.ltb_ge; lia).
          replace (r =? 2 ^ (Zpos n - 1)) with true by (symmetry; apply Z.eqb_eq; lia).
          reflexivity.
        + replace (b =? 0) with false by (symmetry; apply Z.eqb_neq; lia).
          cbn [negb loc_of_shr_record round_nearest_even].
          replace (r <? 2 ^ (Zpos n - 1)) with false by (symmetry; apply Z.ltb_ge; lia).
          replace (r =? 2 ^ (Zpos n - 1)) with false by (symmetry; apply Z.eqb_neq; lia).
          reflexivity.
      - replace (r <? 2 ^ (Zpos n - 1)) with true by (symmetry; apply Z.ltb_lt; lia).
        destruct (b =? 0); reflexivity. }
    assert (Hrnd : rnd N = m3 * 2 ^ k).
    { unfold rnd. rewrite <- Ek.
      replace (k <=? 0) with false by (symmetry; apply Z.leb_gt; lia).
      cbv zeta. rewrite Hq, Hrm, Ekh, Hm3.
      replace (r * 2 ^ (e + 1074) <? 2 ^ (Zpos n - 1) * 2 ^ (e + 1074))
        with (r <? 2 ^ (Zpos n - 1)).
      2:{ destruct (Z.ltb_spec r (2 ^ (Zpos n - 1)));
          [symmetry; apply Z.ltb_lt|symmetry; apply Z.ltb_ge]; nia. }
      replace (r * 2 ^ (e + 1074) =? 2 ^ (Zpos n - 1) * 2 ^ (e + 1074))
        with (r =? 2 ^ (Zpos n - 1)).
      2:{ destruct (Z.eqb_spec r (2 ^ (Zpos n - 1)));
          [symmetry; apply Z.eqb_eq|symmetry; apply Z.eqb_neq]; nia. }
      reflexivity. }
    assert (Hm3b : 2 ^ 52 <= m3 <= 2 ^ 53) by (rewrite Hm3; destruct (_ || _); lia).
    rewrite Hrnd. clear E3 Hm3 Hrnd.
    assert (Hpk : 0 < 2 ^ k) by (apply Z.pow_pos_nonneg; lia).
    destruct (Z.eq_dec m3 (2 ^ 53)) as [Ecarry|Hnc].
    + (* the rounding carried into a 54th bit *)
      rewrite Ecarry. change (2 ^ 53) with 9007199254740992.
      unfold shr_fexp. change (Zdigits2 9007199254740992) with 54.
      replace (fexp prec emax (54 + F) - F) with 1 by (rewrite fexp_eq; lia).
      cbn [shr iter_pos shr_1 shr_record_of_loc shr_m].
      assert (Ev : 4503599627370496 * 2 ^ (F + 1 + 1074) = 9007199254740992 * 2 ^ k).
      { rewrite Hk. replace (F + 1 + 1074) with (F + 1074 + 1) by lia.
        rewrite Z.pow_add_r by lia. lia. }
      change (emax - prec) with 971.
      destruct (F + 1 <=? 971) eqn:EF1; cbn [nnv]; f_equal.
      * apply Z.leb_le in EF1. rewrite Ev.
        assert (9007199254740992 * 2 ^ k < INF); [|lia].
        rewrite <- Ev. apply below_INF; lia.
      * apply Z.leb_gt in EF1.
        assert (INF <= 9007199254740992 * 2 ^ k); [|lia].
        rewrite <- Ev. apply above_INF; lia.
    + destruct m3 as [|p3|p3]; try (change (2 ^ 52) with 4503599627370496 in Hm3b; lia).
      assert (Hlog3 : Z.log2 (Zpos p3) = 52).
      { apply Z.log2_unique; [lia|]. change (52 + 1) with 53. lia. }
      rewrite shr_fexp_none by (rewrite Zdigits2_log2, Hlog3, fexp_eq; lia).
      cbn [shr_record_of_loc shr_m].
      assert (Ev : 2 ^ (F + 1074) = 2 ^ k) by (f_equal; lia).
      change (emax - prec) with 971.
      destruct (F <=? 971) eqn:EF1; cbn [nnv]; f_equal.
      * apply Z.leb_le in EF1. rewrite Ev.
        assert (Zpos p3 * 2 ^ k < INF); [|lia].
        apply below_INF; lia.
      * apply Z.leb_gt in EF1.
        assert (INF <= Zpos p3 * 2 ^ k); [|lia].
        apply above_INF; lia.
Qed.

Lemma some_inj {A : Type} (x y : A) : Some x = Some y -> x = y.
Proof. congruence. Qed.

(** What validity says of a finite float. *)
Lemma valid_finite (s : bool) (m : positive) (e : Z) :
  valid_binary (S754_finite s m e) = true ->
  -1074 <= e <= 971 /\ Zpos m < 2 ^ 53 /\ (e = -1074 \/ 2 ^ 52 <= Zpos m).
Proof.
  cbn [SpecFloat.valid_binary]. unfold bounded, canonical_mantissa.
  intros H. apply andb_prop in H. destruct H as [Hc He].
  apply Z.eqb_eq in Hc. apply Z.leb_le in He. change (emax - prec) with 971 in He.
  rewrite digits2_log2, fexp_eq in Hc.
  pose proof (pow2_log2 m) as Hm.
  assert (Hl : Z.log2 (Zpos m) <= 52) by lia.
  split; [lia|]. split.
  - eapply Z.lt_le_trans; [apply Hm|]. apply Z.pow_le_mono_r; lia.
  - destruct (Z.eq_dec e (-1074)) as [|Hne]; [now left|right].
    assert (El : Z.log2 (Zpos m) = 52) by lia. rewrite <- El. apply Hm.
Qed.

Lemma rnd_0 : rnd 0 = 0.
Proof. reflexivity. Qed.

Lemma rnd_INF : rnd INF = INF.
Proof.
  unfold INF. rewrite <- (Z.mul_1_l (2 ^ 2098)). apply rnd_exact; lia.
Qed.

Lemma INF_pos : 0 < INF.
Proof. unfold INF. apply Z.pow_pos_nonneg; lia. Qed.

(** The value of a valid float is a fixed point of the rounding. *)
Lemma nnv_fixed (f : spec_float) (a : Z) :
  valid_binary f = true -> nnv f = Some a ->
  0 <= a <= INF /\ Z.min (rnd a) INF = a.
Proof.
  intros Hv Ha. pose proof INF_pos. destruct f as [s|[|]| |[|] m e]; try discriminate;
    cbn [nnv] in Ha; apply some_inj in Ha; subst a.
  - rewrite rnd_0. lia.
  - rewrite rnd_INF. lia.
  - destruct (valid_finite _ _ _ Hv) as (He & Hm & _).
    rewrite rnd_exact by lia.
    assert (Zpos m * 2 ^ (e + 1074) < INF); [|lia].
    apply below_INF; lia.
Qed.

Lemma finite_order (m1 m2 : positive) (e1 e2 : Z) :
  valid_binary (S754_finite false m1 e1) = true ->
  valid_binary (S754_finite false m2 e2) = true ->
  e1 < e2 -> Zpos m1 * 2 ^ (e1 + 1074) < Zpos m2 * 2 ^ (e2 + 1074).
Proof.
  intros H1 H2 Hlt.
  destruct (valid_finite _ _ _ H1) as (He1 & Hm1 & _).
  destruct (valid_finite _ _ _ H2) as (He2 & _ & [E|Hm2]); [lia|].
  assert (0 < 2 ^ (e1 + 1074)) by (apply Z.pow_pos_nonneg; lia).
  assert (2 ^ (e1 + 1074) * 2 <= 2 ^ (e2 + 1074)).
  { replace (2 ^ (e1 + 1074) * 2) with (2 ^ (e1 + 1074 + 1))
      by (rewrite Z.pow_add_r by lia; reflexivity).
    apply Z.pow_le_mono_r; lia. }
  change (2 ^ 53) with 9007199254740992 in *.
  change (2 ^ 52) with 4503599627370496 in *. nia.
Qed.

(** On valid floats that are not negative, the order of the floats is the
    order of their values. *)
Lemma SFleb_nnv (f g : spec_float) (a b : Z) :
  valid_binary f = true -> valid_binary g = true ->
  nnv f = Some a -> nnv g = Some b ->
  (SFleb f g = true <-> a <= b).
Proof.
  intros Hf Hg Ha Hb. pose proof INF_pos.
  destruct (nnv_fixed f a Hf Ha) as [Ba _].
  destruct (nnv_fixed g b Hg Hb) as [Bb _].
  destruct f as [sf|[|]| |[|] mf ef]; try discriminate;
    destruct g as [sg|[|]| |[|] mg eg]; try discriminate;
    cbn [nnv] in Ha, Hb; apply some_inj in Ha, Hb; subst a b;
    unfold SFleb; cbn [SFcompare].
  - split; [lia|reflexivity].
  - split; [lia|reflexivity].
  - split; [intros _|reflexivity].
    assert (0 < 2 ^ (eg + 1074)); [|nia].
    destruct (valid_finite _ _ _ Hg) as (He & _). apply Z.pow_pos_nonneg; lia.
  - split; [discriminate|lia].
  - split; [lia|reflexivity].
  - split; [discriminate|].
    destruct (valid_finite _ _ _ Hg) as (He & Hm & _).
    assert (Zpos mg * 2 ^ (eg + 1074) < INF); [|lia].
    apply below_INF; lia.
  - split; [discriminate|].
    destruct (valid_finite _ _ _ Hf) as (He & _).
    assert (0 < 2 ^ (ef + 1074)) by (apply Z.pow_pos_nonneg; lia). nia.
  - split; [lia|reflexivity].
  - destruct (Z.compare_spec ef eg) as [->|Hlt|Hgt].
    + rewrite Pos.compare_cont_spec. cbn [Pos.switch_Eq].
      destruct (valid_finite _ _ _ Hg) as (He & _).
      assert (0 < 2 ^ (eg + 1074)) by (apply Z.pow_pos_nonneg; lia).
      destruct (Pos.compare_spec mf mg) as [->|Hl|Hg']; split; try discriminate;
        try reflexivity; nia.
    + pose proof (finite_order _ _ _ _ Hf Hg Hlt). split; [lia|reflexivity].
    + pose proof (finite_order _ _ _ _ Hg Hf ltac:(lia)). split; [discriminate|lia].
Qed.

(** A float at least as large as one that is not negative is not negative. *)
Lemma SFleb_nnv_right (f g : spec_float) (a : Z) :
  nnv f = Some a -> SFleb f g = true -> exists b, nnv g = Some b.
Proof.
  intros Ha Hle.
  destruct f as [sf|[|]| |[|] mf ef]; try discriminate;
    destruct g as [sg|[|]| |[|] mg eg]; try discriminate; cbn [nnv]; eauto.
Qed.

(** The sum of two valid floats that are not negative. *)
Lemma SFadd_nnv (f g : spec_float) (a b : Z) :
  valid_binary f = true -> valid_binary g = true ->
  nnv f = Some a -> nnv g = Some b ->
  nnv (SF64add f g) = Some (Z.min (rnd (a + b)) INF).
Proof.
  intros Hf Hg Ha Hb. pose proof INF_pos.
  destruct (nnv_fixed f a Hf Ha) as [Ba Fa].
  destruct (nnv_fixed g b Hg Hb) as [Bb Fb].
  assert (Hinf : forall x, INF <= x -> Z.min (rnd x) INF = INF).
  { intros x Hx. pose proof (rnd_mono INF x ltac:(lia) Hx). rewrite rnd_INF in *. lia. }
  destruct f as [sf|[|]| |[|] mf ef]; try discriminate;
    destruct g as [sg|[|]| |[|] mg eg]; try discriminate;
    cbn [nnv] in Ha, Hb; apply some_inj in Ha, Hb; subst a b;
    unfold SF64add; cbn [SFadd].
  - rewrite Z.add_0_l, rnd_0, Z.min_l by lia. now destruct sf, sg.
  - cbn [nnv]. now rewrite Hinf by lia.
  - cbn [nnv]. rewrite Z.add_0_l, Fb. reflexivity.
  - cbn [nnv]. now rewrite Hinf by lia.
  - cbn [nnv]. now rewrite Hinf by lia.
  - cbn [nnv]. now rewrite Hinf by lia.
  - cbn [nnv]. rewrite Z.add_0_r, Fa. reflexivity.
  - cbn [nnv]. now rewrite Hinf by lia.
  - destruct (valid_finite _ _ _ Hf) as (Hef & _).
    destruct (valid_finite _ _ _ Hg) as (Heg & _).
    pose proof (shl_align_spec mf ef (Z.min ef eg) ltac:(lia)) as Sf.
    pose proof (shl_align_spec mg eg (Z.min ef eg) ltac:(lia)) as Sg.
    destruct (shl_align mf ef (Z.min ef eg)) as [mf' ef'].
    destruct (shl_align mg eg (Z.min ef eg)) as [mg' eg'].
    destruct Sf as [Sf _]. destruct Sg as [Sg _].
    cbn [fst cond_Zopp Z.add binary_normalize].
    rewrite binary_round_value by lia. do 3 f_equal.
    rewrite Pos2Z.inj_add, Sf, Sg, Z.mul_add_distr_r.
    assert (Ef : 2 ^ (ef - Z.min ef eg) * 2 ^ (Z.min ef eg + 1074) = 2 ^ (ef + 1074)).
    { rewrite <- Z.pow_add_r by lia. f_equal. lia. }
    assert (Eg : 2 ^ (eg - Z.min ef eg) * 2 ^ (Z.min ef eg + 1074) = 2 ^ (eg + 1074)).
    { rewrite <- Z.pow_add_r by lia. f_equal. lia. }
    rewrite <- !Z.mul_assoc, Ef, Eg. reflexivity.
Qed.

(** The value of a float that is not negative and not NaN. *)
Definition fv (x : float) : option Z := nnv (Prim2SF x).

Lemma fv_fixed (x : float) (a : Z) :
  fv x = Some a -> 0 <= a <= INF /\ Z.min (rnd a) INF = a.
Proof. apply nnv_fixed, Prim2SF_valid. Qed.

Lemma fv_nonneg (x : float) :
  (0 <=? x)%float = true <-> exists a, fv x = Some a.
Proof.
  rewrite leb_spec. change (Prim2SF 0) with (S754_zero false). unfold fv.
  destruct (Prim2SF x) as [s|[|]| |[|] m e]; cbn; split;
    try discriminate; try (intros [a [=]]); eauto.
Qed.

Lemma fv_leb (x y : float) (a b : Z) :
  fv x = Some a -> fv y = Some b -> ((x <=? y)%float = true <-> a <= b).
Proof.
  intros Ha Hb. rewrite leb_spec.
  apply SFleb_nnv; auto using Prim2SF_valid.
Qed.

Lemma fv_leb_right (x y : float) (a : Z) :
  fv x = Some a -> (x <=? y)%float = true -> exists b, fv y = Some b.
Proof. intros Ha. rewrite leb_spec. now apply SFleb_nnv_right with (a := a). Qed.

Lemma fv_add (x y : float) (a b : Z) :
  fv x = Some a -> fv y = Some b ->
  fv (x + y) = Some (Z.min (rnd (a + b)) INF).
Proof.
  intros Ha Hb. unfold fv. rewrite add_spec.
  apply SFadd_nnv; auto using Prim2SF_valid.
Qed.

(** Rounding a value to a whole number of units, ties upwards. *)
Definition to_integer (N : Z) : Z := (N + 2 ^ 1073) / 2 ^ 1074 * 2 ^ 1074.

Lemma to_integer_mono (N N' : Z) : N <= N' -> to_integer N <= to_integer N'.
Proof.
  intros H. unfold to_integer.
  apply Z.mul_le_mono_nonneg_r; [apply Z.pow_nonneg; lia|].
  apply Z.div_le_mono; [apply Z.pow_pos_nonneg; lia|].
  apply Z.add_le_mono_r. exact H.
Qed.

Lemma to_integer_multiple (n : Z) : to_integer (n * 2 ^ 1074) = n * 2 ^ 1074.
Proof.
  unfold to_integer. f_equal.
  assert (H : 0 < 2 ^ 1073) by (apply Z.pow_pos_nonneg; lia).
  assert (E : 2 ^ 1074 = 2 ^ 1073 * 2)
    by (change 1074 with (1073 + 1); rewrite Z.pow_add_r by lia; reflexivity).
  revert H E. generalize (2 ^ 1074) (2 ^ 1073). intros p q H E.
  symmetry. apply (Z.div_unique_pos _ _ n q); lia.
Qed.

Lemma fv_Z2float (n : Z) :
  0 < n < 2 ^ 53 -> fv (Z2float n) = Some (n * 2 ^ 1074).
Proof.
  intros Hn. unfold Z2float, fv.
  replace (n <? 0) with false by (symmetry; apply Z.ltb_ge; lia).
  rewrite of_uint63_spec, Uint63.of_Z_spec.
  rewrite Z.mod_small
    by (split; [lia|]; eapply Z.lt_trans; [apply Hn|]; reflexivity).
  destruct n as [|p|p]; try lia. cbn [binary_normalize].
  rewrite binary_round_value by lia. change (0 + 1074) with 1074.
  rewrite rnd_exact by lia. f_equal.
  assert (H : Z.pos p * 2 ^ 1074 < INF) by (apply below_INF; lia).
  revert H. generalize (Z.pos p * 2 ^ 1074). intros v H. lia.
Qed.

(** The quotient that [Math_round] takes from the mantissa and the
    exponent of a float below 2^53 is the quotient of its value; [c] stands
    for 1073. *)
Lemma round_quotient (m e c : Z) :
  0 <= m < 2 ^ c -> - (c + 1) <= e < 0 ->
  (2 * m + 2 ^ (- e)) / 2 ^ (- e + 1)
  = (m * 2 ^ (e + (c + 1)) + 2 ^ c) / 2 ^ (c + 1).
Proof.
  intros Hm He. remember (- e) as k eqn:Ek.
  assert (Hpk : 0 < 2 ^ k) by (apply Z.pow_pos_nonneg; lia).
  assert (Hpc : 0 < 2 ^ c) by (apply Z.pow_pos_nonneg; lia).
  rewrite !(Z.pow_add_r 2 _ 1), Z.pow_1_r by lia.
  destruct (Z.eq_dec k (c + 1)) as [Hk|Hk].
  - replace (e + (c + 1)) with 0 by lia. rewrite Z.pow_0_r, Z.mul_1_r.
    rewrite Hk, (Z.pow_add_r 2 c 1), Z.pow_1_r by lia.
    rewrite (Z.div_small (m + 2 ^ c)) by lia. apply Z.div_small. lia.
  - assert (Hp : 0 < 2 ^ (c - k)) by (apply Z.pow_pos_nonneg; lia).
    assert (A1 : 2 ^ (e + (c + 1)) = 2 * 2 ^ (c - k)).
    { replace (e + (c + 1)) with (1 + (c - k)) by lia.
      rewrite Z.pow_add_r by lia. reflexivity. }
    assert (A2 : 2 ^ c = 2 ^ k * 2 ^ (c - k)).
    { rewrite <- Z.pow_add_r by lia. f_equal. lia. }
    rewrite <- (Z.div_mul_cancel_r _ _ (2 ^ (c - k))) by lia.
    rewrite A1, A2. f_equal; ring.
Qed.

Lemma fv_Math_round (x : float) (a : Z) :
  fv x = Some a -> fv (Math_round x) = Some (to_integer a).
Proof.
  intros Ha. unfold Math_round. unfold fv in Ha.
  pose proof (Prim2SF_valid x) as Hv.
  destruct (Prim2SF x) as [s|[|]| |[|] m e] eqn:E; try discriminate;
    cbn [nnv] in Ha; apply some_inj in Ha; subst a.
  - unfold fv. rewrite E. reflexivity.
  - unfold fv. rewrite E. reflexivity.
  - destruct (valid_finite _ _ _ Hv) as (He & Hm & _).
    destruct (0 <=? e) eqn:E0.
    + apply Z.leb_le in E0. unfold fv. rewrite E. cbn [nnv]. f_equal.
      rewrite Z.pow_add_r, Z.mul_assoc by lia. now rewrite to_integer_multiple.
    + apply Z.leb_gt in E0. cbv zeta.
      assert (Hpk : 0 < 2 ^ (- e)) by (apply Z.pow_pos_nonneg; lia).
      assert (Hnb : 0 <= (2 * Z.pos m + 2 ^ (- e)) / 2 ^ (- e + 1) < 2 ^ 53).
      { rewrite Z.pow_add_r, Z.pow_1_r by lia.
        split; [apply Z.div_pos; lia|].
        apply Z.div_lt_upper_bound; [lia|].
        assert (2 <= 2 ^ (- e)).
        { change 2 with (2 ^ 1) at 1. apply Z.pow_le_mono_r; lia. }
        nia. }
      assert (Hn : (2 * Z.pos m + 2 ^ (- e)) / 2 ^ (- e + 1)
                   = (Z.pos m * 2 ^ (e + 1074) + 2 ^ 1073) / 2 ^ 1074).
      { apply (round_quotient (Z.pos m) e 1073); [split; [lia|]|lia].
        eapply Z.lt_le_trans; [apply Hm|]. apply Z.pow_le_mono_r; lia. }
      unfold to_integer. rewrite <- Hn. clear Hn.
      remember ((2 * Z.pos m + 2 ^ (- e)) / 2 ^ (- e + 1)) as n eqn:En.
      clear En.
      destruct (n =? 0) eqn:E0'.
      * apply Z.eqb_eq in E0'. rewrite E0'. reflexivity.
      * apply Z.eqb_neq in E0'. apply fv_Z2float. lia.
Qed.

End Binary64.

(** Order facts on floats that are not negative. *)
Module Order.
Import Binary64.

(** [x <= y] on floats. *)
Definition lef (x y : float) : Prop := (x <=? y)%float = true.

(** Neither negative nor NaN. *)
Definition nonneg (x : float) : Prop := (0 <=? x)%float = true.

Lemma nonneg_fv (x : float) : nonneg x <-> exists a, fv x = Some a.
Proof. apply fv_nonneg. Qed.

Lemma lef_refl (x : float) : nonneg x -> lef x x.
Proof.
  intros H. apply nonneg_fv in H. destruct H as [a Ha].
  apply (fv_leb x x a a Ha Ha). lia.
Qed.

Lemma lef_nonneg (x y : float) : nonneg x -> lef x y -> nonneg y.
Proof.
  intros H Hle. apply nonneg_fv in H. destruct H as [a Ha].
  apply nonneg_fv. exact (fv_leb_right x y a Ha Hle).
Qed.

Lemma lef_trans (x y z : float) : nonneg x -> lef x y -> lef y z -> lef x z.
Proof.
  intros H Hxy Hyz. pose proof (lef_nonneg x y H Hxy) as Hy.
  pose proof (lef_nonneg y z Hy Hyz) as Hz.
  apply nonneg_fv in H, Hy, Hz.
  destruct H as [a Ha], Hy as [b Hb], Hz as [c Hc].
  apply (fv_leb x z a c Ha Hc).
  apply (fv_leb x y a b Ha Hb) in Hxy. apply (fv_leb y z b c Hb Hc) in Hyz. lia.
Qed.

Lemma add_nonneg (x y : float) : nonneg x -> nonneg y -> nonneg (x + y).
Proof.
  intros Hx Hy. apply nonneg_fv in Hx, Hy. destruct Hx as [a Ha], Hy as [b Hb].
  apply nonneg_fv. eexists. exact (fv_add x y a b Ha Hb).
Qed.

(** Adding an amount that is not negative does not lower a total. *)
Lemma add_increases (t a : float) : nonneg t -> nonneg a -> lef t (t + a).
Proof.
  intros Ht Ha. apply nonneg_fv in Ht, Ha.
  destruct Ht as [vt Ht], Ha as [va Ha].
  apply (fv_leb t (t + a) vt _ Ht (fv_add t a vt va Ht Ha)).
  destruct (fv_fixed t vt Ht) as [Bt Ft]. destruct (fv_fixed a va Ha) as [Ba _].
  pose proof (rnd_mono vt (vt + va) ltac:(lia) ltac:(lia)). lia.
Qed.

(** Addition is monotone in both arguments. *)
Lemma add_mono (x x' y y' : float) :
  nonneg x -> lef x x' -> nonneg y -> lef y y' -> lef (x + y) (x' + y').
Proof.
  intros Hx Hxx Hy Hyy.
  pose proof (lef_nonneg _ _ Hx Hxx) as Hx'. pose proof (lef_nonneg _ _ Hy Hyy) as Hy'.
  apply nonneg_fv in Hx, Hy, Hx', Hy'.
  destruct Hx as [a Ha], Hy as [b Hb], Hx' as [a' Ha'], Hy' as [b' Hb'].
  apply (fv_leb _ _ _ _ (fv_add x y a b Ha Hb) (fv_add x' y' a' b' Ha' Hb')).
  apply (fv_leb x x' a a' Ha Ha') in Hxx. apply (fv_leb y y' b b' Hb Hb') in Hyy.
  destruct (fv_fixed x a Ha) as [Ba _]. destruct (fv_fixed y b Hb) as [Bb _].
  pose proof (rnd_mono (a + b) (a' + b') ltac:(lia) ltac:(lia)). lia.
Qed.

Lemma round_nonneg (x : float) : nonneg x -> nonneg (Math_round x).
Proof.
  intros Hx. apply nonneg_fv in Hx. destruct Hx as [a Ha].
  apply nonneg_fv. eexists. exact (fv_Math_round x a Ha).
Qed.

(** [Math.round] is monotone. *)
Lemma round_mono (x y : float) :
  nonneg x -> lef x y -> lef (Math_round x) (Math_round y).
Proof.
  intros Hx Hxy. pose proof (lef_nonneg _ _ Hx Hxy) as Hy.
  apply nonneg_fv in Hx, Hy. destruct Hx as [a Ha], Hy as [b Hb].
  apply (fv_leb _ _ _ _ (fv_Math_round x a Ha) (fv_Math_round y b Hb)).
  apply to_integer_mono. now apply (fv_leb x y a b Ha Hb).
Qed.

(** A positive float is not negative. *)
Lemma pos_nonneg (x : float) : (0 <? x)%float = true -> nonneg x.
Proof.
  unfold nonneg. rewrite ltb_spec, leb_spec.
  change (Prim2SF 0) with (S754_zero false).
  now destruct (Prim2SF x) as [s|[|]| |[|] m e].
Qed.

(** The sum of a list from [acc], as the loops compute it, is monotone. *)
Lemma sum_from_mono (xs ys : list float) (acc acc' : float) :
  Forall2 (fun x y => nonneg x /\ lef x y) xs ys ->
  nonneg acc -> lef acc acc' ->
  nonneg (fold_left add xs acc) /\
  lef (fold_left add xs acc) (fold_left add ys acc').
Proof.
  intros H. revert acc acc'.
  induction H as [|x y xs ys [Hx Hxy] _ IH]; intros acc acc' Hacc Hle.
  - now split.
  - cbn [fold_left]. apply IH.
    + now apply add_nonneg.
    + now apply add_mono.
Qed.

End Order.

(* ================================================================== *)
(** * The invested amount along the data points *)
(* ================================================================== *)

Section InvestedClaims.

Context {host : Host}.

Import Order.

Local Open Scope float_scope.

(** The invested total of a working table: the sum of the running totals
    of its holdings, from 0 and in the order of the table. *)
Definition invested_total (portfolio : list Holding.t) : float :=
  sum (map Holding.totalInvested portfolio).

(** A holding whose amount and running total are not negative. *)
Definition sound_holding (h : Holding.t) : Prop :=
  nonneg (Investment.amount (Holding.inv h)) /\ nonneg (Holding.totalInvested h).

Lemma month_totals_invested (monthEndDate : Date) (portfolio : list Holding.t) :
  Totals.invested (month_totals monthEndDate portfolio) = invested_total portfolio.
Proof.
  unfold month_totals.
  exact (proj1 (fold_add_holding monthEndDate portfolio (Totals.mk 0 0 0 0 0))).
Qed.

Lemma contribute_grows (benchmarkHistory : option (list NAVData.t)) (now : Date)
    (year month : jsint) (h : Holding.t) (bu : float) :
  sound_holding h ->
  let h' := fst (contribute benchmarkHistory now year month h bu) in
  sound_holding h' /\
  nonneg (Holding.totalInvested h) /\
  lef (Holding.totalInvested h) (Holding.totalInvested h').
Proof.
  intros [Ha Ht]. unfold contribute.
  destruct (payment_due now year month h); cbn [fst].
  - unfold sound_holding. cbn [Holding.inv Holding.totalInvested].
    repeat split; try assumption.
    + now apply add_nonneg.
    + now apply add_increases.
  - repeat split; try assumption. now apply lef_refl.
Qed.

Lemma contribute_all_grows (benchmarkHistory : option (list NAVData.t))
    (now : Date) (year month : jsint) (portfolio : list Holding.t) (bu : float) :
  Forall sound_holding portfolio ->
  let portfolio' :=
    fst (contribute_all benchmarkHistory now year month portfolio bu) in
  Forall sound_holding portfolio' /\
  Forall2 (fun x y => nonneg x /\ lef x y)
    (map Holding.totalInvested portfolio) (map Holding.totalInvested portfolio').
Proof.
  intros H. revert bu. induction H as [|h rest Hh _ IH]; intros bu.
  - split; constructor.
  - cbn [contribute_all].
    pose proof (contribute_grows benchmarkHistory now year month h bu Hh) as G.
    destruct (contribute benchmarkHistory now year month h bu) as [h' bu'].
    specialize (IH bu').
    destruct (contribute_all benchmarkHistory now year month rest bu') as [rest' bu''].
    cbn [fst] in *. destruct G as (G1 & G2 & G3). destruct IH as [I1 I2].
    split; constructor; auto.
Qed.

Lemma invested_total_grows (portfolio portfolio' : list Holding.t) :
  Forall2 (fun x y => nonneg x /\ lef x y)
    (map Holding.totalInvested portfolio) (map Holding.totalInvested portfolio') ->
  nonneg (invested_total portfolio) /\
  lef (invested_total portfolio) (invested_total portfolio').
Proof.
  intros H. unfold invested_total, sum.
  apply (sum_from_mono _ _ 0 0 H); [reflexivity|reflexivity].
Qed.

Lemma sorted_snoc (l : list float) (x : float) :
  StronglySorted lef l -> Forall (fun y => lef y x) l ->
  StronglySorted lef (l ++ [x]).
Proof.
  induction 1 as [|y l Hs IH Hy]; intros Hall; cbn [app].
  - repeat constructor.
  - inversion Hall as [|? ? Hyx Hlx]; subst. constructor; [now apply IH|].
    apply Forall_app. split; [assumption|now constructor].
Qed.

(** The loop keeps the invested amounts of the data points in order. *)
Lemma backtest_loop_sorted (fuel : nat) (benchmarkHistory : option (list NAVData.t))
    (now cursorDate : Date) (portfolio : list Holding.t) (bu : float)
    (dataPoints : list ChartDataPoint.t) :
  Forall sound_holding portfolio ->
  StronglySorted lef (map ChartDataPoint.investedAmount dataPoints) ->
  Forall (fun p => nonneg (ChartDataPoint.investedAmount p) /\
                   lef (ChartDataPoint.investedAmount p)
                     (Math_round (invested_total portfolio))) dataPoints ->
  StronglySorted lef
    (map ChartDataPoint.investedAmount
       (backtest_loop fuel benchmarkHistory now cursorDate portfolio bu dataPoints)).
Proof.
  revert cursorDate portfolio bu dataPoints.
  induction fuel as [|fuel IH]; intros cursorDate portfolio bu dataPoints Hpf Hs Hb;
    cbn [backtest_loop]; [assumption|].
  destruct (date_leb cursorDate now); [|assumption].
  pose proof (contribute_all_grows benchmarkHistory now (getFullYear cursorDate)
                (getMonth cursorDate) portfolio bu Hpf) as G.
  destruct (contribute_all benchmarkHistory now (getFullYear cursorDate)
              (getMonth cursorDate) portfolio bu) as [portfolio' bu'].
  cbn [fst] in G. destruct G as [Hpf' Hgrow].
  destruct (invested_total_grows _ _ Hgrow) as [Hnn Hle].
  pose proof (lef_nonneg _ _ Hnn Hle) as Hnn'.
  pose proof (round_mono _ _ Hnn Hle) as Hround.
  assert (Hb' : Forall (fun p => nonneg (ChartDataPoint.investedAmount p) /\
                                 lef (ChartDataPoint.investedAmount p)
                                   (Math_round (invested_total portfolio')))
                  dataPoints).
  { eapply Forall_impl; [|exact Hb]. intros p [Hp Hpl]. split; [assumption|].
    now apply (lef_trans _ (Math_round (invested_total portfolio))). }
  rewrite month_totals_invested.
  apply IH; [assumption| |].
  - destruct (0 <? invested_total portfolio'); [|assumption].
    rewrite map_app. cbn [map snapshot ChartDataPoint.investedAmount].
    rewrite month_totals_invested. apply sorted_snoc; [assumption|].
    apply Forall_forall. intros y Hy. apply in_map_iff in Hy.
    destruct Hy as (p & <- & Hp). rewrite Forall_forall in Hb'.
    now apply Hb'.
  - destruct (0 <? invested_total portfolio'); [|assumption].
    apply Forall_app. split; [assumption|]. constructor; [|constructor].
    cbn [snapshot ChartDataPoint.investedAmount]. rewrite month_totals_invested.
    split; [now apply round_nonneg|apply lef_refl; now apply round_nonneg].
Qed.

(** C10 (as amended): every data point of [generateBacktestData] carries
    as [investedAmount] the rounding of the invested total of a working
    table of the active investments, a total that is strictly positive;
    hence [investedAmount] is not negative, and it is at least 1 when the
    total is at least 0.5.  When no active investment has a negative
    amount, [investedAmount] never decreases along the data points. *)
Theorem invested_amount_grows (clock : Z) (investments : list Investment.t)
    (benchmarkHistory : option (list NAVData.t)) :
  let points := generateBacktestData clock investments benchmarkHistory in
  (forall p, In p points ->
     exists portfolio,
       map Holding.inv portfolio = filter is_active investments /\
       (0 <? invested_total portfolio) = true /\
       ChartDataPoint.investedAmount p = Math_round (invested_total portfolio) /\
       (0 <=? ChartDataPoint.investedAmount p) = true /\
       ((0.5 <=? invested_total portfolio) = true ->
        (1 <=? ChartDataPoint.investedAmount p) = true)) /\
  (Forall (fun i => (0 <=? Investment.amount i) = true)
     (filter is_active investments) ->
   StronglySorted (fun x y => (x <=? y) = true)
     (map ChartDataPoint.investedAmount points)).
Proof.
  intros points. subst points. split.
  - intros p Hin. apply generateBacktestData_emits in Hin.
    destruct Hin as (monthEndDate & portfolio & Hinv & Hpos & tb & ->).
    rewrite month_totals_invested in Hpos.
    exists portfolio. split; [assumption|]. split; [assumption|].
    cbn [snapshot ChartDataPoint.investedAmount]. rewrite month_totals_invested.
    split; [reflexivity|]. split.
    + apply round_nonneg. now apply pos_nonneg.
    + intros Hhalf.
      change 1 with (Math_round 0.5). apply round_mono; [reflexivity|exact Hhalf].
  - intros Hamounts. unfold generateBacktestData.
    destruct (filter is_active investments) as [|i rest] eqn:E; [constructor|].
    apply backtest_loop_sorted; [|constructor|constructor].
    apply Forall_forall. intros h Hh. apply in_map_iff in Hh.
    destruct Hh as (i' & <- & Hi'). rewrite Forall_forall in Hamounts.
    split; [now apply Hamounts|reflexivity].
Qed.

End InvestedClaims.

(** C10, an instance: on 20 March 2024, a monthly plan and a lump sum of
    5000 each from 15 January 2024 give the invested amounts 10000, 15000
    and 20000. *)
Lemma invested_amount_grows_witness :
  map ChartDataPoint.investedAmount
    (generateBacktestData (host := RefHost) (Series.at_1030 2024 3 20)
       [Plans.sip Series.newest_first_stored;
        Plans.lumpsum Series.newest_first_stored] None)
  = [10000; 15000; 20000]%float /\
  StronglySorted (fun x y => (x <=? y)%float = true)
    (map ChartDataPoint.investedAmount
       (generateBacktestData (host := RefHost) (Series.at_1030 2024 3 20)
          [Plans.sip Series.newest_first_stored;
           Plans.lumpsum Series.newest_first_stored] None)).
Proof.
  split; [vm_compute; reflexivity|].
  apply (proj2 (invested_amount_grows (host := RefHost)
                  (Series.at_1030 2024 3 20)
                  [Plans.sip Series.newest_first_stored;
                   Plans.lumpsum Series.newest_first_stored] None)).
  repeat constructor.
Defined.

(** C10 as stated fails: on 20 March 2024, lump sums of 0.3 in January, of
    1000 in February and of -400 in March 2024 give three data points
    whose invested amounts are 0, 1000 and 600: the first is not strictly
    positive, and the third is below the second. *)
Lemma invested_amount_rounds_and_drops :
  map ChartDataPoint.investedAmount
    (generateBacktestData (host := RefHost) (Series.at_1030 2024 3 20)
       Odd.investments None)
  = [0; 1000; 600]%float /\
  (0 <? 0)%float = false /\ (1000 <=? 600)%float = false.
Proof. repeat split; vm_compute; reflexivity. Qed.

(* ================================================================== *)
(** * The monthly loops end

    Both monthly loops run [while (cursorDate <= now)] and move the cursor
    by one calendar month per turn.  This part shows that a month is 28
    days or more on the calendar of the engine, hence that the number of
    turns given to the loops in [simulateInvestment] and in
    [generateBacktestData] is enough for them to reach their end. *)
(* ================================================================== *)

Module Calendar.

(** The year of the era, computed from the day of the era, and the day of
    that year. *)
Lemma yoe_range (doe : Z) :
  0 <= doe < 146097 ->
  let yoe := (doe - doe / 1460 + doe / 36524 - doe / 146096) / 365 in
  0 <= yoe <= 399 /\
  0 <= doe - (365 * yoe + yoe / 4 - yoe / 100) <= 365.
Proof.
  intros H. cbv zeta. Z.to_euclidean_division_equations. lia.
Qed.

(** The calendar date of a day number has a month from 1 to 12 and a day
    from 1 to 31, and its day number is the one it came from. *)
Lemma civil_roundtrip (z : Z) :
  let '(y, m, d) := civil_from_days z in
  1 <= m <= 12 /\ 1 <= d <= 31 /\ days_from_civil y m d = z.
Proof.
  unfold civil_from_days.
  set (z' := z + 719468).
  set (era := z' / 146097).
  set (doe := z' - era * 146097).
  assert (Hdoe : 0 <= doe < 146097).
  { unfold doe, era. pose proof (Z.div_mod z' 146097 ltac:(lia)).
    pose proof (Z.mod_pos_bound z' 146097 ltac:(lia)). lia. }
  pose proof (yoe_range doe Hdoe) as Hy. cbv zeta in Hy.
  set (yoe := (doe - doe / 1460 + doe / 36524 - doe / 146096) / 365) in *.
  set (doy := doe - (365 * yoe + yoe / 4 - yoe / 100)) in *.
  destruct Hy as [Hyoe Hdoy].
  set (mp := (5 * doy + 2) / 153).
  assert (Hmp : 0 <= mp <= 11).
  { unfold mp. Z.to_euclidean_division_equations. lia. }
  set (d := doy - (153 * mp + 2) / 5 + 1).
  assert (Hd : 1 <= d <= 31).
  { unfold d, mp. clearbody doy. clear - Hdoy. Z.to_euclidean_division_equations. lia. }
  assert (Hmpm : forall m, m = (if mp <? 10 then mp + 3 else mp - 9) -> 1 <= m <= 12 /\ (m + 9) mod 12 = mp /\ ((m <=? 2) = negb (mp <? 10))).
  { intros m ->. destruct (Z.ltb_spec mp 10); cbn [negb].
    - split; [lia|]. split; [|apply Z.leb_gt; lia].
      replace (mp + 3 + 9) with (mp + 1 * 12) by lia.
      rewrite Z.mod_add by lia. apply Z.mod_small. lia.
    - split; [lia|]. split; [|apply Z.leb_le; lia].
      replace (mp - 9 + 9) with mp by lia. apply Z.mod_small. lia. }
  destruct (Hmpm _ eq_refl) as (Hm & Hmp' & Hle).
  split; [exact Hm|]. split; [exact Hd|].
  unfold days_from_civil. rewrite Hmp'. rewrite Hle.
  assert (Hy' : (if negb (mp <? 10) then (if negb (mp <? 10) then yoe + era * 400 + 1 else yoe + era * 400) - 1 else (if negb (mp <? 10) then yoe + era * 400 + 1 else yoe + era * 400)) = yoe + era * 400).
  { destruct (mp <? 10); cbn; lia. }
  rewrite Hy'.
  assert (Hera : (yoe + era * 400) / 400 = era).
  { clearbody yoe era. clear - Hyoe. Z.to_euclidean_division_equations. lia. }
  rewrite Hera.
  replace (yoe + era * 400 - era * 400) with yoe by lia.
  unfold d, doy, doe, z'. lia.
Qed.

Lemma days_from_civil_day (y m d : Z) :
  days_from_civil y m d = days_from_civil y m 1 + d - 1.
Proof. unfold days_from_civil. lia. Qed.

Lemma month_cases (m : Z) (P : Z -> Prop) :
  1 <= m <= 12 ->
  P 1 -> P 2 -> P 3 -> P 4 -> P 5 -> P 6 -> P 7 -> P 8 -> P 9 -> P 10 -> P 11 -> P 12 ->
  P m.
Proof.
  intros H. assert (m = 1 \/ m = 2 \/ m = 3 \/ m = 4 \/ m = 5 \/ m = 6 \/ m = 7 \/ m = 8 \/ m = 9 \/ m = 10 \/ m = 11 \/ m = 12) as C by lia.
  intuition (subst; assumption).
Qed.

Ltac split_ifs :=
  repeat match goal with
         | |- context [if ?c <=? ?d then _ else _] => destruct (Z.leb_spec c d)
         | |- context [if ?c <? ?d then _ else _] => destruct (Z.ltb_spec c d)
         end.

(** From the first of a month to the first of the next month there are 28
    to 31 days. *)
Lemma month_length (y m : Z) :
  1 <= m <= 12 ->
  28 <= days_from_civil (y + m / 12) (m mod 12 + 1) 1 - days_from_civil y m 1 <= 31.
Proof.
  intros Hm. pattern m. apply month_cases; [exact Hm|..];
    unfold days_from_civil; split_ifs;
    Z.to_euclidean_division_equations; lia.
Qed.

Lemma era_of_days (y' doy : Z) :
  0 <= doy <= 364 ->
  let era := y' / 400 in
  let yoe := y' - era * 400 in
  let doe := yoe * 365 + yoe / 4 - yoe / 100 + doy in
  0 <= doe < 146097 /\
  (doe - doe / 1460 + doe / 36524 - doe / 146096) / 365 = yoe.
Proof.
  intros Hdoy era yoe doe.
  assert (Hyoe : 0 <= yoe <= 399).
  { unfold yoe, era. Z.to_euclidean_division_equations. lia. }
  clearbody yoe. clear era. subst doe.
  Z.to_euclidean_division_equations. lia.
Qed.

(** The day number of the first of a month is read back as that date. *)
Lemma first_of_month_roundtrip (y m : Z) :
  1 <= m <= 12 -> civil_from_days (days_from_civil y m 1) = (y, m, 1).
Proof.
  intros Hm. unfold days_from_civil.
  set (y' := if m <=? 2 then y - 1 else y).
  set (mp := (m + 9) mod 12).
  assert (Hmp : 0 <= mp <= 11) by (unfold mp; Z.to_euclidean_division_equations; lia).
  assert (Hdoy : 0 <= (153 * mp + 2) / 5 + 1 - 1 <= 337)
    by (clearbody mp; Z.to_euclidean_division_equations; lia).
  set (doy := (153 * mp + 2) / 5 + 1 - 1) in *.
  pose proof (era_of_days y' doy ltac:(lia)) as E. cbv zeta in E.
  set (era := y' / 400) in *. set (yoe := y' - era * 400) in *.
  set (doe := yoe * 365 + yoe / 4 - yoe / 100 + doy) in *.
  destruct E as [Hdoe Hyoe].
  unfold civil_from_days.
  replace (era * 146097 + doe - 719468 + 719468) with (doe + era * 146097) by lia.
  rewrite Z.div_add by lia. rewrite (Z.div_small doe) by lia. rewrite Z.add_0_l.
  replace (doe + era * 146097 - era * 146097) with doe by lia.
  rewrite Hyoe.
  replace (doe - (365 * yoe + yoe / 4 - yoe / 100)) with doy by (unfold doe; lia).
  assert (Hmp' : (5 * doy + 2) / 153 = mp).
  { unfold doy. clearbody mp. clear - Hmp. Z.to_euclidean_division_equations. lia. }
  rewrite Hmp'.
  assert (Hd : doy - (153 * mp + 2) / 5 + 1 = 1) by (unfold doy; lia).
  rewrite Hd.
  assert (Hm' : (if mp <? 10 then mp + 3 else mp - 9) = m).
  { unfold mp. destruct (Z.ltb_spec ((m + 9) mod 12) 10);
      Z.to_euclidean_division_equations; lia. }
  rewrite Hm'. f_equal. f_equal.
  unfold yoe, y'. destruct (m <=? 2); lia.
Qed.

End Calendar.

Module Months.
Import Calendar.

Lemma time_split (c : Z) :
  c = Day c * msPerDay + TimeWithinDay c /\ 0 <= TimeWithinDay c < msPerDay.
Proof.
  unfold Day, TimeWithinDay, msPerDay.
  pose proof (Z.div_mod c 86400000 ltac:(lia)).
  pose proof (Z.mod_pos_bound c 86400000 ltac:(lia)). lia.
Qed.

Lemma Day_of (day t : Z) : 0 <= t < msPerDay -> Day (day * msPerDay + t) = day.
Proof.
  intros Ht. unfold Day, msPerDay in *. symmetry.
  apply (Z.div_unique_pos _ _ day t); lia.
Qed.

Lemma TimeWithinDay_of (day t : Z) :
  0 <= t < msPerDay -> TimeWithinDay (day * msPerDay + t) = t.
Proof.
  intros Ht. unfold TimeWithinDay, msPerDay in *. symmetry.
  apply (Z.mod_unique_pos _ _ day t); lia.
Qed.

(** The year, month and day of a time are those of a calendar date. *)
Lemma fields_of_time (c : Z) :
  0 <= MonthFromTime c <= 11 /\ 1 <= DateFromTime c <= 31 /\
  Day c = days_from_civil (YearFromTime c) (MonthFromTime c + 1) 1
          + DateFromTime c - 1.
Proof.
  unfold YearFromTime, MonthFromTime, DateFromTime.
  pose proof (civil_roundtrip (Day c)) as R.
  destruct (civil_from_days (Day c)) as [[y m] d]. cbn [fst snd].
  destruct R as (Hm & Hd & E). rewrite days_from_civil_day in E.
  replace (m - 1 + 1) with m by lia. lia.
Qed.

(** The time that [setMonth(getMonth() + 1)] gives: the same day of the
    month and time of the day, one month later. *)
Abbreviation a_month_later c :=
  (MakeDay (YearFromTime c) (1 + MonthFromTime c) (DateFromTime c) * msPerDay
   + TimeWithinDay c) (only parsing).

Lemma a_month_later_bounds (c : Z) :
  c + 28 * msPerDay <= a_month_later c <= c + 31 * msPerDay.
Proof.
  unfold MakeDay.
  destruct (fields_of_time c) as (Hm & Hd & E).
  destruct (time_split c) as [Ec Ht].
  pose proof (month_length (YearFromTime c) (MonthFromTime c + 1) ltac:(lia)) as L.
  replace (1 + MonthFromTime c) with (MonthFromTime c + 1) by lia.
  unfold msPerDay in *. lia.
Qed.

(** A time on the first day of a month. *)
Definition on_the_first (c : Z) : Prop := DateFromTime c = 1.

Lemma first_day_fields (y m t : Z) :
  1 <= m <= 12 -> 0 <= t < msPerDay ->
  let c := days_from_civil y m 1 * msPerDay + t in
  YearFromTime c = y /\ MonthFromTime c = m - 1 /\ DateFromTime c = 1.
Proof.
  intros Hm Ht c. unfold YearFromTime, MonthFromTime, DateFromTime.
  unfold c. rewrite Day_of by assumption.
  rewrite first_of_month_roundtrip by assumption. cbn [fst snd]. repeat split.
Qed.

Lemma month_normal (m : Z) : 0 <= m mod 12 + 1 - 1 <= 11 /\ 1 <= m mod 12 + 1 <= 12.
Proof. pose proof (Z.mod_pos_bound m 12 ltac:(lia)). lia. Qed.

(** [setDate(1)] on a time. *)
Abbreviation to_the_first c :=
  (MakeDay (YearFromTime c) (MonthFromTime c) 1 * msPerDay + TimeWithinDay c)
  (only parsing).

Lemma to_the_first_on_the_first (c : Z) : on_the_first (to_the_first c).
Proof.
  unfold on_the_first, MakeDay.
  destruct (time_split c) as [_ Ht].
  replace (days_from_civil _ _ 1 + 1 - 1) with
    (days_from_civil (YearFromTime c + MonthFromTime c / 12)
       (MonthFromTime c mod 12 + 1) 1) by lia.
  apply first_day_fields; [apply month_normal|assumption].
Qed.

Lemma to_the_first_fixed (c : Z) : on_the_first c -> to_the_first c = c.
Proof.
  unfold on_the_first, MakeDay. intros H1.
  destruct (fields_of_time c) as (Hm & _ & E). rewrite H1 in E.
  destruct (time_split c) as [Ec _].
  rewrite (Z.div_small (MonthFromTime c) 12), (Z.mod_small (MonthFromTime c) 12) by lia.
  rewrite Z.add_0_r. unfold msPerDay in *. lia.
Qed.

Lemma a_month_later_on_the_first (c : Z) :
  on_the_first c -> on_the_first (a_month_later c).
Proof.
  unfold on_the_first, MakeDay. intros H1. rewrite H1.
  destruct (time_split c) as [_ Ht].
  replace (days_from_civil _ _ 1 + 1 - 1) with
    (days_from_civil (YearFromTime c + (1 + MonthFromTime c) / 12)
       ((1 + MonthFromTime c) mod 12 + 1) 1) by lia.
  apply first_day_fields; [apply month_normal|assumption].
Qed.

End Months.

Section LoopsEnd.

Context {host : Host}.

Import Months.

(** The turns that a monthly loop still takes, at most. *)
Definition turns_left (cursorDate now : Date) : nat :=
  if date_leb cursorDate now then months_fuel cursorDate now else 0%nat.

Lemma turns_left_fuel (cursorDate now : Date) :
  (turns_left cursorDate now <= months_fuel cursorDate now)%nat.
Proof. unfold turns_left. destruct (date_leb cursorDate now); lia. Qed.

Lemma turns_left_0 (cursorDate now : Date) :
  (turns_left cursorDate now <= 0)%nat -> date_leb cursorDate now = false.
Proof.
  unfold turns_left, months_fuel. destruct (date_leb cursorDate now); [|reflexivity].
  destruct (getTime cursorDate), (getTime now); lia.
Qed.

(** A cursor moved by 28 days or more leaves fewer turns. *)
Lemma turns_left_step (c : Z) (cursor' now : Date) (fuel : nat) :
  date_leb (mkDate (Some c)) now = true ->
  (turns_left (mkDate (Some c)) now <= S fuel)%nat ->
  (forall c', getTime cursor' = Some c' -> c + 28 * msPerDay <= c') ->
  (turns_left cursor' now <= fuel)%nat.
Proof.
  unfold turns_left. intros Hle. rewrite Hle. intros Hfuel Hstep.
  destruct (date_leb cursor' now) eqn:Hle'; [|lia].
  unfold date_leb, int_leb, months_fuel in *. cbn [getTime] in *.
  destruct (getTime now) as [n|]; [|discriminate].
  destruct (getTime cursor') as [c'|]; [|discriminate].
  specialize (Hstep c' eq_refl).
  apply Z.leb_le in Hle, Hle'. unfold msPerDay in *.
  assert ((n - c') / (28 * 86400000) + 1 <= (n - c) / (28 * 86400000)).
  { Z.to_euclidean_division_equations. lia. }
  assert (0 <= (n - c') / (28 * 86400000)) by (apply Z.div_pos; lia).
  lia.
Qed.

Lemma setMonth_next (c : Z) :
  setMonth (mkDate (Some c)) (int_succ (getMonth (mkDate (Some c))))
  = TimeClip (a_month_later c).
Proof.
  unfold setMonth, getMonth, int_succ. cbn [getTime option_map]. reflexivity.
Qed.

Lemma TimeClip_time (t c' : Z) : getTime (TimeClip t) = Some c' -> c' = t.
Proof. unfold TimeClip. destruct (_ <? _); cbn; congruence. Qed.

(** With fuel for the turns that are left, more fuel changes nothing. *)
Lemma sip_loop_more_fuel (fuel extra : nat) (navHistory : list NAVData.t)
    (amt : float) (startDate : Date) (endDate : option Date)
    (now cursorDate : Date) (acc : Tally) :
  (turns_left cursorDate now <= fuel)%nat ->
  sip_loop (fuel + extra) navHistory amt startDate endDate now cursorDate acc
  = sip_loop fuel navHistory amt startDate endDate now cursorDate acc.
Proof.
  revert cursorDate acc. induction fuel as [|fuel IH]; intros cursorDate acc Hfuel.
  - apply turns_left_0 in Hfuel. destruct extra; cbn [Nat.add sip_loop];
      [reflexivity|now rewrite Hfuel].
  - cbn [Nat.add sip_loop]. destruct (date_leb cursorDate now) eqn:Hle;
      [|reflexivity].
    apply IH. destruct cursorDate as [[c|]]; [|discriminate].
    apply (turns_left_step c _ now fuel Hle Hfuel).
    intros c' Hc'. rewrite setMonth_next in Hc'. apply TimeClip_time in Hc'.
    subst c'. exact (proj1 (a_month_later_bounds c)).
Qed.

(** X1: the monthly loop of [simulateInvestment] ends within the turns it is
    given: from any cursor, [1 + (now - cursor) / 28 days] turns reach the
    end of the loop, and further turns change nothing. *)
Theorem sip_loop_fuel_enough (extra : nat) (navHistory : list NAVData.t)
    (amt : float) (startDate : Date) (endDate : option Date)
    (now cursorDate : Date) (acc : Tally) :
  sip_loop (months_fuel cursorDate now + extra) navHistory amt startDate endDate
    now cursorDate acc
  = sip_loop (months_fuel cursorDate now) navHistory amt startDate endDate
      now cursorDate acc.
Proof. apply sip_loop_more_fuel, turns_left_fuel. Qed.

(** A date that is invalid or on the first day of a month. *)
Definition first_of_month (d : Date) : Prop :=
  match getTime d with Some c => on_the_first c | None => True end.

Lemma TimeClip_first (t : Z) : on_the_first t -> first_of_month (TimeClip t).
Proof. unfold TimeClip, first_of_month. now destruct (_ <? _). Qed.

Lemma setDate_first (d : Date) : first_of_month (setDate d 1).
Proof.
  unfold setDate. destruct (getTime d) as [c|]; [|exact I].
  apply TimeClip_first, to_the_first_on_the_first.
Qed.

Lemma setHours0_first (d : Date) : first_of_month d -> first_of_month (setHours0 d).
Proof.
  unfold first_of_month, setHours0. destruct (getTime d) as [c|]; [|trivial].
  intros H. apply TimeClip_first. unfold on_the_first, DateFromTime in *.
  rewrite <- (Z.add_0_r (Day c * msPerDay)).
  rewrite Day_of by (unfold msPerDay; lia). exact H.
Qed.

Lemma setDate_time (d : Date) (c' : Z) :
  getTime (setDate d 1) = Some c' ->
  exists c, getTime d = Some c /\ c' = to_the_first c.
Proof.
  unfold setDate. destruct (getTime d) as [c|]; [|discriminate].
  intros H. apply TimeClip_time in H. now exists c.
Qed.

(** From the first of a month, the cursor moves to the first of the next
    month, 28 days later or more. *)
Lemma next_month_first (c : Z) :
  on_the_first c ->
  first_of_month (next_month (mkDate (Some c))) /\
  forall c', getTime (next_month (mkDate (Some c))) = Some c' ->
             c + 28 * msPerDay <= c'.
Proof.
  intros H1. unfold next_month. rewrite setMonth_next.
  split; [apply setDate_first|].
  intros c' Hc'. apply setDate_time in Hc'. destruct Hc' as (c0 & H0 & ->).
  apply TimeClip_time in H0. subst c0.
  rewrite to_the_first_fixed by now apply a_month_later_on_the_first.
  exact (proj1 (a_month_later_bounds c)).
Qed.

Lemma backtest_loop_more_fuel (fuel extra : nat)
    (benchmarkHistory : option (list NAVData.t)) (now cursorDate : Date)
    (portfolio : list Holding.t) (bu : float) (dataPoints : list ChartDataPoint.t) :
  first_of_month cursorDate ->
  (turns_left cursorDate now <= fuel)%nat ->
  backtest_loop (fuel + extra) benchmarkHistory now cursorDate portfolio bu dataPoints
  = backtest_loop fuel benchmarkHistory now cursorDate portfolio bu dataPoints.
Proof.
  revert cursorDate portfolio bu dataPoints.
  induction fuel as [|fuel IH]; intros cursorDate portfolio bu dataPoints H1 Hfuel.
  - apply turns_left_0 in Hfuel. destruct extra; cbn [Nat.add backtest_loop];
      [reflexivity|now rewrite Hfuel].
  - cbn [Nat.add backtest_loop]. destruct (date_leb cursorDate now) eqn:Hle;
      [|reflexivity].
    destruct (contribute_all _ _ _ _ _ _) as [portfolio' bu'].
    destruct cursorDate as [[c|]]; [|discriminate].
    destruct (next_month_first c H1) as [H1' Hstep].
    apply IH; [exact H1'|].
    exact (turns_left_step c _ now fuel Hle Hfuel Hstep).
Qed.

(** X2: the monthly loop of [generateBacktestData] ends within the turns it is
    given: from the first of the month of the earliest start date, at
    midnight, [1 + (now - cursor) / 28 days] turns reach the end of the
    loop, and further turns change nothing. *)
Theorem backtest_loop_fuel_enough (extra : nat)
    (benchmarkHistory : option (list NAVData.t)) (now : Date) (startTime : jsint)
    (portfolio : list Holding.t) (bu : float) (dataPoints : list ChartDataPoint.t) :
  let minDate := setHours0 (setDate (Date_of_time startTime) 1) in
  backtest_loop (months_fuel minDate now + extra) benchmarkHistory now minDate
    portfolio bu dataPoints
  = backtest_loop (months_fuel minDate now) benchmarkHistory now minDate
      portfolio bu dataPoints.
Proof.
  intros minDate. apply backtest_loop_more_fuel; [|apply turns_left_fuel].
  apply setHours0_first, setDate_first.
Qed.

End LoopsEnd.

(* ================================================================== *)
(** * The lookup in whatever order the series is stored *)
(* ================================================================== *)

Section LookupFacts.

Context {host : Host}.

(** [s] is dated on or before the target, on or after it, before it; a
    sample or a target whose date is not a date is none of these. *)
Definition on_or_before (s : NAVData.t) (target : Date) : Prop :=
  exists ts tt, dated s ts /\ getTime target = Some tt /\ ts <= tt.

Definition on_or_after (s : NAVData.t) (target : Date) : Prop :=
  exists ts tt, dated s ts /\ getTime target = Some tt /\ tt <= ts.

Definition before (s : NAVData.t) (target : Date) : Prop :=
  exists ts tt, dated s ts /\ getTime target = Some tt /\ ts < tt.

Lemma int_leb_on_or_before (s : NAVData.t) (target : Date) :
  int_leb (sample_time s) (getTime target) = true <-> on_or_before s target.
Proof.
  unfold on_or_before, dated, int_leb.
  destruct (sample_time s) as [ts|], (getTime target) as [tt|]; split;
    try discriminate; try (intros (a & b & [=] & [=] & _); fail).
  - intros H. exists ts, tt. now rewrite <- Z.leb_le.
  - intros (a & b & [= <-] & [= <-] & H). now apply Z.leb_le.
Qed.

Lemma int_geb_on_or_after (s : NAVData.t) (target : Date) :
  int_geb (sample_time s) (getTime target) = true <-> on_or_after s target.
Proof.
  unfold on_or_after, dated, int_geb, int_leb.
  destruct (sample_time s) as [ts|], (getTime target) as [tt|]; split;
    try discriminate; try (intros (a & b & [=] & [=] & _); fail).
  - intros H. exists ts, tt. now rewrite <- Z.leb_le.
  - intros (a & b & [= <-] & [= <-] & H). now apply Z.leb_le.
Qed.

Lemma int_gtb_before (s : NAVData.t) (target : Date) :
  int_gtb (getTime target) (sample_time s) = true <-> before s target.
Proof.
  unfold before, dated, int_gtb, int_ltb.
  destruct (sample_time s) as [ts|], (getTime target) as [tt|]; split;
    try discriminate; try (intros (a & b & [=] & [=] & _); fail).
  - intros H. exists ts, tt. now rewrite <- Z.ltb_lt.
  - intros (a & b & [= <-] & [= <-] & H). now apply Z.ltb_lt.
Qed.

(** What [find] finds is the first element that passes the test. *)
Lemma find_first {A : Type} (p : A -> bool) (l : list A) :
  match find p l with
  | Some x => exists l1 l2, l = l1 ++ x :: l2 /\ p x = true /\
                            forall y, In y l1 -> p y = false
  | None => forall y, In y l -> p y = false
  end.
Proof.
  induction l as [|a l IH]; cbn [find]; [intros y []|].
  destruct (p a) eqn:Ha.
  - exists [], l. repeat split; [assumption|intros y []].
  - destruct (find p l) as [x|].
    + destruct IH as (l1 & l2 & -> & Hx & Hl1). exists (a :: l1), l2.
      repeat split; [assumption|]. intros y [<-|Hy]; [assumption|now apply Hl1].
    + intros y [<-|Hy]; [assumption|now apply IH].
Qed.

Lemma not_true_false (b : bool) (P : Prop) : (b = true <-> P) -> b = false -> ~ P.
Proof. intros H Hb HP. apply H in HP. congruence. Qed.

(** X3: the valuation lookup, in whatever order the series is stored: the value
    of the first sample in storage order that is dated on or before the
    target, and nothing exactly when no sample is.  It never returns a
    sample dated after the target. *)
Theorem getNAV_valuation_first_not_later (history : list NAVData.t)
    (target : Date) :
  match getNAV history target VALUATION with
  | Some v =>
      exists l1 s l2,
        history = l1 ++ s :: l2 /\ v = sample_value s /\
        on_or_before s target /\
        forall y, In y l1 -> ~ on_or_before y target
  | None => forall s, In s history -> ~ on_or_before s target
  end.
Proof.
  unfold getNAV. destruct history as [|h0 rest]; [intros s []|].
  pose proof (find_first (fun h => int_leb (sample_time h) (getTime target))
                (h0 :: rest)) as F.
  destruct (find _ (h0 :: rest)) as [s|].
  - destruct F as (l1 & l2 & E & Hs & Hl1). exists l1, s, l2.
    split; [exact E|]. split; [reflexivity|].
    split; [now apply int_leb_on_or_before|].
    intros y Hy. apply (not_true_false _ _ (int_leb_on_or_before y target)).
    now apply Hl1.
  - intros s Hs. apply (not_true_false _ _ (int_leb_on_or_before s target)).
    now apply F.
Qed.

(** X4: the purchase lookup, in whatever order the series is stored: the value
    of the last sample in storage order that is dated on or after the
    target; when no sample is, the value of the sample stored first if it
    is dated before the target; nothing otherwise. *)
Theorem getNAV_purchase_last_not_earlier (history : list NAVData.t)
    (target : Date) :
  match getNAV history target PURCHASE with
  | Some v =>
      (exists l1 s l2,
         history = l1 ++ s :: l2 /\ v = sample_value s /\
         on_or_after s target /\
         forall y, In y l2 -> ~ on_or_after y target) \/
      (exists s rest,
         history = s :: rest /\ v = sample_value s /\ before s target /\
         forall y, In y history -> ~ on_or_after y target)
  | None =>
      (forall y, In y history -> ~ on_or_after y target) /\
      (forall s rest, history = s :: rest -> ~ before s target)
  end.
Proof.
  unfold getNAV. destruct history as [|h0 rest].
  { split; [intros y []|intros s rest' [=]]. }
  pose proof (find_first (fun h => int_geb (sample_time h) (getTime target))
                (rev (h0 :: rest))) as F.
  destruct (find _ (rev (h0 :: rest))) as [s|].
  - left. destruct F as (r1 & r2 & E & Hs & Hr1).
    exists (rev r2), s, (rev r1). split.
    + rewrite <- (rev_involutive (h0 :: rest)), E, rev_app_distr. cbn [rev].
      now rewrite <- app_assoc.
    + split; [reflexivity|]. split; [now apply int_geb_on_or_after|].
      intros y Hy. apply (not_true_false _ _ (int_geb_on_or_after y target)).
      apply Hr1. now apply in_rev.
  - assert (Hnone : forall y, In y (h0 :: rest) -> ~ on_or_after y target).
    { intros y Hy. apply (not_true_false _ _ (int_geb_on_or_after y target)).
      apply F. now apply -> in_rev. }
    destruct (int_gtb (getTime target) (sample_time h0)) eqn:Hgt.
    + right. exists h0, rest. split; [reflexivity|]. split; [reflexivity|].
      split; [now apply int_gtb_before|exact Hnone].
    + split; [exact Hnone|]. intros s rest' [= <- <-].
      now apply (not_true_false _ _ (int_gtb_before h0 target)).
Qed.

(** X5: a target that is not a date finds nothing, in either mode. *)
Theorem getNAV_invalid_target (history : list NAVData.t) (target : Date)
    (mode : Mode) :
  getTime target = None -> getNAV history target mode = None.
Proof.
  intros Ht. unfold getNAV. destruct history as [|h0 rest]; [reflexivity|].
  rewrite Ht. destruct mode.
  - rewrite find_nothing.
    + unfold int_gtb, int_ltb. now destruct (sample_time h0).
    + intros y _. unfold int_geb, int_leb. now destruct (sample_time y).
  - rewrite find_nothing; [reflexivity|].
    intros y _. unfold int_leb. now destruct (sample_time y).
Qed.

(** X6: in a series stored newest first, a target that is the date of a sample
    finds the value of that sample in both modes. *)
Theorem getNAV_on_a_sample_date (history : list NAVData.t) (target : Date)
    (s : NAVData.t) (t : Z) :
  newest_first history = true -> In s history -> dated s t ->
  getTime target = Some t ->
  getNAV history target PURCHASE = Some (sample_value s) /\
  getNAV history target VALUATION = Some (sample_value s).
Proof.
  intros Hs Hin Hd Ht. split.
  - apply (getNAV_purchase_at history target s t t); try assumption; lia.
  - apply (getNAV_valuation_at history target s t t); try assumption; lia.
Qed.

End LookupFacts.

Lemma getNAV_invalid_target_witness :
  getNAV (host := RefHost) Series.oldest_first_stored InvalidDate PURCHASE = None /\
  getNAV (host := RefHost) Series.newest_first_stored
    (parseISODate (host := RefHost) "soon") VALUATION = None.
Proof.
  split.
  - apply (getNAV_invalid_target (host := RefHost)). reflexivity.
  - apply (getNAV_invalid_target (host := RefHost)). reflexivity.
Defined.

Lemma getNAV_on_a_sample_date_witness :
  getNAV (host := RefHost) Series.newest_first_stored (Series.day 2024 2 1)
    PURCHASE = Some 20%float /\
  getNAV (host := RefHost) Series.newest_first_stored (Series.day 2024 2 1)
    VALUATION = Some 20%float.
Proof.
  apply (getNAV_on_a_sample_date (host := RefHost) Series.newest_first_stored
           (Series.day 2024 2 1) Series.feb 1706745600000).
  - reflexivity.
  - simpl; auto.
  - apply series_dates.
  - reflexivity.
Defined.

(* ================================================================== *)
(** * The ledger of the simulator *)
(* ================================================================== *)

Section SimulatorFacts.

Context {host : Host}.

Local Open Scope float_scope.

(** The purchase value on a date when it is usable, NaN when it is not. *)
Definition purchase_value (history : list NAVData.t) (d : Date) : float :=
  match usable (getNAV history d PURCHASE) with
  | Some nav => nav
  | None => nan
  end.

(** The running totals agree with the cash flows: every flow is an outflow
    of [amt] on a date inside the [window] for which the purchase value is
    usable, the total is [amt] added once per flow and the units are the
    sum, in order, of what each flow bought. *)
Definition booked (history : list NAVData.t) (amt : float)
    (window : Date -> Prop) (acc : Tally) : Prop :=
  let '(units, totalInvested, cashFlows) := acc in
  Forall (fun f => CashFlow.amount f = - amt /\ window (CashFlow.date f) /\
                   exists nav,
                     usable (getNAV history (CashFlow.date f) PURCHASE) = Some nav)
    cashFlows /\
  totalInvested = fold_left (fun t _ => t + amt) cashFlows 0 /\
  units = fold_left (fun u f => u + amt / purchase_value history (CashFlow.date f))
            cashFlows 0.

Lemma booked_nothing (history : list NAVData.t) (amt : float)
    (window : Date -> Prop) :
  booked history amt window (0, 0, []).
Proof. repeat split. constructor. Qed.

Lemma buy_booked (history : list NAVData.t) (amt : float)
    (window : Date -> Prop) (paymentDate : Date) (acc : Tally) :
  window paymentDate -> booked history amt window acc ->
  booked history amt window (buy history amt paymentDate acc).
Proof.
  destruct acc as [[units total] flows]. intros Hw (Hall & Ht & Hu).
  unfold buy.
  destruct (usable (getNAV history paymentDate PURCHASE)) as [nav|] eqn:E;
    [|now repeat split].
  cbn [booked]. rewrite !fold_left_app. cbn [fold_left CashFlow.date].
  unfold purchase_value at 2. rewrite E, <- Ht, <- Hu.
  repeat split. apply Forall_app. split; [exact Hall|].
  constructor; [|constructor]. cbn [CashFlow.amount CashFlow.date].
  repeat split; [exact Hw|now exists nav].
Qed.

(** The dates on which a monthly plan may pay: on or after its start, not
    after today, not after its end date. *)
Definition sip_window (startDate : Date) (endDate : option Date) (now : Date)
    (d : Date) : Prop :=
  date_geb d startDate = true /\ date_leb d now = true /\
  match endDate with Some e => date_leb d e = true | None => True end.

Lemma sip_payment_window (startDate : Date) (endDate : option Date) (now : Date)
    (year month : jsint) (paymentDate : Date) :
  sip_payment startDate endDate now year month = Some paymentDate ->
  sip_window startDate endDate now paymentDate.
Proof.
  unfold sip_payment, sip_window. cbv zeta.
  destruct (_ && _ && _) eqn:E; [|discriminate]. intros [= <-].
  apply andb_prop in E. destruct E as [E He].
  apply andb_prop in E. destruct E as [Hs Hn].
  repeat split; try assumption. now destruct endDate.
Qed.

Lemma sip_loop_booked (fuel : nat) (history : list NAVData.t) (amt : float)
    (startDate : Date) (endDate : option Date) (now cursorDate : Date)
    (acc : Tally) :
  booked history amt (sip_window startDate endDate now) acc ->
  booked history amt (sip_window startDate endDate now)
    (sip_loop fuel history amt startDate endDate now cursorDate acc).
Proof.
  revert cursorDate acc. induction fuel as [|fuel IH]; intros cursorDate acc Hacc;
    cbn [sip_loop]; [exact Hacc|].
  destruct (date_leb cursorDate now); [|exact Hacc].
  apply IH.
  destruct (sip_payment startDate endDate now (getFullYear cursorDate)
              (getMonth cursorDate)) as [paymentDate|] eqn:E; [|exact Hacc].
  apply buy_booked; [|exact Hacc]. now apply (sip_payment_window _ _ _ _ _ _ E).
Qed.

Lemma booked_weaken (history : list NAVData.t) (amt : float)
    (window window' : Date -> Prop) (acc : Tally) :
  (forall d, window d -> window' d) ->
  booked history amt window acc -> booked history amt window' acc.
Proof.
  destruct acc as [[units total] flows]. intros Hw (Hall & Ht & Hu).
  repeat split; try assumption.
  revert Hall. apply Forall_impl. intros f (Ha & Hd & Hn). repeat split; auto.
Qed.

(** The window of an investment: that of a monthly plan, and the start date
    alone for a lump sum. *)
Definition payment_window (clock : Z) (inv : Investment.t) (d : Date) : Prop :=
  match Investment.type inv with
  | SIP =>
      sip_window (parseISODate (Investment.startDate inv))
        (parse_end (Investment.endDate inv)) (today clock) d
  | LUMPSUM => d = parseISODate (Investment.startDate inv)
  end.

Lemma simulateInvestment_booked (clock : Z) (inv : Investment.t)
    (first : NAVData.t) (rest : list NAVData.t) :
  let r := simulateInvestment clock inv (Some (first :: rest)) in
  booked (first :: rest) (Investment.amount inv) (payment_window clock inv)
    (Simulation.units r, Simulation.totalInvested r, Simulation.cashFlows r) /\
  Simulation.currentValue r = Simulation.units r * sample_value first.
Proof.
  cbv zeta. unfold simulateInvestment, payment_window.
  destruct (Investment.type inv).
  - pose proof (sip_loop_booked
                  (months_fuel (setDate (parseISODate (Investment.startDate inv)) 1)
                     (today clock))
                  (first :: rest) (Investment.amount inv)
                  (parseISODate (Investment.startDate inv))
                  (parse_end (Investment.endDate inv)) (today clock)
                  (setDate (parseISODate (Investment.startDate inv)) 1) (0, 0, [])
                  (booked_nothing _ _ _)) as B.
    destruct (sip_loop _ _ _ _ _ _ _ _) as [[units total] flows].
    split; [exact B|reflexivity].
  - pose proof (buy_booked (first :: rest) (Investment.amount inv)
                  (fun d => d = parseISODate (Investment.startDate inv))
                  (parseISODate (Investment.startDate inv)) (0, 0, []) eq_refl
                  (booked_nothing _ _ _)) as B.
    destruct (buy _ _ _ _) as [[units total] flows].
    split; [exact B|reflexivity].
Qed.

(** X7: the result of [simulateInvestment] agrees with its cash flows, for
    every schedule and every series: each cash flow is an outflow of the
    amount of the investment on a date whose purchase value is usable;
    [totalInvested] is that amount added once per cash flow; [units] is the
    sum over the cash flows, in order, of the amount divided by the
    purchase value on the date of the flow; and [currentValue] is the units
    times the value of the sample stored first. *)
Theorem simulateInvestment_ledger (clock : Z) (inv : Investment.t)
    (navHistory : option (list NAVData.t)) :
  let r := simulateInvestment clock inv navHistory in
  let history := match navHistory with Some h => h | None => [] end in
  let amt := Investment.amount inv in
  Forall (fun f => CashFlow.amount f = - amt /\
                   exists nav,
                     usable (getNAV history (CashFlow.date f) PURCHASE) = Some nav)
    (Simulation.cashFlows r) /\
  Simulation.totalInvested r
  = fold_left (fun t _ => t + amt) (Simulation.cashFlows r) 0 /\
  Simulation.units r
  = fold_left (fun u f => u + amt / purchase_value history (CashFlow.date f))
      (Simulation.cashFlows r) 0 /\
  Simulation.currentValue r
  = match history with
    | [] => 0
    | first :: _ => Simulation.units r * sample_value first
    end.
Proof.
  cbv zeta. destruct navHistory as [[|first rest]|];
    try (cbn; repeat split; constructor).
  destruct (simulateInvestment_booked clock inv first rest) as [B Hv].
  cbv zeta in B, Hv. apply (booked_weaken _ _ _ (fun _ => True)) in B; [|trivial].
  destruct B as (Hall & Ht & Hu). repeat split; try assumption.
  revert Hall. apply Forall_impl. intros f (Ha & _ & Hn). now split.
Qed.

Lemma int_leb_trans (a b c : jsint) :
  int_leb a b = true -> int_leb b c = true -> int_leb a c = true.
Proof.
  unfold int_leb. destruct a, b, c; try discriminate.
  rewrite !Z.leb_le. lia.
Qed.

Lemma int_gtb_not_leb (a b : jsint) :
  int_gtb a b = true -> int_leb a b = false.
Proof.
  unfold int_gtb, int_ltb, int_leb. destruct a, b; try discriminate.
  rewrite Z.ltb_lt, Z.leb_gt. lia.
Qed.

(** X8: a monthly plan pays only inside its window: every cash flow is dated on
    or after the start date, not after today and not after the end date.
    A plan that starts after today, or whose end date is before its start
    date, buys nothing. *)
Theorem simulateInvestment_sip_window (clock : Z) (inv : Investment.t)
    (navHistory : option (list NAVData.t)) :
  Investment.type inv = SIP ->
  let r := simulateInvestment clock inv navHistory in
  let startDate := parseISODate (Investment.startDate inv) in
  let endDate := parse_end (Investment.endDate inv) in
  Forall (fun f => date_geb (CashFlow.date f) startDate = true /\
                   date_leb (CashFlow.date f) (today clock) = true /\
                   match endDate with
                   | Some e => date_leb (CashFlow.date f) e = true
                   | None => True
                   end)
    (Simulation.cashFlows r) /\
  (date_gtb startDate (today clock) = true \/
   (exists e, endDate = Some e /\ date_gtb startDate e = true) ->
   Simulation.cashFlows r = [] /\ Simulation.units r = 0 /\
   Simulation.totalInvested r = 0).
Proof.
  intros Hty. cbv zeta.
  destruct navHistory as [[|first rest]|];
    try (cbn; repeat split; constructor).
  destruct (simulateInvestment_booked clock inv first rest) as [B _].
  cbv zeta in B. unfold payment_window in B. rewrite Hty in B.
  destruct B as (Hall & Ht & Hu).
  assert (Hwin : Forall (fun f => sip_window (parseISODate (Investment.startDate inv))
                                    (parse_end (Investment.endDate inv))
                                    (today clock) (CashFlow.date f))
                   (Simulation.cashFlows
                      (simulateInvestment clock inv (Some (first :: rest))))).
  { revert Hall. apply Forall_impl. now intros f (_ & Hw & _). }
  split; [exact Hwin|].
  - intros Hout.
    assert (Hnil : Simulation.cashFlows
                     (simulateInvestment clock inv (Some (first :: rest))) = []).
    { destruct (Simulation.cashFlows _) as [|f flows]; [reflexivity|exfalso].
      inversion Hwin as [|f' fs (Hs & Hn & He) _]. subst.
      unfold date_geb, int_geb, date_leb, date_gtb in *.
      destruct Hout as [Hgt|(e & Ee & Hgt)].
      - apply int_gtb_not_leb in Hgt.
        rewrite (int_leb_trans _ _ _ Hs Hn) in Hgt. discriminate.
      - rewrite Ee in He. apply int_gtb_not_leb in Hgt.
        rewrite (int_leb_trans _ _ _ Hs He) in Hgt. discriminate. }
    rewrite Hnil in Ht, Hu. now repeat split.
Qed.

Lemma getNAV_purchase_no_target (history : list NAVData.t) (target : Date) :
  getTime target = None -> getNAV history target PURCHASE = None.
Proof.
  intros Ht. unfold getNAV. destruct history as [|h0 rest]; [reflexivity|].
  rewrite Ht, find_nothing.
  - unfold int_gtb, int_ltb. now destruct (sample_time h0).
  - intros y _. unfold int_geb, int_leb. now destruct (sample_time y).
Qed.

(** X9: a start date that is not a date buys nothing, for either schedule and
    without an error: no units, no contribution, no cash flow. *)
Theorem simulateInvestment_invalid_start (clock : Z) (inv : Investment.t)
    (navHistory : option (list NAVData.t)) :
  getTime (parseISODate (Investment.startDate inv)) = None ->
  let r := simulateInvestment clock inv navHistory in
  Simulation.units r = 0 /\ Simulation.totalInvested r = 0 /\
  Simulation.cashFlows r = [].
Proof.
  intros Hs. cbv zeta. unfold simulateInvestment.
  destruct navHistory as [[|first rest]|]; try (now repeat split).
  destruct (Investment.type inv).
  - unfold setDate, months_fuel. rewrite Hs. cbn [InvalidDate getTime sip_loop].
    unfold date_leb. cbn [getTime int_leb]. now repeat split.
  - unfold buy. rewrite (getNAV_purchase_no_target _ _ Hs). now repeat split.
Qed.

End SimulatorFacts.

(** A monthly plan of 5000 from 15 January 2024, simulated on 20 March
    2024, and the same plan simulated on 10 January 2024, before it
    starts. *)
Lemma simulateInvestment_sip_window_witness :
  map (fun f => getTime (CashFlow.date f))
    (Simulation.cashFlows
       (simulateInvestment (host := RefHost) (Series.at_1030 2024 3 20)
          (Plans.sip Series.newest_first_stored) (Some Series.newest_first_stored)))
  = [getTime (Series.day 2024 1 15); getTime (Series.day 2024 2 15);
     getTime (Series.day 2024 3 15)] /\
  Simulation.cashFlows
    (simulateInvestment (host := RefHost) (Series.at_1030 2024 1 10)
       (Plans.sip Series.newest_first_stored) (Some Series.newest_first_stored))
  = [].
Proof.
  split; [vm_compute; reflexivity|].
  apply (proj2 (simulateInvestment_sip_window (host := RefHost)
                  (Series.at_1030 2024 1 10)
                  (Plans.sip Series.newest_first_stored)
                  (Some Series.newest_first_stored) eq_refl)).
  left. vm_compute. reflexivity.
Defined.

Lemma simulateInvestment_invalid_start_witness :
  Simulation.cashFlows
    (simulateInvestment (host := RefHost) (Series.at_1030 2024 3 20)
       (Investment.mk "Fund" true Series.newest_first_stored None SIP 5000
          "soon" None)
       (Some Series.newest_first_stored))
  = [].
Proof.
  apply (simulateInvestment_invalid_start (host := RefHost)
           (Series.at_1030 2024 3 20)
           (Investment.mk "Fund" true Series.newest_first_stored None SIP 5000
              "soon" None)
           (Some Series.newest_first_stored)).
  vm_compute. reflexivity.
Defined.

(* ================================================================== *)
(** * The return and the drawdown are numbers *)
(* ================================================================== *)

(** Facts of binary64 arithmetic that the properties below rest on, all
    derived from the specification of the primitive floats. *)
Module Arith64.

Import Binary64.

(** The sign of a float that is not NaN. *)
Definition signed (s : bool) (f : spec_float) : Prop :=
  match f with
  | S754_zero s' | S754_infinity s' | S754_finite s' _ _ => s' = s
  | S754_nan => False
  end.

Lemma is_nan_spec (x : float) : is_nan x = true <-> Prim2SF x = S754_nan.
Proof.
  unfold is_nan. rewrite eqb_spec. unfold SFeqb.
  destruct (Prim2SF x) as [s|[|]| |[|] m e]; cbn [SFcompare]; split;
    try discriminate; try reflexivity;
    rewrite ?Z.compare_refl, ?Pos.compare_cont_refl; discriminate.
Qed.

Lemma shr_1_nonneg (mrs : shr_record) : 0 <= shr_m mrs -> 0 <= shr_m (shr_1 mrs).
Proof.
  destruct mrs as [m r s]. cbn [shr_m]. intros H.
  destruct m as [|[p|p|]|p]; cbn [shr_1 shr_m]; lia.
Qed.

Lemma shr_nonneg (mrs : shr_record) (e n : Z) :
  0 <= shr_m mrs -> 0 <= shr_m (fst (shr mrs e n)).
Proof.
  intros H. unfold shr. destruct n as [|p|p]; cbn [fst]; try assumption.
  rewrite iter_pos_nat. induction (Pos.to_nat p) as [|k IH]; cbn [Nat.iter nat_rect];
    [assumption|now apply shr_1_nonneg].
Qed.

Lemma shr_fexp_nonneg (m e : Z) (l : location) :
  0 <= m -> 0 <= shr_m (fst (shr_fexp prec emax m e l)).
Proof.
  intros H. unfold shr_fexp. apply shr_nonneg.
  destruct l as [|[| |]]; exact H.
Qed.

Lemma round_nearest_even_nonneg (m : Z) (l : location) :
  0 <= m -> 0 <= round_nearest_even m l.
Proof.
  intros H. destruct l as [|[| |]]; cbn [round_nearest_even]; try lia.
  destruct (Z.even m); lia.
Qed.

(** Rounding a mantissa that is not negative gives a float of the sign
    asked for, never NaN. *)
Lemma binary_round_aux_signed (s : bool) (m e : Z) (l : location) :
  0 <= m -> signed s (binary_round_aux prec emax s m e l).
Proof.
  intros H. unfold binary_round_aux.
  pose proof (shr_fexp_nonneg m e l H) as H1.
  destruct (shr_fexp prec emax m e l) as [mrs' e']. cbn [fst] in H1.
  pose proof (shr_fexp_nonneg _ e' loc_Exact
                (round_nearest_even_nonneg _ (loc_of_shr_record mrs') H1)) as H2.
  destruct (shr_fexp prec emax _ e' loc_Exact) as [mrs'' e'']. cbn [fst] in H2.
  destruct (shr_m mrs'') as [|p|p]; [reflexivity| |lia].
  now destruct (e'' <=? emax - prec).
Qed.

(** A product is NaN only if a factor is, or if it is zero times
    infinity. *)
Lemma SFmul_finite_signed (s : bool) (m : positive) (e : Z) (f : spec_float)
    (sf : bool) :
  signed sf f ->
  signed (xorb sf s) (SFmul prec emax f (S754_finite s m e)).
Proof.
  destruct f as [s'|s'| |s' m' e']; cbn [signed SFmul]; intros H;
    try (now subst); try contradiction.
  subst. now apply binary_round_aux_signed.
Qed.

Lemma hundred : Prim2SF 100 = S754_finite false 7036874417766400 (-46).
Proof. reflexivity. Qed.

(** A finite number times 100 is not NaN. *)
Lemma mul_100_not_nan (x : float) :
  is_finite x = true -> is_nan (x * 100) = false.
Proof.
  intros H. apply not_true_is_false. rewrite is_nan_spec, mul_spec, hundred.
  destruct (finite_shape x H) as [[s ->]|(s & m & e & ->)]; [discriminate|].
  pose proof (SFmul_finite_signed false 7036874417766400 (-46)
                (S754_finite s m e) s eq_refl) as S.
  intros E. unfold SF64mul in E. rewrite E in S. exact S.
Qed.

(** A number that is neither negative nor NaN, times 100, is neither. *)
Lemma mul_100_nonneg (x : float) :
  (0 <=? x)%float = true -> (0 <=? x * 100)%float = true.
Proof.
  rewrite !fv_nonneg. unfold fv. rewrite mul_spec, hundred. unfold SF64mul.
  intros [a Ha].
  destruct (Prim2SF x) as [s|[|]| |[|] m e]; try discriminate;
    try (eexists; reflexivity).
  pose proof (SFmul_finite_signed false 7036874417766400 (-46)
                (S754_finite false m e) false eq_refl) as S.
  cbn [xorb] in S.
  destruct (SFmul prec emax (S754_finite false m e) _) as [s|s| |s m' e'];
    cbn [signed] in S; try contradiction; subst; eexists; reflexivity.
Qed.

Lemma ltb_leb (x y : float) : (x <? y)%float = true -> (x <=? y)%float = true.
Proof.
  rewrite ltb_spec, leb_spec. unfold SFltb, SFleb.
  now destruct (SFcompare (Prim2SF x) (Prim2SF y)) as [[| |]|].
Qed.

(** The shape of a number that is finite and positive. *)
Lemma positive_finite_shape (x : float) :
  is_finite x = true -> (0 <? x)%float = true ->
  exists m e, Prim2SF x = S754_finite false m e.
Proof.
  intros Hf Hp. rewrite ltb_spec in Hp. unfold SFltb in Hp.
  change (Prim2SF 0) with (S754_zero false) in Hp.
  destruct (finite_shape x Hf) as [[s E]|(s & m & e & E)]; rewrite E in Hp;
    cbn [SFcompare] in Hp; [discriminate|].
  destruct s; [discriminate|]. now exists m, e.
Qed.

(** A finite number minus itself is 0. *)
Lemma sub_diag (x : float) : is_finite x = true -> (x - x)%float = 0%float.
Proof.
  intros Hf. apply Prim2SF_inj. rewrite sub_spec. unfold SF64sub.
  change (Prim2SF 0) with (S754_zero false).
  destruct (finite_shape x Hf) as [[s ->]|(s & m & e & ->)]; [now destruct s|].
  cbn [SFsub].
  match goal with
  | |- binary_normalize _ _ ?z _ _ = _ =>
      replace z with 0 by (symmetry; exact (Z.sub_diag _))
  end.
  reflexivity.
Qed.

(** Zero divided by a finite positive number is 0. *)
Lemma zero_div (x : float) :
  is_finite x = true -> (0 <? x)%float = true -> (0 / x)%float = 0%float.
Proof.
  intros Hf Hp. apply Prim2SF_inj. rewrite div_spec.
  destruct (positive_finite_shape x Hf Hp) as (m & e & ->). reflexivity.
Qed.

(** Two finite positive numbers of which the first is neither above nor
    below the second are the same number. *)
Lemma leb_not_ltb (x y : float) :
  is_finite x = true -> (0 <? x)%float = true ->
  is_finite y = true -> (0 <? y)%float = true ->
  (x <=? y)%float = true -> (x <? y)%float = false -> x = y.
Proof.
  intros Hfx Hpx Hfy Hpy. rewrite leb_spec, ltb_spec. unfold SFleb, SFltb.
  destruct (positive_finite_shape x Hfx Hpx) as (mx & ex & Ex).
  destruct (positive_finite_shape y Hfy Hpy) as (my & ey & Ey).
  rewrite Ex, Ey. cbn [SFcompare]. intros Hle Hlt.
  apply Prim2SF_inj. rewrite Ex, Ey.
  destruct (Z.compare_spec ex ey) as [->|?|?]; try discriminate.
  destruct (Pos.compare_cont Eq mx my) eqn:C; try discriminate.
  apply (Pos.compare_eq mx my) in C.
  now subst.
Qed.

End Arith64.

Section ReturnFacts.

Context {host : Host}.

Import Arith64.

Local Open Scope float_scope.

Lemma not_finite_false (x : float) : not_finite x = false -> is_finite x = true.
Proof.
  unfold not_finite. intros H. apply orb_false_iff in H. destruct H as [_ H].
  now apply negb_false_iff in H.
Qed.

Lemma xirr_loop_not_nan (n : nat) (flows : list CashFlow.t) (rate : float) :
  not_finite rate = false -> is_nan (xirr_loop n flows rate) = false.
Proof.
  revert rate. induction n as [|n IH]; intros rate Hr; cbn [xirr_loop].
  - now apply mul_100_not_nan, not_finite_false.
  - destruct (converged flows rate); [now apply mul_100_not_nan, not_finite_false|].
    destruct (not_finite (newton_step flows rate)) eqn:E; [reflexivity|].
    now apply IH.
Qed.

(** X11: [calculateXIRR] never returns NaN, whatever the amounts and the dates
    of the flows: the rate it multiplies by 100 is the initial guess or a
    rate that passed the finiteness test, and otherwise it returns 0.  (The
    result may be an infinity.) *)
Theorem calculateXIRR_not_nan (transactions : list CashFlow.t)
    (currentValue : float) (valuationDate : Date) :
  is_nan (calculateXIRR transactions currentValue valuationDate) = false.
Proof.
  unfold calculateXIRR. destruct (_ <? 2)%nat; [reflexivity|].
  now apply xirr_loop_not_nan.
Qed.

End ReturnFacts.

Section DrawdownFacts.

Import Arith64 Order.

Local Open Scope float_scope.

Lemma drawdown_fold_nonneg (values : list float) (maxPeak maxDrawdown : float) :
  nonneg maxDrawdown ->
  nonneg (snd (fold_left drawdown_step values (maxPeak, maxDrawdown))).
Proof.
  revert maxPeak maxDrawdown.
  induction values as [|v rest IH]; intros maxPeak maxDrawdown H; [exact H|].
  cbn [fold_left drawdown_step]. apply IH.
  destruct (maxDrawdown <? _) eqn:E; [|exact H].
  apply (lef_nonneg maxDrawdown); [exact H|]. now apply ltb_leb.
Qed.

(** X12: the maximum drawdown is never negative and never NaN, whatever the
    values of the series, NaN included. *)
Theorem calculateMaxDrawdown_not_negative (values : list float) :
  (0 <=? calculateMaxDrawdown values) = true.
Proof.
  unfold calculateMaxDrawdown. destruct values as [|v0 rest]; [reflexivity|].
  apply mul_100_nonneg. now apply drawdown_fold_nonneg.
Qed.

(** Finite and positive. *)
Definition priced (v : float) : Prop := is_finite v = true /\ (0 <? v) = true.

Lemma drawdown_step_rising (maxPeak v : float) :
  priced maxPeak -> priced v -> lef maxPeak v ->
  drawdown_step (maxPeak, 0) v = (v, 0).
Proof.
  intros [Hfp Hpp] [Hfv Hpv] Hle. unfold drawdown_step.
  assert (E : (if maxPeak <? v then v else maxPeak) = v).
  { destruct (maxPeak <? v) eqn:Hlt; [reflexivity|].
    now apply leb_not_ltb. }
  rewrite E, (sub_diag v Hfv), (zero_div v Hfv Hpv). reflexivity.
Qed.

Lemma drawdown_fold_rising (values : list float) (maxPeak : float) :
  priced maxPeak -> Forall priced values -> Sorted lef (maxPeak :: values) ->
  snd (fold_left drawdown_step values (maxPeak, 0)) = 0.
Proof.
  revert maxPeak. induction values as [|v rest IH]; intros maxPeak Hp Hall Hs;
    [reflexivity|].
  inversion Hall as [|? ? Hv Hrest]; subst.
  inversion Hs as [|? ? Hs' Hhd]; subst. inversion Hhd as [|? ? Hle]; subst.
  cbn [fold_left]. rewrite (drawdown_step_rising maxPeak v Hp Hv Hle).
  now apply IH.
Qed.

(** X13: a series of finite positive values that never falls has a maximum
    drawdown of exactly 0. *)
Theorem calculateMaxDrawdown_rising (values : list float) :
  Forall (fun v => is_finite v = true /\ (0 <? v) = true) values ->
  Sorted (fun a b => (a <=? b) = true) values ->
  calculateMaxDrawdown values = 0.
Proof.
  intros Hall Hs. unfold calculateMaxDrawdown.
  destruct values as [|v0 rest]; [reflexivity|].
  inversion Hall as [|? ? Hv _]; subst.
  rewrite (drawdown_fold_rising (v0 :: rest) v0 Hv Hall); [reflexivity|].
  constructor; [exact Hs|]. constructor. apply lef_refl.
  apply pos_nonneg, Hv.
Qed.

End DrawdownFacts.

Lemma calculateMaxDrawdown_rising_witness :
  calculateMaxDrawdown [100; 100; 150; 150.5]%float = 0%float.
Proof.
  apply calculateMaxDrawdown_rising.
  - repeat constructor.
  - repeat constructor.
Defined.

(* ================================================================== *)
(** * Beta against a benchmark that does not move *)
(* ================================================================== *)

Section FlatBenchmark.

Context {host : Host}.

Import Binary64 Arith64.

Local Open Scope float_scope.

(** The benchmark is worth [v] on every matched date: every sample of it
    that is dated on or after the since-date, and whose date text is also
    the date text of a sample of the asset, has the value [v]. *)
Definition flat_benchmark (assetHistory benchmarkHistory : list NAVData.t)
    (sinceDate : Date) (v : float) : Prop :=
  Forall
    (fun b =>
       date_geb (parseAPIDate (NAVData.date b)) sinceDate
       && existsb (fun a => String.eqb (NAVData.date a) (NAVData.date b))
            assetHistory = true ->
       sample_value b = v)
    benchmarkHistory.

(** A common date is the date of a matched sample of the benchmark. *)
Lemma commonDates_in (assetHistory benchmarkHistory : list NAVData.t)
    (sinceDate : Date) (d : string) :
  In d (commonDates assetHistory benchmarkHistory sinceDate) ->
  exists b, In b benchmarkHistory /\ NAVData.date b = d /\
            date_geb (parseAPIDate d) sinceDate
            && existsb (fun a => String.eqb (NAVData.date a) d) assetHistory
            = true.
Proof.
  unfold commonDates. intros H. apply in_rev in H. apply in_map_iff in H.
  destruct H as (b & <- & Hb). apply filter_In in Hb. destruct Hb as [Hin Hb].
  rewrite Map_has_assetMap in Hb. now exists b.
Qed.

(** On a common date the loop reads the value [v] of a flat benchmark. *)
Lemma bench_value_flat (assetHistory benchmarkHistory : list NAVData.t)
    (sinceDate : Date) (v : float) (d : string) :
  flat_benchmark assetHistory benchmarkHistory sinceDate v ->
  In d (commonDates assetHistory benchmarkHistory sinceDate) ->
  bench_value benchmarkHistory d = v.
Proof.
  intros Hflat Hd. apply commonDates_in in Hd. destruct Hd as (b & Hb & Hdate & Hm).
  unfold bench_value.
  destruct (find (fun h => String.eqb (NAVData.date h) d) benchmarkHistory)
    as [h|] eqn:F.
  - apply find_some in F. destruct F as [Hh Heq]. apply String.eqb_eq in Heq.
    unfold flat_benchmark in Hflat. rewrite Forall_forall in Hflat.
    apply (Hflat h Hh). now rewrite Heq.
  - apply (find_none _ _ F) in Hb. rewrite Hdate, String.eqb_refl in Hb.
    discriminate.
Qed.

(** A number that is [0] or [-0]. *)
Definition zero (x : float) : Prop := x = 0 \/ x = -0.

(** Between two dates on which the benchmark is worth the same finite
    number [v] other than 0, its return is a zero. *)
Lemma flat_return (v : float) :
  is_finite v = true -> (v =? 0) = false -> zero ((v - v) / v).
Proof.
  intros Hf Hnz. rewrite sub_diag by assumption.
  rewrite eqb_spec in Hnz. change (Prim2SF 0) with (S754_zero false) in Hnz.
  destruct (finite_shape v Hf) as [[s E]|(s & m & e & E)]; rewrite E in Hnz;
    [discriminate|].
  destruct s; [right|left]; apply Prim2SF_inj; rewrite div_spec, E; reflexivity.
Qed.

Lemma aligned_returns_flat (assetMap : list (string * float))
    (benchmarkHistory : list NAVData.t) (v : float) (prevDate : string)
    (rest : list string) :
  is_finite v = true -> (v =? 0) = false ->
  (forall d, In d (prevDate :: rest) -> bench_value benchmarkHistory d = v) ->
  Forall (fun ab => zero (snd ab))
    (aligned_returns assetMap benchmarkHistory prevDate rest).
Proof.
  intros Hf Hp. revert prevDate.
  induction rest as [|currDate rest IH]; intros prevDate Hv; cbn [aligned_returns];
    constructor.
  - cbn [snd]. rewrite (Hv prevDate), (Hv currDate) by (simpl; auto).
    now apply flat_return.
  - apply IH. intros d Hd. apply Hv. now right.
Qed.

Lemma aligned_returns_length (assetMap : list (string * float))
    (benchmarkHistory : list NAVData.t) (prevDate : string) (rest : list string) :
  List.length (aligned_returns assetMap benchmarkHistory prevDate rest)
  = List.length rest.
Proof.
  revert prevDate. induction rest as [|d rest IH]; intros prevDate;
    cbn [aligned_returns List.length]; [reflexivity|]. now rewrite IH.
Qed.

(** One pair of returns per common date after the first. *)
Lemma beta_returns_length (assetHistory benchmarkHistory : list NAVData.t)
    (sinceDate : Date) :
  List.length (beta_returns assetHistory benchmarkHistory sinceDate)
  = (aligned_points assetHistory benchmarkHistory sinceDate - 1)%nat.
Proof.
  rewrite <- commonDates_length. unfold beta_returns.
  destruct (commonDates assetHistory benchmarkHistory sinceDate) as [|d0 rest];
    [reflexivity|].
  rewrite aligned_returns_length. cbn [List.length]. lia.
Qed.

Lemma beta_returns_flat (assetHistory benchmarkHistory : list NAVData.t)
    (sinceDate : Date) (v : float) :
  is_finite v = true -> (v =? 0) = false ->
  flat_benchmark assetHistory benchmarkHistory sinceDate v ->
  Forall (fun ab => zero (snd ab))
    (beta_returns assetHistory benchmarkHistory sinceDate).
Proof.
  intros Hf Hp Hflat. unfold beta_returns.
  pose proof (fun d => bench_value_flat assetHistory benchmarkHistory sinceDate v d
                         Hflat) as Hv.
  destruct (commonDates assetHistory benchmarkHistory sinceDate) as [|d0 rest];
    [constructor|].
  now apply (aligned_returns_flat _ _ v).
Qed.

(** The float of a count is finite and positive. *)
Lemma Z2float_count (n : Z) :
  (0 < n < 2 ^ 53)%Z -> exists m e, Prim2SF (Z2float n) = S754_finite false m e.
Proof.
  intros Hn. pose proof (fv_Z2float n Hn) as E. unfold fv in E.
  assert (Hlt : (0 < n * 2 ^ 1074 < INF)%Z).
  { split; [|apply below_INF; lia].
    assert (H : (0 < 2 ^ 1074)%Z) by (apply Z.pow_pos_nonneg; lia).
    revert H. generalize (2 ^ 1074)%Z. intros p Hp. nia. }
  revert E Hlt. generalize (n * 2 ^ 1074)%Z. intros a E Hlt.
  destruct (Prim2SF (Z2float n)) as [s|[|]| |[|] m e]; cbn [nnv] in E;
    try discriminate; apply some_inj in E.
  - lia.
  - lia.
  - eauto.
Qed.

Lemma zero_div_count (n : Z) : (0 < n < 2 ^ 53)%Z -> 0 / Z2float n = 0.
Proof.
  intros Hn. apply Prim2SF_inj. rewrite div_spec.
  destruct (Z2float_count n Hn) as (m & e & ->). reflexivity.
Qed.

Lemma sum_zeros (xs : list float) : Forall zero xs -> sum xs = 0.
Proof.
  unfold sum. induction 1 as [|x xs [-> | ->] _ IH]; cbn [fold_left];
    [reflexivity|exact IH|exact IH].
Qed.

(** The sum of squared deviations of returns that are all zero is 0. *)
Lemma co_variance_flat (returns : list (float * float)) :
  Math_pow 0 2 = 0 -> Math_pow (-0) 2 = 0 ->
  (0 < Z.of_nat (List.length returns) < 2 ^ 53)%Z ->
  Forall (fun ab => zero (snd ab)) returns ->
  snd (co_variance returns) = 0.
Proof.
  intros Hpow Hpow' Hlen Hz. unfold co_variance.
  assert (Hmean : sum (map snd returns) / len returns = 0).
  { rewrite sum_zeros; [now apply zero_div_count|].
    rewrite Forall_map. exact Hz. }
  rewrite Hmean. generalize (sum (map fst returns) / len returns). intros meanAsset.
  assert (Hacc : forall acc, snd acc = 0 ->
            snd (fold_left
                   (fun acc ab =>
                      (fst acc + (fst ab - meanAsset) * (snd ab - 0),
                       snd acc + Math_pow (snd ab - 0) 2))
                   returns acc) = 0).
  { clear Hlen Hmean. induction Hz as [|ab returns Hab _ IH]; intros acc Hacc;
      cbn [fold_left]; [exact Hacc|].
    apply IH. cbn [snd]. rewrite Hacc. destruct Hab as [-> | ->].
    - change (0 - 0) with 0. rewrite Hpow. reflexivity.
    - change (-0 - 0) with (-0). rewrite Hpow'. reflexivity. }
  now apply Hacc.
Qed.

(** C9 (as amended): [calculateBeta] returns exactly 1 when fewer than 30
    points match by date on or after the since-date, whatever the values;
    it also returns exactly 1 when the benchmark has one and the same
    value, finite and other than 0, on every matched date, so that every
    aligned benchmark return is zero.  The second part is for a benchmark
    that fits a JavaScript array, of fewer than 2^32 samples, and for a
    [Math.pow] that gives 0 for the square of [0] and of [-0]. *)
Theorem calculateBeta_neutral (assetHistory benchmarkHistory : list NAVData.t)
    (sinceDate : Date) :
  ((aligned_points assetHistory benchmarkHistory sinceDate < 30)%nat ->
   calculateBeta assetHistory benchmarkHistory sinceDate = 1) /\
  (forall v : float,
     Math_pow 0 2 = 0 -> Math_pow (-0) 2 = 0 ->
     (Z.of_nat (List.length benchmarkHistory) < 2 ^ 32)%Z ->
     is_finite v = true -> (v =? 0) = false ->
     flat_benchmark assetHistory benchmarkHistory sinceDate v ->
     calculateBeta assetHistory benchmarkHistory sinceDate = 1).
Proof.
  unfold calculateBeta. rewrite commonDates_length. split.
  - intros Hfew. now rewrite (proj2 (Nat.ltb_lt _ _) Hfew).
  - intros v Hpow Hpow' Hlen Hf Hnz Hflat.
    destruct (aligned_points assetHistory benchmarkHistory sinceDate <? 30)%nat
      eqn:Hn; [reflexivity|].
    apply Nat.ltb_ge in Hn.
    assert (Hle : (aligned_points assetHistory benchmarkHistory sinceDate
                   <= List.length benchmarkHistory)%nat)
      by apply filter_length_le.
    pose proof (co_variance_flat
                  (beta_returns assetHistory benchmarkHistory sinceDate)
                  Hpow Hpow') as V.
    rewrite beta_returns_length in V.
    destruct (co_variance (beta_returns assetHistory benchmarkHistory sinceDate))
      as [covariance variance].
    cbn [snd] in V. rewrite V; [reflexivity| |now apply (beta_returns_flat _ _ _ v)].
    split; [lia|].
    apply Z.lt_trans with (2 ^ 32)%Z; [lia|reflexivity].
Qed.

End FlatBenchmark.

(** C9, two instances: three matched points; and 31 matched points with a
    benchmark that stays at 50. *)
Lemma calculateBeta_neutral_witness :
  calculateBeta (host := RefHost) Series.newest_first_stored
    Series.newest_first_stored (Series.day 2024 1 1) = 1%float /\
  aligned_points (host := RefHost) Daily.rising Daily.flat (Series.day 2024 1 1)
  = 31%nat /\
  calculateBeta (host := RefHost) Daily.rising Daily.flat (Series.day 2024 1 1)
  = 1%float.
Proof.
  split; [|split].
  - apply (proj1 (calculateBeta_neutral (host := RefHost)
                    Series.newest_first_stored Series.newest_first_stored
                    (Series.day 2024 1 1))).
    vm_compute. lia.
  - vm_compute; reflexivity.
  - apply (proj2 (calculateBeta_neutral (host := RefHost) Daily.rising
                    Daily.flat (Series.day 2024 1 1)) 50%float).
    + reflexivity.
    + reflexivity.
    + vm_compute. reflexivity.
    + reflexivity.
    + reflexivity.
    + unfold flat_benchmark.
      repeat (constructor; [intros _; vm_compute; reflexivity|]). constructor.
Defined.

(** Sample data: 32 days from 1 January 2024, newest first; an asset worth
    101, 102, ..., 132 and a benchmark worth 3^31 on the first day and a
    third of the day before on each day after it, down to 1. *)
Module Thirds.
Fixpoint decimal_digits (fuel : nat) (n : Z) : string :=
  match fuel with
  | O => EmptyString
  | S fuel' =>
      if n <? 10 then digit_char n
      else (decimal_digits fuel' (n / 10) ++ digit_char n)%string
  end.
Definition decimal (n : Z) : string := decimal_digits 20 n.
Definition date_text (k : nat) : string :=
  if (k <=? 31)%nat then (Daily.two_digits k ++ "-01-2024")%string
  else (Daily.two_digits (k - 31) ++ "-02-2024")%string.
Definition series (value : nat -> Z) : list NAVData.t :=
  rev (map (fun k => NAVData.mk (date_text k) (decimal (value k))) (seq 1 32)).
Definition asset : list NAVData.t := series (fun k => 100 + Z.of_nat k).
Definition benchmark : list NAVData.t := series (fun k => 3 ^ Z.of_nat (32 - k)).
End Thirds.

(** C9 as stated fails: over 32 matched days, the 31 aligned returns of the
    benchmark are the same number, so that their variance is 0, yet the
    sum of squared deviations that the code accumulates is not 0 and the
    beta it returns is not 1. *)
Lemma equal_returns_beta_not_one :
  aligned_points (host := RefHost) Thirds.asset Thirds.benchmark
    (Series.day 2024 1 1) = 32%nat /\
  map snd (beta_returns (host := RefHost) Thirds.asset Thirds.benchmark
             (Series.day 2024 1 1))
  = repeat (-2 / 3)%float 31 /\
  varianceBench (host := RefHost) Thirds.asset Thirds.benchmark
    (Series.day 2024 1 1) = 3.821045009664276e-31%float /\
  calculateBeta (host := RefHost) Thirds.asset Thirds.benchmark
    (Series.day 2024 1 1) = 0.012852822580645162%float /\
  (calculateBeta (host := RefHost) Thirds.asset Thirds.benchmark
     (Series.day 2024 1 1) =? 1)%float = false.
Proof. repeat split; vm_compute; reflexivity. Qed.

(* ================================================================== *)
(** * The statistics and the ratio table *)
(* ================================================================== *)

Section StatisticsFacts.

Context {host : Host}.

Import Arith64.

Local Open Scope float_scope.

(** ** Volatility *)

(** The samples dated on or after the start date. *)
Definition samples_since (navHistory : list NAVData.t) (startDate : Date) : nat :=
  List.length
    (filter (fun h => date_geb (parseAPIDate (NAVData.date h)) startDate)
       navHistory).

Lemma insert_by_time_length (x : Date * float) (l : list (Date * float)) :
  List.length (insert_by_time x l) = S (List.length l).
Proof.
  induction l as [|y rest IH]; cbn [insert_by_time]; [reflexivity|].
  destruct (int_ltb _ _); cbn [List.length]; [reflexivity|now rewrite IH].
Qed.

Lemma sort_by_time_length (l : list (Date * float)) :
  List.length (sort_by_time l) = List.length l.
Proof.
  unfold sort_by_time.
  assert (G : forall acc, List.length (fold_left (fun a x => insert_by_time x a) l acc)
                          = (List.length acc + List.length l)%nat).
  { induction l as [|x rest IH]; intros acc; cbn [fold_left List.length]; [lia|].
    rewrite IH, insert_by_time_length. lia. }
  now rewrite G.
Qed.

Lemma filter_map_length {A B : Type} (f : A -> B) (p : B -> bool) (l : list A) :
  List.length (filter p (map f l)) = List.length (filter (fun a => p (f a)) l).
Proof.
  induction l as [|a rest IH]; [reflexivity|]. cbn [map filter].
  destruct (p (f a)); cbn [List.length]; now rewrite IH.
Qed.

(** X14: with fewer than 30 samples dated on or after the start date, the
    volatility is exactly 0, whatever the values. *)
Theorem calculateVolatility_short (navHistory : list NAVData.t) (startDate : Date) :
  (samples_since navHistory startDate < 30)%nat ->
  calculateVolatility navHistory startDate = 0.
Proof.
  intros H. unfold calculateVolatility. cbv zeta.
  rewrite sort_by_time_length, filter_map_length. cbn [fst].
  fold (samples_since navHistory startDate).
  now rewrite (proj2 (Nat.ltb_lt _ _) H).
Qed.

(** ** Rows of the ratio table *)

(** An investment with a series of its own. *)
Definition has_history (i : Investment.t) : bool :=
  has_samples (Some (Investment.navHistory i)).

Lemma fund_row_some (clock : Z) (benchmarkHistory : list NAVData.t)
    (inv : Investment.t) :
  match fund_row clock benchmarkHistory inv with
  | Some (f, flows) =>
      has_history inv = true /\
      FundRatio.name f = Investment.name inv /\
      FundRatio.invested f
      = Simulation.totalInvested
          (simulateInvestment clock inv (Some (Investment.navHistory inv))) /\
      FundRatio.currentValue f
      = Simulation.currentValue
          (simulateInvestment clock inv (Some (Investment.navHistory inv))) /\
      flows
      = Simulation.cashFlows
          (simulateInvestment clock inv (Some (Investment.navHistory inv)))
  | None => has_history inv = false
  end.
Proof.
  unfold fund_row, has_history, has_samples.
  destruct (Investment.navHistory inv) as [|h rest]; [reflexivity|].
  destruct (fund_beta_alpha _ _ _ _ _) as [beta alpha]. now repeat split.
Qed.

(** What a row shows of the simulation of its investment. *)
Definition row_of (clock : Z) (i : Investment.t) : string * float * float :=
  let r := simulateInvestment clock i (Some (Investment.navHistory i)) in
  (Investment.name i, Simulation.totalInvested r, Simulation.currentValue r).

Lemma rows_of (clock : Z) (benchmarkHistory : list NAVData.t)
    (investments : list Investment.t) :
  let rows := somes (map (fund_row clock benchmarkHistory) investments) in
  map (fun r => (FundRatio.name (fst r), FundRatio.invested (fst r),
                 FundRatio.currentValue (fst r))) rows
  = map (row_of clock) (filter has_history investments) /\
  map snd rows
  = map (fun i => Simulation.cashFlows
                    (simulateInvestment clock i (Some (Investment.navHistory i))))
      (filter has_history investments).
Proof.
  cbv zeta. induction investments as [|i rest [IH1 IH2]]; [now split|].
  cbn [map somes filter].
  pose proof (fund_row_some clock benchmarkHistory i) as R.
  destruct (fund_row clock benchmarkHistory i) as [[f flows]|].
  - destruct R as (-> & Hn & Hi & Hv & Hf). cbn [somes map fst snd].
    unfold row_of at 1. cbv zeta. rewrite Hn, Hi, Hv, Hf, IH1, IH2. now split.
  - rewrite R. now split.
Qed.

(** X15: [calculateFundRatios] lists one row per investment that has a series
    of its own, in the order of the investments and under their names, and
    skips the others without an error; each row shows the contribution and
    the current value that [simulateInvestment] gives for the investment. *)
Theorem calculateFundRatios_rows (clock : Z) (investments : list Investment.t)
    (benchmarkHistory : list NAVData.t) :
  map (fun f => (FundRatio.name f, FundRatio.invested f, FundRatio.currentValue f))
    (FundRatios.funds (calculateFundRatios clock investments benchmarkHistory))
  = map (row_of clock) (filter has_history investments).
Proof.
  unfold calculateFundRatios. cbn [FundRatios.funds].
  rewrite map_map. exact (proj1 (rows_of clock benchmarkHistory investments)).
Qed.

(** ** The totals of the two tables *)

Lemma fold_add_investment (clock : Z) (investments : list Investment.t)
    (acc : float * float * float * list CashFlow.t) :
  let '(ti, av, cv, fl) := acc in
  let sims :=
    map (fun i => simulateInvestment clock i (Some (Investment.navHistory i)))
      investments in
  let '(ti', av', cv', fl') := fold_left (add_investment clock) investments acc in
  ti' = fold_left add (map Simulation.totalInvested sims) ti /\
  av' = fold_left add (map Simulation.currentValue sims) av /\
  fl' = fl ++ List.concat (map Simulation.cashFlows sims) /\
  (Forall (fun i => has_samples (Investment.counterpartNavHistory i) = false)
     investments ->
   cv' = fold_left add (map Simulation.currentValue sims) cv).
Proof.
  revert acc. induction investments as [|i rest IH]; intros [[[ti av] cv] fl].
  - cbn. rewrite app_nil_r. now repeat split.
  - cbn [fold_left map]. unfold add_investment at 2.
    specialize (IH (ti + Simulation.totalInvested
                            (simulateInvestment clock i
                               (Some (Investment.navHistory i))),
                    av + Simulation.currentValue
                            (simulateInvestment clock i
                               (Some (Investment.navHistory i))),
                    (if has_samples (Investment.counterpartNavHistory i)
                     then cv + Simulation.currentValue
                                 (simulateInvestment clock i
                                    (Investment.counterpartNavHistory i))
                     else cv + Simulation.currentValue
                                 (simulateInvestment clock i
                                    (Some (Investment.navHistory i)))),
                    fl ++ Simulation.cashFlows
                            (simulateInvestment clock i
                               (Some (Investment.navHistory i))))).
    cbv zeta in IH.
    destruct (fold_left (add_investment clock) rest _) as [[[ti' av'] cv'] fl'].
    destruct IH as (H1 & H2 & H3 & H4).
    cbn [List.concat]. rewrite app_assoc. repeat split; try assumption.
    intros Hall. inversion Hall as [|? ? Hi Hrest]; subst.
    rewrite Hi in H4. now apply H4.
Qed.

(** X16: when no investment has samples of the counterpart plan, the counterpart
    value is the actual value: the comparison is neutral, and the net
    impact is 0 whenever the actual value is finite. *)
Theorem calculatePortfolioStats_neutral (clock : Z)
    (investments : list Investment.t) (chartData : list ChartDataPoint.t)
    (benchmarkHistory : option (list NAVData.t)) :
  Forall (fun i => has_samples (Investment.counterpartNavHistory i) = false)
    investments ->
  let s := calculatePortfolioStats clock investments chartData benchmarkHistory in
  PortfolioMetrics.counterpartValue s = PortfolioMetrics.actualValue s /\
  (is_finite (PortfolioMetrics.actualValue s) = true ->
   PortfolioMetrics.netImpact s = 0).
Proof.
  intros Hall. cbv zeta. unfold calculatePortfolioStats.
  pose proof (fold_add_investment clock investments (0, 0, 0, [])) as F.
  cbv zeta in F.
  destruct (fold_left (add_investment clock) investments _) as [[[ti av] cv] fl].
  destruct F as (_ & Hav & _ & Hcv). specialize (Hcv Hall).
  destruct (portfolio_alpha_beta _ _ _) as [alpha beta].
  cbn [PortfolioMetrics.counterpartValue PortfolioMetrics.actualValue
         PortfolioMetrics.netImpact].
  rewrite Hcv, <- Hav. split; [reflexivity|]. apply sub_diag.
Qed.

(** X17: for investments that all have a series of their own, the totals row of
    the ratio table and the portfolio statistics agree: the same invested
    total, the same current value and, read at the same instant, the same
    money-weighted return. *)
Theorem ratios_agree_with_stats (clock : Z) (investments : list Investment.t)
    (chartData : list ChartDataPoint.t)
    (benchmark : list NAVData.t) (benchmarkHistory : option (list NAVData.t)) :
  Forall (fun i => has_history i = true) investments ->
  let ratios := FundRatios.portfolio (calculateFundRatios clock investments benchmark) in
  let stats := calculatePortfolioStats clock investments chartData benchmarkHistory in
  PortfolioRatio.invested ratios = PortfolioMetrics.totalInvested stats /\
  PortfolioRatio.currentValue ratios = PortfolioMetrics.currentValue stats /\
  PortfolioRatio.xirr ratios = PortfolioMetrics.xirr stats.
Proof.
  intros Hall. cbv zeta. unfold calculateFundRatios, calculatePortfolioStats.
  pose proof (fold_add_investment clock investments (0, 0, 0, [])) as F.
  cbv zeta in F.
  destruct (fold_left (add_investment clock) investments _) as [[[ti av] cv] fl].
  destruct F as (Hti & Hav & Hfl & _).
  destruct (portfolio_alpha_beta _ _ _) as [alpha beta].
  cbn [FundRatios.portfolio PortfolioRatio.invested PortfolioRatio.currentValue
         PortfolioRatio.xirr PortfolioMetrics.totalInvested
         PortfolioMetrics.currentValue PortfolioMetrics.xirr].
  destruct (rows_of clock benchmark investments) as [R1 R2]. cbv zeta in R1, R2.
  assert (Hf : filter has_history investments = investments).
  { clear - Hall. induction Hall as [|i rest Hi _ IH]; [reflexivity|].
    cbn [filter]. now rewrite Hi, IH. }
  rewrite Hf in R1, R2.
  assert (Einv : map FundRatio.invested
                   (map fst (somes (map (fund_row clock benchmark) investments)))
                 = map Simulation.totalInvested
                     (map (fun i => simulateInvestment clock i
                                      (Some (Investment.navHistory i)))
                        investments)).
  { rewrite !map_map.
    apply (f_equal (map (fun t => snd (fst t)))) in R1.
    rewrite !map_map in R1. exact R1. }
  assert (Eval : map FundRatio.currentValue
                   (map fst (somes (map (fund_row clock benchmark) investments)))
                 = map Simulation.currentValue
                     (map (fun i => simulateInvestment clock i
                                      (Some (Investment.navHistory i)))
                        investments)).
  { rewrite !map_map.
    apply (f_equal (map snd)) in R1. rewrite !map_map in R1. exact R1. }
  assert (Eflows : List.concat
                     (map snd (somes (map (fund_row clock benchmark) investments)))
                   = fl).
  { rewrite Hfl, R2, map_map. reflexivity. }
  unfold sum. rewrite Einv, Eval, Eflows, Hti, Hav. repeat split; reflexivity.
Qed.

End StatisticsFacts.

(* ================================================================== *)
(** * The data points of the replay *)
(* ================================================================== *)

Section ReplayFacts.

Context {host : Host}.

Local Open Scope float_scope.

(** X18: every data point carries a benchmark value exactly when the benchmark
    has samples: never when it is absent or empty. *)
Theorem generateBacktestData_benchmark_presence (clock : Z)
    (investments : list Investment.t) (benchmarkHistory : option (list NAVData.t)) :
  Forall (fun p => match ChartDataPoint.benchmarkValue p with
                   | Some _ => has_samples benchmarkHistory = true
                   | None => has_samples benchmarkHistory = false
                   end)
    (generateBacktestData clock investments benchmarkHistory).
Proof.
  apply Forall_forall. intros p Hin. apply generateBacktestData_emits in Hin.
  destruct Hin as (monthEndDate & portfolio & _ & _ & tb & ->).
  cbn [snapshot ChartDataPoint.benchmarkValue].
  now destruct (has_samples benchmarkHistory).
Qed.

Lemma filter_twice {A : Type} (p : A -> bool) (l : list A) :
  filter p (filter p l) = filter p l.
Proof.
  induction l as [|a l IH]; [reflexivity|]. cbn [filter].
  destruct (p a) eqn:E; [|exact IH]. cbn [filter]. now rewrite E, IH.
Qed.

(** X19: investments without a sample in either series are ignored by the
    replay: removing them from the list changes no data point. *)
Theorem generateBacktestData_ignores_inactive (clock : Z)
    (investments : list Investment.t) (benchmarkHistory : option (list NAVData.t)) :
  generateBacktestData clock investments benchmarkHistory
  = generateBacktestData clock (filter is_active investments) benchmarkHistory.
Proof.
  unfold generateBacktestData. now rewrite filter_twice.
Qed.

(** ** What each holding has contributed *)

(** The running total of a holding is its amount added once per
    contribution, and a lump sum has contributed once exactly when its flag
    is set. *)
Definition contributed (h : Holding.t) : Prop :=
  exists k : nat,
    Holding.totalInvested h
    = Nat.iter k (fun t => t + Investment.amount (Holding.inv h)) 0 /\
    match Investment.type (Holding.inv h) with
    | LUMPSUM => k = if Holding.hasLumpsumInvested h then 1%nat else 0%nat
    | SIP => True
    end.

Lemma open_holding_contributed (i : Investment.t) : contributed (open_holding i).
Proof. exists 0%nat. split; [reflexivity|]. cbn. now destruct (Investment.type i). Qed.

Lemma contribute_contributed (benchmarkHistory : option (list NAVData.t))
    (now : Date) (year month : jsint) (h : Holding.t) (bu : float) :
  contributed h ->
  contributed (fst (contribute benchmarkHistory now year month h bu)).
Proof.
  intros (k & Hk & Hl). unfold contribute.
  destruct (payment_due now year month h) as [paymentDate|] eqn:E; cbn [fst];
    [|now exists k].
  exists (S k). cbn [Holding.totalInvested Holding.inv Holding.hasLumpsumInvested
                       Nat.iter nat_rect].
  split; [now rewrite Hk|].
  unfold payment_due in E.
  destruct (Investment.type (Holding.inv h)); [exact I|].
  destruct (Holding.hasLumpsumInvested h); [discriminate|]. now subst k.
Qed.

Lemma contribute_all_contributed (benchmarkHistory : option (list NAVData.t))
    (now : Date) (year month : jsint) (portfolio : list Holding.t) (bu : float) :
  Forall contributed portfolio ->
  Forall contributed
    (fst (contribute_all benchmarkHistory now year month portfolio bu)).
Proof.
  intros H. revert bu. induction H as [|h rest Hh _ IH]; intros bu; [constructor|].
  cbn [contribute_all].
  pose proof (contribute_contributed benchmarkHistory now year month h bu Hh) as C.
  destruct (contribute benchmarkHistory now year month h bu) as [h' bu'].
  specialize (IH bu').
  destruct (contribute_all benchmarkHistory now year month rest bu') as [rest' bu''].
  now constructor.
Qed.

Lemma backtest_loop_contributed (fuel : nat)
    (benchmarkHistory : option (list NAVData.t)) (now cursorDate : Date)
    (portfolio : list Holding.t) (bu : float)
    (dataPoints : list ChartDataPoint.t) (p : ChartDataPoint.t) :
  Forall contributed portfolio ->
  In p (backtest_loop fuel benchmarkHistory now cursorDate portfolio bu dataPoints) ->
  In p dataPoints \/
  exists portfolio',
    map Holding.inv portfolio' = map Holding.inv portfolio /\
    Forall contributed portfolio' /\
    ChartDataPoint.investedAmount p = Math_round (invested_total portfolio').
Proof.
  revert cursorDate portfolio bu dataPoints.
  induction fuel as [|fuel IH]; intros cursorDate portfolio bu dataPoints Hc;
    cbn [backtest_loop]; [now left|].
  destruct (date_leb cursorDate now); [|now left].
  pose proof (contribute_all_inv benchmarkHistory now (getFullYear cursorDate)
                (getMonth cursorDate) portfolio bu) as Hinv.
  pose proof (contribute_all_contributed benchmarkHistory now
                (getFullYear cursorDate) (getMonth cursorDate) portfolio bu Hc) as Hc'.
  destruct (contribute_all benchmarkHistory now (getFullYear cursorDate)
              (getMonth cursorDate) portfolio bu) as [portfolio' bu'].
  cbn [fst] in Hinv, Hc'. intros Hin. apply (IH _ _ _ _ Hc') in Hin.
  destruct Hin as [Hin|(pf & Hpf & Hcpf & Hamt)].
  - destruct (0 <? Totals.invested _) in Hin; [|now left].
    apply in_app_or in Hin. destruct Hin as [Hin|[<-|[]]]; [now left|].
    right. exists portfolio'. repeat split; try assumption.
    cbn [snapshot ChartDataPoint.investedAmount].
    now rewrite month_totals_invested.
  - right. exists pf. repeat split; try assumption. now rewrite Hpf.
Qed.

(** X20: the invested amount of every data point is the rounding of the sum,
    over the active investments in order, of totals each of which is the
    amount of its investment added once per contribution; a lump sum has
    contributed at most once, however many months the replay covers. *)
Theorem generateBacktestData_contributions (clock : Z)
    (investments : list Investment.t) (benchmarkHistory : option (list NAVData.t))
    (p : ChartDataPoint.t) :
  In p (generateBacktestData clock investments benchmarkHistory) ->
  exists portfolio,
    map Holding.inv portfolio = filter is_active investments /\
    ChartDataPoint.investedAmount p
    = Math_round (sum (map Holding.totalInvested portfolio)) /\
    Forall (fun h =>
              exists k : nat,
                Holding.totalInvested h
                = Nat.iter k (fun t => t + Investment.amount (Holding.inv h)) 0 /\
                (Investment.type (Holding.inv h) = LUMPSUM -> (k <= 1)%nat))
      portfolio.
Proof.
  unfold generateBacktestData.
  destruct (filter is_active investments) as [|i rest] eqn:E; [intros []|].
  intros Hin. apply backtest_loop_contributed in Hin.
  - destruct Hin as [[]|(pf & Hpf & Hc & Hamt)]. exists pf.
    split; [|split; [exact Hamt|]].
    + rewrite Hpf, map_map. cbn [open_holding Holding.inv]. apply map_id.
    + revert Hc. apply Forall_impl. intros h (k & Hk & Hl). exists k.
      split; [exact Hk|]. intros Hty. rewrite Hty in Hl.
      destruct (Holding.hasLumpsumInvested h); lia.
  - apply Forall_forall. intros h Hh. apply in_map_iff in Hh.
    destruct Hh as (i' & <- & _). apply open_holding_contributed.
Qed.

(** ** A portfolio without price data *)

Lemma inactive_no_samples (i : Investment.t) :
  is_active i = false ->
  Investment.navHistory i = [] /\
  has_samples (Investment.counterpartNavHistory i) = false.
Proof.
  unfold is_active. intros H. apply orb_false_iff in H. destruct H as [H1 H2].
  split; [|exact H2]. unfold has_samples in H1.
  now destruct (Investment.navHistory i).
Qed.

Lemma filter_none {A : Type} (p : A -> bool) (l : list A) :
  Forall (fun a => p a = false) l -> filter p l = [].
Proof.
  induction 1 as [|a l Ha _ IH]; [reflexivity|]. cbn [filter]. now rewrite Ha.
Qed.

Lemma fold_inactive (clock : Z) (investments : list Investment.t) :
  Forall (fun i => is_active i = false) investments ->
  fold_left (add_investment clock) investments (0, 0, 0, []) = (0, 0, 0, []).
Proof.
  induction 1 as [|i rest Hi _ IH]; [reflexivity|].
  cbn [fold_left]. destruct (inactive_no_samples i Hi) as [Hn Hc].
  unfold add_investment at 2. rewrite Hn, Hc. cbn [simulateInvestment].
  exact IH.
Qed.

Lemma rows_inactive (clock : Z) (benchmark : list NAVData.t)
    (investments : list Investment.t) :
  Forall (fun i => is_active i = false) investments ->
  somes (map (fund_row clock benchmark) investments) = [].
Proof.
  induction 1 as [|i rest Hi _ IH]; [reflexivity|].
  cbn [map]. destruct (inactive_no_samples i Hi) as [Hn _].
  unfold fund_row at 1. rewrite Hn. exact IH.
Qed.

(** X21: when no investment has a sample in either series, nothing fails and
    everything is zero: the replay has no data point; the statistics
    computed from it, as the application does, are all 0, with alpha and
    beta 0 or absent as the benchmark is given or not; the ratio table has
    no row and a totals row of zeros. *)
Theorem nothing_without_samples (clock : Z) (investments : list Investment.t)
    (benchmarkHistory : option (list NAVData.t)) (benchmark : list NAVData.t) :
  Forall (fun i => is_active i = false) investments ->
  let chartData := generateBacktestData clock investments benchmarkHistory in
  chartData = [] /\
  calculatePortfolioStats clock investments chartData benchmarkHistory
  = PortfolioMetrics.mk 0 0 0 0 0 0 0 0 0 0 0
      (match benchmarkHistory with Some _ => Some 0 | None => None end)
      (match benchmarkHistory with Some _ => Some 0 | None => None end) /\
  calculateFundRatios clock investments benchmark
  = FundRatios.mk [] (PortfolioRatio.mk 0 0 0 0 0 0).
Proof.
  intros Hall. cbv zeta.
  assert (Hc : generateBacktestData clock investments benchmarkHistory = []).
  { unfold generateBacktestData. now rewrite (filter_none _ _ Hall). }
  rewrite Hc. split; [reflexivity|]. split.
  - unfold calculatePortfolioStats. rewrite (fold_inactive clock _ Hall).
    unfold portfolio_alpha_beta. cbn [List.length Nat.ltb Nat.leb andb].
    rewrite andb_false_r. reflexivity.
  - unfold calculateFundRatios. rewrite (rows_inactive clock _ _ Hall).
    reflexivity.
Qed.

End ReplayFacts.

(* ================================================================== *)
(** * The two date formats *)
(* ================================================================== *)

(** ** Text without a dash, and what [split] and [join] do to it *)

Module Text.

Local Open Scope string_scope.

(** [parts.join(sep)]. *)
Definition join (sep : string) (parts : list string) : string :=
  match parts with
  | [] => ""
  | p :: rest => fold_left (fun acc q => acc ++ sep ++ q) rest p
  end.

Fixpoint dash_free (s : string) : bool :=
  match s with
  | EmptyString => true
  | String c rest => negb (Ascii.eqb c "-") && dash_free rest
  end.

Lemma split_nonempty (s : string) : split "-" s <> [].
Proof.
  destruct s as [|c rest]; cbn [split]; [discriminate|].
  destruct (Ascii.eqb c "-"); [discriminate|].
  destruct (split "-" rest); discriminate.
Qed.

Lemma split_dash_free (s : string) : dash_free s = true -> split "-" s = [s].
Proof.
  induction s as [|c rest IH]; [reflexivity|]. cbn [dash_free split].
  intros H. apply andb_prop in H. destruct H as [Hc Hr].
  apply negb_true_iff in Hc. rewrite Hc, (IH Hr). reflexivity.
Qed.

Lemma split_part (a b : string) :
  dash_free a = true -> split "-" (a ++ "-" ++ b) = a :: split "-" b.
Proof.
  induction a as [|c rest IH]; intros H.
  - cbn. reflexivity.
  - cbn [dash_free] in H. apply andb_prop in H. destruct H as [Hc Hr].
    apply negb_true_iff in Hc.
    change ((String c rest) ++ "-" ++ b) with (String c (rest ++ "-" ++ b)).
    cbn [split]. rewrite Hc, (IH Hr). reflexivity.
Qed.

(** The parts that [split] gives have no dash. *)
Lemma split_parts_dash_free (s : string) :
  Forall (fun p => dash_free p = true) (split "-" s).
Proof.
  induction s as [|c rest IH]; [repeat constructor|]. cbn [split].
  destruct (Ascii.eqb c "-") eqn:E; [now constructor|].
  destruct (split "-" rest) as [|w ws]; [repeat constructor; cbn; now rewrite E|].
  inversion IH as [|? ? Hw Hws]; subst. constructor; [|exact Hws].
  cbn [dash_free]. now rewrite E, Hw.
Qed.

Lemma append_assoc (a b c : string) : (a ++ b) ++ c = a ++ (b ++ c).
Proof. induction a as [|x a IH]; cbn; [reflexivity|now rewrite IH]. Qed.

Lemma fold_join_prefix (a b : string) (rest : list string) :
  fold_left (fun acc q => acc ++ "-" ++ q) rest (a ++ b)
  = a ++ fold_left (fun acc q => acc ++ "-" ++ q) rest b.
Proof.
  revert b. induction rest as [|r rest IH]; intros b; [reflexivity|].
  cbn [fold_left]. rewrite append_assoc. apply IH.
Qed.

Lemma join_cons (p q : string) (rest : list string) :
  join "-" (p :: q :: rest) = p ++ "-" ++ join "-" (q :: rest).
Proof.
  cbn [join fold_left]. rewrite fold_join_prefix.
  f_equal. apply (fold_join_prefix "-" q rest).
Qed.

Lemma join_head (c : ascii) (w : string) (ws : list string) :
  join "-" (String c w :: ws) = String c (join "-" (w :: ws)).
Proof. cbn [join]. apply (fold_join_prefix (String c "") w ws). Qed.

(** Joining what [split] gave restores the text. *)
Lemma join_split (s : string) : join "-" (split "-" s) = s.
Proof.
  induction s as [|c rest IH]; [reflexivity|]. cbn [split].
  pose proof (split_nonempty rest) as Hne.
  destruct (Ascii.eqb c "-") eqn:E.
  - apply Ascii.eqb_eq in E. subst c.
    destruct (split "-" rest) as [|w ws]; [contradiction|].
    rewrite join_cons, IH. reflexivity.
  - destruct (split "-" rest) as [|w ws]; [contradiction|].
    now rewrite join_head, IH.
Qed.

(** Splitting what [join] made of parts without a dash restores the
    parts. *)
Lemma split_join (parts : list string) :
  parts <> [] -> Forall (fun p => dash_free p = true) parts ->
  split "-" (join "-" parts) = parts.
Proof.
  induction parts as [|p rest IH]; intros Hne Hall; [contradiction|].
  inversion Hall as [|? ? Hp Hrest]; subst.
  destruct rest as [|q rest]; [now apply split_dash_free|].
  rewrite join_cons, (split_part _ _ Hp). f_equal.
  apply IH; [discriminate|exact Hrest].
Qed.

End Text.

Section DateTexts.

Context {host : Host}.

Import Text.

Local Open Scope string_scope.

(** X22: the two date formats name the same day: the text [dd-mm-yyyy] of the
    data provider and the text [yyyy-mm-dd] of the forms give the same
    date, whatever the host makes of the three parts. *)
Theorem date_formats_agree (y m d : string) :
  dash_free y = true -> dash_free m = true -> dash_free d = true ->
  parseAPIDate (d ++ "-" ++ m ++ "-" ++ y)
  = parseISODate (y ++ "-" ++ m ++ "-" ++ d).
Proof.
  intros Hy Hm Hd. unfold parseAPIDate, parseISODate.
  rewrite (split_part d _ Hd), (split_part m _ Hm), (split_dash_free y Hy).
  rewrite (split_part y _ Hy), (split_part m _ Hm), (split_dash_free d Hd).
  reflexivity.
Qed.

(** [CustomFundForm], [handleSubmit]: the expression
    [date.split('-').reverse().join('-')] that turns the date of a row
    into the format of the data provider, and that the comparison of the
    sort applies again to get the date of the row back. *)
Definition reverse_date (date : string) : string :=
  join "-" (rev (split "-" date)).

(** X23: the conversion of the form turns [yyyy-mm-dd] into [dd-mm-yyyy], and
    applying it twice gives every text back. *)
Theorem reverse_date_round_trip (s : string) :
  reverse_date (reverse_date s) = s /\
  forall y m d,
    dash_free y = true -> dash_free m = true -> dash_free d = true ->
    s = y ++ "-" ++ m ++ "-" ++ d ->
    reverse_date s = d ++ "-" ++ m ++ "-" ++ y.
Proof.
  split.
  - unfold reverse_date. rewrite split_join.
    + rewrite rev_involutive. apply join_split.
    + intros E. apply (f_equal (@rev string)) in E.
      rewrite rev_involutive in E. now apply (split_nonempty s).
    + apply Forall_rev, split_parts_dash_free.
  - intros y m d Hy Hm Hd ->. unfold reverse_date.
    rewrite (split_part y _ Hy), (split_part m _ Hm), (split_dash_free d Hd).
    cbn [rev app]. now rewrite !join_cons.
Qed.

End DateTexts.

Lemma date_formats_agree_witness :
  parseAPIDate (host := RefHost) "15-01-2024"
  = parseISODate (host := RefHost) "2024-01-15".
Proof.
  apply (date_formats_agree (host := RefHost) "2024" "01" "15"); reflexivity.
Defined.

(* ================================================================== *)
(** * The day of a monthly contribution *)
(* ================================================================== *)

Lemma yoe_sharp (doe : Z) :
  0 <= doe < 146097 ->
  let yoe := (doe - doe / 1460 + doe / 36524 - doe / 146096) / 365 in
  doe < 365 * (yoe + 1) + (yoe + 1) / 4 - (yoe + 1) / 100 + (yoe + 1) / 400.
Proof.
  intros H. cbv zeta. Z.to_euclidean_division_equations. lia.
Qed.

Import Calendar.

(** The day after the calendar date of a day number is not yet the first
    of the next month, unless ... : the day number is before the first of
    the next month. *)
Lemma civil_range (z : Z) :
  let '(y, m, d) := civil_from_days z in
  z < days_from_civil (y + m / 12) (m mod 12 + 1) 1.
Proof.
  unfold civil_from_days.
  set (z' := z + 719468).
  set (era := z' / 146097).
  set (doe := z' - era * 146097).
  assert (Hdoe : 0 <= doe < 146097).
  { unfold doe, era. pose proof (Z.div_mod z' 146097 ltac:(lia)).
    pose proof (Z.mod_pos_bound z' 146097 ltac:(lia)). lia. }
  pose proof (yoe_range doe Hdoe) as Hy. cbv zeta in Hy.
  pose proof (yoe_sharp doe Hdoe) as Hsh. cbv zeta in Hsh.
  set (yoe := (doe - doe / 1460 + doe / 36524 - doe / 146096) / 365) in *.
  set (doy := doe - (365 * yoe + yoe / 4 - yoe / 100)) in *.
  destruct Hy as [Hyoe Hdoy].
  set (mp := (5 * doy + 2) / 153).
  assert (Hmp : 0 <= mp <= 11).
  { unfold mp. Z.to_euclidean_division_equations. lia. }
  assert (Hz : z = era * 146097 + (365 * yoe + yoe / 4 - yoe / 100) + doy - 719468).
  { unfold doy, doe, z'. lia. }
  assert (Hb : (153 * mp + 2) / 5 <= doy < (153 * (mp + 1) + 2) / 5).
  { unfold mp. Z.to_euclidean_division_equations. lia. }
  assert (Hera : (yoe + era * 400) / 400 = era).
  { clearbody yoe era. clear - Hyoe. Z.to_euclidean_division_equations. lia. }
  assert (Hsh' : doy < 365 + (yoe + 1) / 4 - yoe / 4 - (yoe + 1) / 100
                       + yoe / 100 + (yoe + 1) / 400).
  { unfold doy. lia. }
  clear Hsh. clearbody mp doy yoe era. clear z' doe Hdoe. subst z.
  assert (C : mp = 0 \/ mp = 1 \/ mp = 2 \/ mp = 3 \/ mp = 4 \/ mp = 5 \/ mp = 6 \/
              mp = 7 \/ mp = 8 \/ mp = 9 \/ mp = 10 \/ mp = 11) by lia.
  destruct C as [->|[->|[->|[->|[->|[->|[->|[->|[->|[->|[->| ->]]]]]]]]]]];
    cbn [Z.ltb Z.leb Z.compare Pos.compare Pos.compare_cont Z.add Z.sub Z.opp
           Pos.add Pos.succ Z.pos_sub Pos.pred_double Z.succ_double Z.pred_double
           Z.double Pos.add_carry];
    unfold days_from_civil;
    cbn [Z.ltb Z.leb Z.compare Pos.compare Pos.compare_cont].
  all: split_ifs; try lia.
  all: Z.to_euclidean_division_equations; lia.
Qed.

(** The day number of the first of the month of index [n], where the index
    counts the months from January of year 0. *)
Definition month_start (n : Z) : Z := days_from_civil (n / 12) (n mod 12 + 1) 1.

Lemma month_start_of (y m : Z) :
  1 <= m <= 12 -> month_start (12 * y + m - 1) = days_from_civil y m 1.
Proof.
  intros Hm. unfold month_start. f_equal; Z.to_euclidean_division_equations; lia.
Qed.

Lemma month_start_next (y m : Z) :
  1 <= m <= 12 ->
  month_start (12 * y + m - 1 + 1) = days_from_civil (y + m / 12) (m mod 12 + 1) 1.
Proof.
  intros Hm. unfold month_start. f_equal; Z.to_euclidean_division_equations; lia.
Qed.

Lemma month_start_step (n : Z) :
  28 <= month_start (n + 1) - month_start n <= 31.
Proof.
  pose proof (month_length (n / 12) (n mod 12 + 1)) as L.
  assert (Hm : 1 <= n mod 12 + 1 <= 12)
    by (pose proof (Z.mod_pos_bound n 12 ltac:(lia)); lia).
  specialize (L Hm).
  rewrite <- (month_start_next (n / 12) (n mod 12 + 1) Hm) in L.
  rewrite <- (month_start_of (n / 12) (n mod 12 + 1) Hm) in L.
  assert (E : 12 * (n / 12) + (n mod 12 + 1) - 1 = n)
    by (clear; Z.to_euclidean_division_equations; lia).
  rewrite E in L. exact L.
Qed.

Lemma month_start_mono (n k : Z) :
  0 <= k -> month_start n + 28 * k <= month_start (n + k).
Proof.
  intros Hk. revert k Hk. apply natlike_ind.
  - replace (n + 0) with n by lia. lia.
  - intros k Hk IH. pose proof (month_start_step (n + k)).
    replace (n + Z.succ k) with (n + k + 1) by lia. lia.
Qed.

(** A day belongs to one month only. *)
Lemma month_unique (z n n' : Z) :
  month_start n <= z < month_start (n + 1) ->
  month_start n' <= z < month_start (n' + 1) -> n = n'.
Proof.
  intros H H'. destruct (Z.lt_trichotomy n n') as [Hlt|[->|Hgt]]; [|reflexivity|].
  - pose proof (month_start_mono (n + 1) (n' - (n + 1)) ltac:(lia)) as M.
    replace (n + 1 + (n' - (n + 1))) with n' in M by lia. lia.
  - pose proof (month_start_mono (n' + 1) (n - (n' + 1)) ltac:(lia)) as M.
    replace (n' + 1 + (n - (n' + 1))) with n in M by lia. lia.
Qed.

(** The date of day [d] of a month is read back from its day number, for
    every day that the month has. *)
Lemma civil_of_date (y m d : Z) :
  1 <= m <= 12 ->
  1 <= d <= days_from_civil (y + m / 12) (m mod 12 + 1) 1 - days_from_civil y m 1 ->
  civil_from_days (days_from_civil y m 1 + d - 1) = (y, m, d).
Proof.
  intros Hm Hd.
  pose proof (civil_roundtrip (days_from_civil y m 1 + d - 1)) as R.
  pose proof (civil_range (days_from_civil y m 1 + d - 1)) as G.
  destruct (civil_from_days (days_from_civil y m 1 + d - 1)) as [[y' m'] d'].
  destruct R as (Hm' & Hd' & E). rewrite days_from_civil_day in E.
  assert (Hn : 12 * y + m - 1 = 12 * y' + m' - 1).
  { apply (month_unique (days_from_civil y m 1 + d - 1)).
    - rewrite month_start_next, month_start_of by assumption. lia.
    - rewrite month_start_next, month_start_of by assumption. lia. }
  assert (y' = y /\ m' = m) as [-> ->] by lia.
  f_equal. lia.
Qed.

Module Days.

Import Calendar Months.

(** The number of days of the month [month] (from 0) of [year]. *)
Definition days_in_month (year month : Z) : Z :=
  MakeDay year (month + 1) 1 - MakeDay year month 1.

Lemma MakeDay_month_start (year month date : Z) :
  MakeDay year month date = month_start (12 * year + month) + date - 1.
Proof.
  unfold MakeDay, month_start.
  replace ((12 * year + month) / 12) with (year + month / 12)
    by (Z.to_euclidean_division_equations; lia).
  replace ((12 * year + month) mod 12) with (month mod 12)
    by (Z.to_euclidean_division_equations; lia).
  reflexivity.
Qed.

Lemma days_in_month_range (year month : Z) : 28 <= days_in_month year month <= 31.
Proof.
  unfold days_in_month. rewrite !MakeDay_month_start.
  pose proof (month_start_step (12 * year + month)).
  replace (12 * year + (month + 1)) with (12 * year + month + 1) by lia. lia.
Qed.

(** The year, the month and the day of a day that its month has. *)
Lemma fields_of_day (year month date tod : Z) :
  1 <= date <= days_in_month year month -> 0 <= tod < msPerDay ->
  let t := MakeDay year month date * msPerDay + tod in
  YearFromTime t = year + month / 12 /\ MonthFromTime t = month mod 12 /\
  DateFromTime t = date.
Proof.
  intros Hd Ht t. unfold YearFromTime, MonthFromTime, DateFromTime. subst t.
  rewrite Day_of by assumption.
  assert (Hm : 1 <= month mod 12 + 1 <= 12)
    by (pose proof (Z.mod_pos_bound month 12 ltac:(lia)); lia).
  assert (E : MakeDay year month date
              = days_from_civil (year + month / 12) (month mod 12 + 1) 1 + date - 1)
    by reflexivity.
  rewrite E, civil_of_date; [cbn [fst snd]; repeat split; lia|exact Hm|].
  rewrite <- (month_start_next _ _ Hm), <- (month_start_of _ _ Hm).
  unfold days_in_month in Hd. rewrite !MakeDay_month_start in Hd.
  replace (12 * (year + month / 12) + (month mod 12 + 1) - 1)
    with (12 * year + month) by (Z.to_euclidean_division_equations; lia).
  replace (12 * year + (month + 1)) with (12 * year + month + 1) in Hd by lia.
  lia.
Qed.

End Days.

Section PaymentDay.

Context {host : Host}.

Import Months Days.

Lemma new_Date_time (y m d c : Z) :
  100 <= y -> getTime (new_Date (Some y) (Some m) (Some d)) = Some c ->
  c = MakeDay y m d * msPerDay.
Proof.
  intros Hy. unfold new_Date.
  replace ((0 <=? y) && (y <=? 99)) with false
    by (symmetry; apply andb_false_iff; right; apply Z.leb_gt; lia).
  apply TimeClip_time.
Qed.

Lemma getDate_valid (d : Date) (v : Z) :
  getDate d = Some v -> exists c, getTime d = Some c /\ v = DateFromTime c.
Proof.
  unfold getDate. destruct (getTime d) as [c|]; [|discriminate].
  intros [= <-]. now exists c.
Qed.

(** The date on which a monthly contribution falls in a month: the day of
    the month of the start date, or the last day of the month when the
    month is shorter; it is a day of that month. *)
Lemma sip_payment_day (startDate : Date) (endDate : option Date) (now : Date)
    (y mo sd : Z) (paymentDate : Date) :
  100 <= y -> 0 <= mo <= 11 -> getDate startDate = Some sd ->
  sip_payment startDate endDate now (Some y) (Some mo) = Some paymentDate ->
  getFullYear paymentDate = Some y /\ getMonth paymentDate = Some mo /\
  getDate paymentDate = Some (Z.min sd (days_in_month y mo)).
Proof.
  intros Hy Hmo Hsd. unfold sip_payment. cbv zeta. rewrite Hsd.
  destruct (getDate_valid _ _ Hsd) as (cs & Hcs & Esd).
  destruct (fields_of_time cs) as (_ & Hsd1 & _). rewrite <- Esd in Hsd1.
  pose proof (days_in_month_range y mo) as HL.
  destruct (getDate (new_Date (Some y) (int_succ (Some mo)) (Some 0)))
    as [mx|] eqn:Emx.
  2:{ change (new_Date (Some y) (Some mo) (int_min (Some sd) None))
        with InvalidDate.
      unfold int_geb, int_leb. rewrite Hcs. simpl (getTime InvalidDate).
      cbn [andb]. discriminate. }
  destruct (getDate_valid _ _ Emx) as (cx & Hcx & Emx').
  cbn [int_succ option_map] in Hcx. apply (new_Date_time _ _ _ _ Hy) in Hcx.
  assert (Ecx : cx = MakeDay y mo (days_in_month y mo) * msPerDay + 0).
  { rewrite Hcx. unfold days_in_month.
    rewrite !(MakeDay_month_start y mo), !(MakeDay_month_start y (1 + mo)),
      !(MakeDay_month_start y (mo + 1)).
    replace (12 * y + (1 + mo)) with (12 * y + (mo + 1)) by lia. lia. }
  assert (Hmx : mx = days_in_month y mo).
  { rewrite Emx', Ecx.
    apply (fields_of_day y mo (days_in_month y mo) 0); unfold msPerDay; lia. }
  clear Emx Emx' Hcx Ecx cx. subst mx. cbn [int_min].
  remember (new_Date (Some y) (Some mo) (Some (Z.min sd (days_in_month y mo))))
    as p eqn:Ep.
  destruct (_ && _ && _) eqn:E; [|intros [=]]. intros [= <-].
  apply andb_prop in E. destruct E as [E _].
  apply andb_prop in E. destruct E as [E _].
  destruct (getTime p) as [cp|] eqn:Ecp; [clear E|].
  2:{ unfold int_geb, int_leb in E. rewrite Hcs in E. discriminate E. }
  rewrite Ep in Ecp. pose proof (new_Date_time _ _ _ _ Hy Ecp) as Hcp.
  rewrite <- Ep in Ecp.
  unfold getFullYear, getMonth, getDate. rewrite Ecp. cbn [option_map].
  destruct (fields_of_day y mo (Z.min sd (days_in_month y mo)) 0) as (F1 & F2 & F3);
    [lia|unfold msPerDay; lia|].
  rewrite Z.add_0_r, <- Hcp in F1, F2, F3.
  rewrite F1, F2, F3.
  rewrite (Z.div_small mo 12), (Z.mod_small mo 12), Z.add_0_r by lia.
  repeat split.
Qed.

(** A date that falls on the day [sd] of its month, or on the last day
    of its month when the month is shorter. *)
Definition on_day (sd : Z) (d : Date) : Prop :=
  exists y mo, getFullYear d = Some y /\ getMonth d = Some mo /\
               getDate d = Some (Z.min sd (days_in_month y mo)).

(** A cursor of the monthly loop: the first of a month of a year from 100
    on, or no date. *)
Definition month_cursor (d : Date) : Prop :=
  match getTime d with
  | Some c => on_the_first c /\ 100 <= YearFromTime c
  | None => True
  end.

Lemma a_month_later_year (c : Z) :
  on_the_first c ->
  YearFromTime c <= YearFromTime (a_month_later c).
Proof.
  unfold on_the_first. intros H1. rewrite H1.
  destruct (time_split c) as [_ Ht].
  destruct (fields_of_time c) as (Hm & _ & _).
  pose proof (days_in_month_range (YearFromTime c) (1 + MonthFromTime c)) as HL.
  destruct (fields_of_day (YearFromTime c) (1 + MonthFromTime c) 1
              (TimeWithinDay c) ltac:(lia) Ht) as (F1 & _).
  rewrite F1. Z.to_euclidean_division_equations; lia.
Qed.

Lemma month_cursor_next (cursorDate : Date) :
  month_cursor cursorDate ->
  month_cursor (setMonth cursorDate (int_succ (getMonth cursorDate))).
Proof.
  destruct cursorDate as [[c|]]; unfold month_cursor at 1; cbn [getTime].
  - intros [H1 Hy]. rewrite setMonth_next. unfold month_cursor.
    destruct (getTime (TimeClip _)) as [c'|] eqn:E; [|exact I].
    apply TimeClip_time in E. rewrite E. split.
    + exact (a_month_later_on_the_first c H1).
    + pose proof (a_month_later_year c H1). lia.
  - intros _. exact I.
Qed.

Lemma to_the_first_year (c : Z) : YearFromTime (to_the_first c) = YearFromTime c.
Proof.
  destruct (time_split c) as [_ Ht].
  destruct (fields_of_time c) as (Hm & _ & _).
  pose proof (days_in_month_range (YearFromTime c) (MonthFromTime c)) as HL.
  destruct (fields_of_day (YearFromTime c) (MonthFromTime c) 1
              (TimeWithinDay c) ltac:(lia) Ht) as (F1 & _).
  rewrite F1, (Z.div_small (MonthFromTime c) 12) by lia. lia.
Qed.

Lemma month_cursor_start (startDate : Date) (ys : Z) :
  getFullYear startDate = Some ys -> 100 <= ys ->
  month_cursor (setDate startDate 1).
Proof.
  intros Hys Hy. unfold month_cursor.
  destruct (getTime (setDate startDate 1)) as [c'|] eqn:E; [|exact I].
  apply setDate_time in E. destruct E as (c & Hc & ->).
  unfold getFullYear in Hys. rewrite Hc in Hys. injection Hys as Hys.
  split; [exact (to_the_first_on_the_first c)|].
  rewrite to_the_first_year. lia.
Qed.

Lemma buy_on_day (history : list NAVData.t) (amt : float) (sd : Z)
    (paymentDate : Date) (acc : Tally) :
  on_day sd paymentDate ->
  Forall (fun f => on_day sd (CashFlow.date f)) (snd acc) ->
  Forall (fun f => on_day sd (CashFlow.date f))
    (snd (buy history amt paymentDate acc)).
Proof.
  destruct acc as [[units total] flows]. intros Hp Hacc. unfold buy.
  destruct (usable _); [|exact Hacc]. cbn [snd] in *.
  apply Forall_app. split; [exact Hacc|]. now constructor.
Qed.

Lemma sip_loop_on_day (fuel : nat) (history : list NAVData.t) (amt : float)
    (startDate : Date) (endDate : option Date) (now cursorDate : Date)
    (acc : Tally) (sd : Z) :
  getDate startDate = Some sd -> month_cursor cursorDate ->
  Forall (fun f => on_day sd (CashFlow.date f)) (snd acc) ->
  Forall (fun f => on_day sd (CashFlow.date f))
    (snd (sip_loop fuel history amt startDate endDate now cursorDate acc)).
Proof.
  intros Hsd. revert cursorDate acc.
  induction fuel as [|fuel IH]; intros cursorDate acc Hc Hacc;
    cbn [sip_loop]; [exact Hacc|].
  destruct (date_leb cursorDate now); [|exact Hacc].
  apply IH; [now apply month_cursor_next|].
  destruct (sip_payment startDate endDate now (getFullYear cursorDate)
              (getMonth cursorDate)) as [paymentDate|] eqn:E; [|exact Hacc].
  apply buy_on_day; [|exact Hacc].
  unfold month_cursor in Hc. unfold getFullYear, getMonth in E.
  destruct (getTime cursorDate) as [c|].
  - destruct Hc as [_ Hy]. cbn [option_map] in E.
    destruct (fields_of_time c) as (Hm & _ & _).
    exists (YearFromTime c), (MonthFromTime c).
    exact (sip_payment_day _ _ _ _ _ _ _ Hy Hm Hsd E).
  - cbn [option_map] in E. unfold sip_payment in E. cbn [int_succ option_map] in E.
    change (new_Date None None (Some 0)) with InvalidDate in E.
    change (getDate InvalidDate) with (@None Z) in E.
    rewrite Hsd in E. cbn [int_min] in E.
    change (new_Date None None None) with InvalidDate in E.
    unfold int_geb, int_leb in E. destruct (getTime startDate); discriminate E.
Qed.

(** X10: the contributions of a monthly plan whose start date is in a year from
    100 on fall on the day of the month of the start date, and on the last
    day of the month in a month that has no such day. *)
Theorem simulateInvestment_sip_day (clock : Z) (inv : Investment.t)
    (navHistory : option (list NAVData.t)) (ys sd : Z) :
  Investment.type inv = SIP ->
  getFullYear (parseISODate (Investment.startDate inv)) = Some ys -> 100 <= ys ->
  getDate (parseISODate (Investment.startDate inv)) = Some sd ->
  Forall (fun f => on_day sd (CashFlow.date f))
    (Simulation.cashFlows (simulateInvestment clock inv navHistory)).
Proof.
  intros Ht Hys Hy Hsd. unfold simulateInvestment.
  destruct navHistory as [[|first rest]|]; try constructor.
  rewrite Ht.
  pose proof (sip_loop_on_day
                (months_fuel (setDate (parseISODate (Investment.startDate inv)) 1)
                   (today clock))
                (first :: rest) (Investment.amount inv)
                (parseISODate (Investment.startDate inv))
                (parse_end (Investment.endDate inv)) (today clock)
                (setDate (parseISODate (Investment.startDate inv)) 1) (0, 0, [])%float
                sd Hsd (month_cursor_start _ _ Hys Hy) (Forall_nil _)) as B.
  destruct (sip_loop _ _ _ _ _ _ _ _) as [[units total] flows]. exact B.
Qed.

End PaymentDay.

(** A monthly plan of 5000 from 31 January 2024, simulated on 20 March
    2024: the contributions fall on 31 January and 29 February. *)
Lemma simulateInvestment_sip_day_witness :
  map (fun f => getDate (CashFlow.date f))
    (Simulation.cashFlows
       (simulateInvestment (host := RefHost) (Series.at_1030 2024 3 20)
          (Investment.mk "Fund" true Series.newest_first_stored None SIP 5000
             "2024-01-31" None)
          (Some Series.newest_first_stored)))
  = [Some 31; Some 29] /\
  Forall (fun f => on_day 31 (CashFlow.date f))
    (Simulation.cashFlows
       (simulateInvestment (host := RefHost) (Series.at_1030 2024 3 20)
          (Investment.mk "Fund" true Series.newest_first_stored None SIP 5000
             "2024-01-31" None)
          (Some Series.newest_first_stored))).
Proof.
  split; [vm_compute; reflexivity|].
  apply (simulateInvestment_sip_day (host := RefHost) (Series.at_1030 2024 3 20)
           (Investment.mk "Fund" true Series.newest_first_stored None SIP 5000
              "2024-01-31" None)
           (Some Series.newest_first_stored) 2024 31 eq_refl).
  - vm_compute. reflexivity.
  - lia.
  - vm_compute. reflexivity.
Defined.

(* ================================================================== *)
(** * Examples *)
(* ================================================================== *)

(** The three samples of the series are fewer than 30. *)
Lemma calculateVolatility_short_witness :
  calculateVolatility (host := RefHost) Series.newest_first_stored
    (Series.day 2024 1 1) = 0%float.
Proof.
  apply (calculateVolatility_short (host := RefHost)). vm_compute. lia.
Defined.

(** A lump sum without a counterpart series, on 20 March 2024. *)
Lemma calculatePortfolioStats_neutral_witness :
  PortfolioMetrics.actualValue
    (calculatePortfolioStats (host := RefHost) (Series.at_1030 2024 3 20)
       [Plans.lumpsum Series.newest_first_stored] [] None)
  = 7500%float /\
  PortfolioMetrics.counterpartValue
    (calculatePortfolioStats (host := RefHost) (Series.at_1030 2024 3 20)
       [Plans.lumpsum Series.newest_first_stored] [] None)
  = 7500%float /\
  PortfolioMetrics.netImpact
    (calculatePortfolioStats (host := RefHost) (Series.at_1030 2024 3 20)
       [Plans.lumpsum Series.newest_first_stored] [] None)
  = 0%float.
Proof.
  destruct (calculatePortfolioStats_neutral (host := RefHost)
              (Series.at_1030 2024 3 20)
              [Plans.lumpsum Series.newest_first_stored] [] None) as [Hc Hn].
  - repeat constructor.
  - assert (Ha : PortfolioMetrics.actualValue
                   (calculatePortfolioStats (host := RefHost)
                      (Series.at_1030 2024 3 20)
                      [Plans.lumpsum Series.newest_first_stored] [] None)
                 = 7500%float) by (vm_compute; reflexivity).
    split; [exact Ha|]. split; [rewrite Hc; exact Ha|].
    apply Hn. rewrite Ha. reflexivity.
Defined.

(** A monthly plan and a lump sum, on 20 March 2024. *)
Lemma ratios_agree_with_stats_witness :
  PortfolioRatio.invested
    (FundRatios.portfolio
       (calculateFundRatios (host := RefHost) (Series.at_1030 2024 3 20)
          [Plans.sip Series.newest_first_stored;
           Plans.lumpsum Series.newest_first_stored] []))
  = PortfolioMetrics.totalInvested
      (calculatePortfolioStats (host := RefHost) (Series.at_1030 2024 3 20)
         [Plans.sip Series.newest_first_stored;
          Plans.lumpsum Series.newest_first_stored] [] None).
Proof.
  apply (ratios_agree_with_stats (host := RefHost) (Series.at_1030 2024 3 20)
           [Plans.sip Series.newest_first_stored;
            Plans.lumpsum Series.newest_first_stored] [] [] None).
  repeat constructor.
Defined.

(** The first data point of a lump sum of 5000, on 20 March 2024. *)
Lemma generateBacktestData_contributions_witness :
  exists portfolio,
    map Holding.inv portfolio = [Plans.lumpsum Series.newest_first_stored] /\
    ChartDataPoint.investedAmount
      (nth 0 (generateBacktestData (host := RefHost) (Series.at_1030 2024 3 20)
                [Plans.lumpsum Series.newest_first_stored] None) Pair.no_point)
    = Math_round (sum (map Holding.totalInvested portfolio)).
Proof.
  destruct (generateBacktestData_contributions (host := RefHost)
              (Series.at_1030 2024 3 20)
              [Plans.lumpsum Series.newest_first_stored] None
              (nth 0 (generateBacktestData (host := RefHost)
                        (Series.at_1030 2024 3 20)
                        [Plans.lumpsum Series.newest_first_stored] None)
                 Pair.no_point))
    as (portfolio & Hinv & Hamt & _).
  - vm_compute. left. reflexivity.
  - exists portfolio. split; [exact Hinv|exact Hamt].
Defined.

(** An investment that is still loading: no samples yet. *)
Lemma nothing_without_samples_witness :
  calculateFundRatios (host := RefHost) (Series.at_1030 2024 3 20)
    [Investment.mk "Fund" true [] None SIP 5000 "2024-01-15" None]
    Series.newest_first_stored
  = FundRatios.mk [] (PortfolioRatio.mk 0 0 0 0 0 0).
Proof.
  apply (nothing_without_samples (host := RefHost) (Series.at_1030 2024 3 20)
           [Investment.mk "Fund" true [] None SIP 5000 "2024-01-15" None]
           None Series.newest_first_stored).
  repeat constructor.
Defined.

Lemma reverse_date_round_trip_witness :
  reverse_date "2024-01-15" = "15-01-2024"%string /\
  reverse_date "15-01-2024" = "2024-01-15"%string.
Proof.
  split.
  - apply (proj2 (reverse_date_round_trip "2024-01-15") "2024" "01" "15")%string;
      reflexivity.
  - apply (proj2 (reverse_date_round_trip "15-01-2024") "15" "01" "2024")%string;
      reflexivity.
Defined.
